(** * Bookmarks: the event handlers and commands of [src/extension.ts]

    The extension keeps, per file, an array of bookmarks and reacts to the
    editor's events (active editor changed, text changed) and to commands
    (toggle, jump, clear, ...).  This development embeds the handlers that
    [activate] registers as functions over an explicit state: the closure
    variables of [activate] ([bookmarks], [activeEditor],
    [activeEditorCountLine], [timeout]) and the part of the host editor the
    handlers read and write.  A run of a handler yields, besides the new
    state, the calls it made to the host and to the bookmark core, in
    order.

    The bookmark core ([vscode-bookmarks-core]) is imported by the source
    but is not part of it.  Its operations are either taken as parameters
    (class [Collaborators]) or, where a property depends on what they
    compute, modelled from the specification: each such definition says
    so in its comment and names the section of the specification it
    follows.  Module [Sample] gives one instance of the parameters, used
    to run the handlers on concrete inputs.

    The list views ([list], [listFromAllFiles] with [removeBasePathFrom])
    and the selection commands change no state: they are embedded as
    functions from the state to what they show or ask of the core.  What
    they take from the language's and the platform's libraries
    ([toLowerCase], [trim], [path.sep], [path.join]) is a parameter as
    well (class [Platform]). *)

From Stdlib Require Import ZArith Lia String Ascii.
From stdpp Require Import base option list sorting strings pretty gmap.

Local Open Scope string_scope.
Local Open Scope Z_scope.

(** ** Data model *)

(** A bookmark object [{ line, column, label }]. *)
Record Bookmark := mkBookmark {
  line : Z;
  column : Z;
  label : string
}.

(** [BookmarkedFile]: the bookmarks of one file, an array in the source. *)
Record BookmarkedFile := mkFile {
  path : string;
  bookmarks : list Bookmark
}.

(** [BookmarksController]: the files in storage order
    ([bookmarks.storage.fileList]) and the reference
    [bookmarks.activeBookmark].  A reference to a file object is its index
    in [fileList], so two references to the same object are equal indices;
    [None] is [undefined]. *)
Record BookmarksController := mkController {
  fileList : list BookmarkedFile;
  activeBookmark : option nat
}.

(** [vscode.Position] *)
Record Position := mkPosition {
  pos_line : Z;
  character : Z
}.

(** [vscode.TextDocument]: [uri.fsPath] and the text, line by line.  The
    editor has one document object per resource, so the identity test
    [event.document === activeEditor.document] is equality of [fsPath]. *)
Record TextDocument := mkDocument {
  fsPath : string;
  lines : list string
}.

Definition lineCount (d : TextDocument) : Z := Z.of_nat (length (lines d)).

(** [document.lineAt(n).text]; [None] where the editor throws. *)
Definition lineAt (d : TextDocument) (n : nat) : option string := lines d !! n.

(** [vscode.TextEditor]: its document and [selection.active]. *)
Record TextEditor := mkEditor {
  document : TextDocument;
  selection_active : Position
}.

(** One entry of [event.contentChanges]: the lines the replaced range
    spanned and the inserted text. *)
Record ContentChange := mkChange {
  range_start_line : Z;
  range_end_line : Z;
  change_text : string
}.

(** [vscode.TextDocumentChangeEvent]; [ev_document] is the document after
    the edit. *)
Record TextDocumentChangeEvent := mkChangeEvent {
  ev_document : TextDocument;
  contentChanges : list ContentChange
}.

Inductive Directions := Forward | Backward.

(** What a handler can throw: the language's [TypeError] and
    [SyntaxError], and the two failures the spec gives the core's array
    operations. *)
Inductive Exn :=
| TypeError (what : string)
| SyntaxError (msg : string)
| DuplicateLine
| IndexOutOfRange.

(** The values that reach the dynamically typed places of the source:
    the argument of [indexOfBookmark], the result of a navigation promise,
    the reason of a rejected promise. *)
Inductive JsValue :=
| VUndefined
| VNumber (n : Z)
| VString (s : string)
| VPosition (p : Position)
| VBookmark (b : Bookmark)
| VError (e : Exn).

(** [v === n] for a number [n]: strict equality never holds between a
    number and a value of another type. *)
Definition strict_equals_number (v : JsValue) (n : Z) : bool :=
  match v with VNumber m => m =? n | _ => false end.

(** A settled promise. *)
Inductive Promise (A : Type) :=
| Resolved (a : A)
| Rejected (reason : JsValue).
Arguments Resolved {A} a.
Arguments Rejected {A} reason.

(** ** Arrays *)

Section Arrays.
Context {A : Type}.

(** [arr.splice(start, 1)]: a negative [start] counts from the end,
    and is clamped to the array; one element is removed when there is one
    at the resulting index. *)
Definition splice1 (start : Z) (arr : list A) : list A :=
  let len := Z.of_nat (length arr) in
  let actualStart :=
    if start <? 0 then Z.max (len + start) 0 else Z.min start len in
  delete (Z.to_nat actualStart) arr.

(** [arr.sort(compare)] as a stable insertion sort: [sort_insert x l]
    puts [x] before the first element it does not compare greater than. *)
Fixpoint sort_insert (compare : A -> A -> Z) (x : A) (l : list A) : list A :=
  match l with
  | [] => [x]
  | y :: l' =>
      if compare x y <=? 0 then x :: y :: l'
      else y :: sort_insert compare x l'
  end.

Definition array_sort (compare : A -> A -> Z) (arr : list A) : list A :=
  foldr (sort_insert compare) [] arr.

End Arrays.

(** The comparator both [toggle] and [askForBookmarkLabel] pass to
    [sort]. *)
Definition compare_by_line (n1 n2 : Bookmark) : Z :=
  if line n2 <? line n1 then 1
  else if line n1 <? line n2 then -1
  else 0.

(** Ascending and strictly ascending order of line. *)
Definition line_le (a b : Bookmark) : Prop := line a <= line b.

Definition line_lt (a b : Bookmark) : Prop := line a < line b.

(** ** State, effects and errors *)

(** What a handler tells the host or asks of the core, in the order it
    does so. *)
Inductive Event :=
| ShowInformationMessage (msg : string)
| ShowWarningMessage (msg : string)
| ShowErrorMessage (msg : string)
| SetDecorations (lines : list Z)
| Reveal (line column : Z)
| OpenTextDocument (path : string)
| ShowTextDocument (path : string)
| CoreAddBookmark (file : nat) (line : Z)
| CoreRemoveBookmark (file : nat) (index : Z)
| CoreClear (file : nat)
| CoreClearAll
| CoreSticky (countLine : option Z) (updated : bool)
| CoreNextBookmark (dir : Directions)
| CoreNextDocumentWithBookmarks (dir : Directions)
| SaveWorkspaceState (snapshot : list BookmarkedFile).

(** The part of the host the handlers read and write: the settings
    [bookmarks.useWorkaroundForFormatters], [bookmarks.saveBookmarksInProject]
    and [bookmarks.gutterIconPath], the workspace folders, the file system
    ([fs]), the extension's workspace state under the key ["bookmarks"],
    and, for each document [openTextDocument] can open, the editor
    [showTextDocument] shows it in. *)
Record Host := mkHost {
  useWorkaroundForFormatters : bool;
  saveBookmarksInProject : bool;
  gutterIconPath : string;
  workspaceFolders : option (list string);
  fs_files : gmap string string;
  workspaceState : option string;
  openable : list TextEditor
}.

(** The closure variables of [activate], and the host.  Between two
    events the variable [activeEditor] and the host's
    [vscode.window.activeTextEditor] are the same editor, so the field
    [activeEditor] stands for both. *)
Record State := mkState {
  controller : BookmarksController;
  activeEditorCountLine : option Z;
  timeout : bool;
  activeEditor : option TextEditor;
  host : Host
}.

Inductive Result (A : Type) :=
| Ok (a : A)
| Throw (e : Exn).
Arguments Ok {A} a.
Arguments Throw {A} e.

(** One run of a handler: whether it completed or threw, the state it
    left (what it changed before throwing stays changed), and the events
    it emitted, oldest first. *)
Record Run (A : Type) := mkRun {
  result : Result A;
  state_after : State;
  events : list Event
}.
Arguments mkRun {A} result state_after events.
Arguments result {A} r.
Arguments state_after {A} r.
Arguments events {A} r.

Definition M (A : Type) : Type := State -> Run A.

Definition ret {A} (a : A) : M A := fun st => mkRun (Ok a) st [].

Definition bind {A B} (m : M A) (k : A -> M B) : M B :=
  fun st =>
    let r := m st in
    match result r with
    | Ok a =>
        let r' := k a (state_after r) in
        mkRun (result r') (state_after r') (events r ++ events r')
    | Throw e => mkRun (Throw e) (state_after r) (events r)
    end.

Definition throw {A} (e : Exn) : M A := fun st => mkRun (Throw e) st [].

Definition get : M State := fun st => mkRun (Ok st) st [].

Definition modify (f : State -> State) : M unit :=
  fun st => mkRun (Ok tt) (f st) [].

(** [try { m } catch (error) { handler error }] *)
Definition try_catch {A} (m : M A) (handler : Exn -> M A) : M A :=
  fun st =>
    let r := m st in
    match result r with
    | Ok a => r
    | Throw e =>
        let r' := handler e (state_after r) in
        mkRun (result r') (state_after r') (events r ++ events r')
    end.

Notation "'let*' x ':=' m 'in' k" := (bind m (fun x => k))
  (at level 10, x name, m at level 100, k at level 200).

Definition emit (e : Event) : M unit := fun st => mkRun (Ok tt) st [e].

Definition set_controller (c : BookmarksController) : M unit :=
  modify (fun st => mkState c (activeEditorCountLine st)
                      (timeout st) (activeEditor st) (host st)).

Definition set_activeEditorCountLine (n : option Z) : M unit :=
  modify (fun st => mkState (controller st) n
                      (timeout st) (activeEditor st) (host st)).

Definition set_timeout (b : bool) : M unit :=
  modify (fun st => mkState (controller st) (activeEditorCountLine st)
                      b (activeEditor st) (host st)).

Definition set_activeEditor (e : option TextEditor) : M unit :=
  modify (fun st => mkState (controller st) (activeEditorCountLine st)
                      (timeout st) e (host st)).

Definition set_host (h : Host) : M unit :=
  modify (fun st => mkState (controller st) (activeEditorCountLine st)
                      (timeout st) (activeEditor st) h).

(** ** The controller as a store of file objects *)

(** The file object a reference points to. *)
Definition file_at (c : BookmarksController) (i : nat) : option BookmarkedFile :=
  fileList c !! i.

(** [bookmarks.activeBookmark], [None] when it is [undefined]. *)
Definition active_file (c : BookmarksController) : option (nat * BookmarkedFile) :=
  match activeBookmark c with
  | Some i => match fileList c !! i with
              | Some f => Some (i, f)
              | None => None
              end
  | None => None
  end.

(** [file.bookmarks = bks] on the file object [i]. *)
Definition set_bookmarks (i : nat) (bks : list Bookmark)
    (c : BookmarksController) : BookmarksController :=
  mkController
    (alter (fun f => mkFile (path f) bks) i (fileList c))
    (activeBookmark c).

Definition set_activeBookmark (r : option nat)
    (c : BookmarksController) : BookmarksController :=
  mkController (fileList c) r.

(** ** Collaborators

    What the source imports and this development leaves open: the core's
    sentinel constants, path normalisation, the two navigation queries,
    the sticky adjuster, and (de)serialisation ([JSON.parse],
    [loadFrom], and [JSON.stringify] of [zip]).  Every definition and
    theorem below holds for whatever they are. *)
Class Collaborators := {
  NO_BOOKMARKS_BEFORE : Z;
  NO_BOOKMARKS_AFTER : Z;
  NO_MORE_BOOKMARKS : Z;
  (** [BookmarksController.normalize(path)] *)
  normalize : string -> string;
  (** [file.nextBookmark(position, direction)]: resolves to a number or
      to a position. *)
  nextBookmark :
    BookmarkedFile -> Position -> Directions -> Promise (Z + Position);
  (** [bookmarks.nextDocumentWithBookmarks(active, direction)]: resolves
      to a number or to a path. *)
  nextDocumentWithBookmarks :
    BookmarksController -> nat -> Directions -> Promise (Z + string);
  (** [Sticky.stickyBookmarks(event, activeEditorCountLine,
      activeBookmark, activeEditor, bookmarks)]: whether it updated a
      bookmark, and the controller it leaves. *)
  stickyBookmarks :
    TextDocumentChangeEvent -> option Z -> nat -> TextEditor ->
    BookmarksController -> bool * BookmarksController;
  JSON : Type;
  (** [JSON.parse(text)] *)
  JSON_parse : string -> Result JSON;
  (** [bookmarks.loadFrom(json, relativePath)] *)
  loadFrom :
    JSON -> bool -> BookmarksController -> Result unit * BookmarksController;
  (** [JSON.stringify(bookmarks.zip(relativePath))] *)
  serialize : bool -> BookmarksController -> string
}.

Section Extension.
Context `{Collaborators}.

(** ** The core's array operations *)

(** Modelled from the spec: [indexOfBookmark] of the core's
    [BookmarkedFile] is missing from the sources.  The spec (4.2) has it
    return the index of the entry at the given line, or -1, by a search
    over the current entries.  The entry's line is compared with the
    argument as the source language compares ([===]), so an argument
    that is not a number matches no entry. *)
Fixpoint indexOfBookmark_from (index : Z) (arg : JsValue)
    (bks : list Bookmark) : Z :=
  match bks with
  | [] => -1
  | element :: rest =>
      if strict_equals_number arg (line element) then index
      else indexOfBookmark_from (index + 1) arg rest
  end.

Definition indexOfBookmark (arg : JsValue) (bks : list Bookmark) : Z :=
  indexOfBookmark_from 0 arg bks.

(** [book ? book : this.activeBookmark], dereferenced. *)
Definition book_or_active (book : option nat) (c : BookmarksController)
    : option (nat * BookmarkedFile) :=
  match book with
  | Some i => match file_at c i with
              | Some f => Some (i, f)
              | None => None
              end
  | None => active_file c
  end.

(** Modelled from the spec: [addBookmark] of the core's controller is
    missing from the sources.  The spec (4.2, [add]) inserts a new
    bookmark with the label defaulting to the empty string, keeps the
    order by line, and fails with [DuplicateLine] when the line already
    has one. *)
Definition addBookmark (position : Position) (label : option string)
    (book : option nat) : M unit :=
  let* st := get in
  match book_or_active book (controller st) with
  | None => throw (TypeError "book is undefined")
  | Some (i, f) =>
      if 0 <=? indexOfBookmark (VNumber (pos_line position)) (bookmarks f)
      then throw DuplicateLine
      else
        let b := mkBookmark (pos_line position) (character position)
                            (default "" label) in
        let* _ := set_controller
                    (set_bookmarks i
                       (sort_insert compare_by_line b (bookmarks f))
                       (controller st)) in
        emit (CoreAddBookmark i (pos_line position))
  end.

(** Modelled from the spec: [removeBookmark] of the core's controller is
    missing from the sources.  The spec (4.2, [remove]) removes the entry
    at the index and fails with [IndexOutOfRange] when there is none. *)
Definition removeBookmark (index : Z) (aline : Z) (book : option nat)
    : M unit :=
  let* st := get in
  match book_or_active book (controller st) with
  | None => throw (TypeError "book is undefined")
  | Some (i, f) =>
      if (index <? 0) || (Z.of_nat (length (bookmarks f)) <=? index)
      then throw IndexOutOfRange
      else
        let* _ := set_controller
                    (set_bookmarks i
                       (delete (Z.to_nat index) (bookmarks f))
                       (controller st)) in
        emit (CoreRemoveBookmark i index)
  end.

(** Modelled from the spec: [clear] of the core's controller is missing
    from the sources.  The spec (4.2, [clear]) empties the set and keeps
    the set object. *)
Definition core_clear (book : option nat) : M unit :=
  let* st := get in
  match book_or_active book (controller st) with
  | None => throw (TypeError "book is undefined")
  | Some (i, f) =>
      let* _ := set_controller (set_bookmarks i [] (controller st)) in
      emit (CoreClear i)
  end.

(** Modelled from the spec: [clearAll] of the core's controller is
    missing from the sources; it is [clear] (4.2) on every set. *)
Definition core_clearAll : M unit :=
  let* st := get in
  let c := controller st in
  let* _ := set_controller
              (mkController
                 ((fun f => mkFile (path f) []) <$> fileList c)
                 (activeBookmark c)) in
  emit CoreClearAll.

(** Modelled from the spec: [fromUri] of the core's controller is missing
    from the sources.  The spec (4.4) resolves a path to its set through
    the normalised path, with no result when the path is unknown. *)
Fixpoint fromUri_from (index : nat) (npath : string)
    (files : list BookmarkedFile) : option nat :=
  match files with
  | [] => None
  | f :: rest =>
      if String.eqb (path f) npath then Some index
      else fromUri_from (S index) npath rest
  end.

Definition fromUri (uri : string) (c : BookmarksController) : option nat :=
  fromUri_from 0%nat (normalize uri) (fileList c).

(** Modelled from the spec: [add] of the core's controller is missing
    from the sources.  The spec (4.4, [ensureFile]) registers a new empty
    set for the normalised path unless one exists. *)
Definition core_add (uri : string) (c : BookmarksController)
    : BookmarksController :=
  match fromUri uri c with
  | Some _ => c
  | None => mkController (fileList c ++ [mkFile (normalize uri) []])
                         (activeBookmark c)
  end.

(** Modelled from the spec: [hasAnyBookmark] of the core's controller is
    missing from the sources.  The spec (4.4): some set has a bookmark. *)
Definition hasAnyBookmark (c : BookmarksController) : bool :=
  existsb (fun f => negb (Nat.eqb (length (bookmarks f)) 0)) (fileList c).

(** ** Decorations *)

(** The loop of [updateDecorations] over the bookmarks: the lines to
    decorate ([books]) and the bookmarks found invalid, both in array
    order. *)
Fixpoint split_valid (count : Z) (bks : list Bookmark)
    : list Z * list Bookmark :=
  match bks with
  | [] => ([], [])
  | element :: rest =>
      let (books, invalids) := split_valid count rest in
      if line element <=? count then (line element :: books, invalids)
      else (books, element :: invalids)
  end.

(** The loop over [invalids]: each round looks the element up with
    [indexOfBookmark(element)] and splices one entry at the index it
    got. *)
Definition remove_invalids (invalids bks : list Bookmark) : list Bookmark :=
  fold_left
    (fun arr element => splice1 (indexOfBookmark (VBookmark element) arr) arr)
    invalids bks.

(** What [updateDecorations] leaves in [activeBookmark.bookmarks] and
    passes to [setDecorations], for a non-empty array. *)
Definition decorate (d : TextDocument) (bks : list Bookmark)
    : list Bookmark * list Z :=
  if (lineCount d =? 1) && bool_decide (lineAt d 0 = Some "")
  then ([], [])
  else
    let (books, invalids) := split_valid (lineCount d) bks in
    (remove_invalids invalids bks, books).

Definition updateDecorations : M unit :=
  let* st := get in
  match activeEditor st with
  | None => ret tt
  | Some ed =>
      match active_file (controller st) with
      | None => ret tt
      | Some (i, f) =>
          if Nat.eqb (length (bookmarks f)) 0
          then emit (SetDecorations [])
          else
            let (kept, books) := decorate (document ed) (bookmarks f) in
            let* _ := set_controller (set_bookmarks i kept (controller st)) in
            emit (SetDecorations books)
      end
  end.

(** [setTimeout(updateDecorations, 100)], replacing a pending timer. *)
Definition triggerUpdateDecorations : M unit := set_timeout true.

(** The timer set by [triggerUpdateDecorations] fires. *)
Definition onTimeout : M unit :=
  let* st := get in
  if timeout st then
    let* _ := set_timeout false in updateDecorations
  else ret tt.

(** ** Persistence *)

Definition canSaveBookmarksInProject (h : Host) : bool :=
  let saveBookmarksInProject := saveBookmarksInProject h in
  if saveBookmarksInProject &&
     match workspaceFolders h with
     | None => true
     | Some folders => (1 <? length folders)%nat
     end
  then false
  else saveBookmarksInProject.

(** [path.join(folder, ".vscode", "bookmarks.json")] *)
Definition bookmarksFileInProject (folder : string) : string :=
  folder +:+ "/.vscode/bookmarks.json".

Definition Exn_toString (e : Exn) : string :=
  match e with
  | TypeError what => "TypeError: " +:+ what
  | SyntaxError msg => "SyntaxError: " +:+ msg
  | DuplicateLine => "DuplicateLine"
  | IndexOutOfRange => "IndexOutOfRange"
  end.

(** A value or an exception, inside a handler. *)
Definition lift {A} (r : Result A) : M A := fun st => mkRun r st [].

(** [bookmarks.loadFrom(json, relativePath)] on the controller in the
    state. *)
Definition do_loadFrom (json : JSON) (relativePath : bool) : M unit :=
  fun st =>
    let (r, c) := loadFrom json relativePath (controller st) in
    mkRun r
          (mkState c (activeEditorCountLine st) (timeout st) (activeEditor st)
                   (host st))
          [].

Definition loadWorkspaceState : M bool :=
  let* st := get in
  let saveBookmarksInProject := canSaveBookmarksInProject (host st) in
  let* _ := set_controller (mkController [] None) in
  if saveBookmarksInProject then
    match workspaceFolders (host st) with
    | None => ret false
    | Some [] => throw (TypeError "workspaceFolders[0] is undefined")
    | Some (folder :: _) =>
        let file := bookmarksFileInProject folder in
        match fs_files (host st) !! file with
        | None => ret false
        | Some text =>
            try_catch
              (let* json := lift (JSON_parse text) in
               let* _ := do_loadFrom json true in
               ret true)
              (fun error =>
                 let* _ := emit (ShowErrorMessage
                                   ("Error loading Bookmarks: "
                                    +:+ Exn_toString error)) in
                 ret false)
        end
    end
  else
    let savedBookmarks := default "" (workspaceState (host st)) in
    let* _ :=
      if negb (String.eqb savedBookmarks "") then
        let* json := lift (JSON_parse savedBookmarks) in
        do_loadFrom json false
      else ret tt in
    ret (negb (String.eqb savedBookmarks "")).

Definition write_fs (files : gmap string string) (h : Host) : Host :=
  mkHost (useWorkaroundForFormatters h) (saveBookmarksInProject h)
         (gutterIconPath h) (workspaceFolders h) files (workspaceState h)
         (openable h).

Definition write_workspaceState (v : string) (h : Host) : Host :=
  mkHost (useWorkaroundForFormatters h) (saveBookmarksInProject h)
         (gutterIconPath h) (workspaceFolders h) (fs_files h) (Some v)
         (openable h).

(** Directories are not modelled, so the [mkdirSync] of the source has
    no counterpart.  Each branch that persists the store logs
    [SaveWorkspaceState] with the files it persisted. *)
Definition saveWorkspaceState : M unit :=
  let* st := get in
  let c := controller st in
  if canSaveBookmarksInProject (host st) then
    match workspaceFolders (host st) with
    | Some (folder :: _) =>
        let file := bookmarksFileInProject folder in
        if negb (hasAnyBookmark c) then
          let* _ := set_host (write_fs (delete file (fs_files (host st)))
                                       (host st)) in
          emit (SaveWorkspaceState (fileList c))
        else
          let* _ := set_host
                      (write_fs (<[file := serialize true c]>
                                   (fs_files (host st)))
                                (host st)) in
          emit (SaveWorkspaceState (fileList c))
    | _ => throw (TypeError "workspaceFolders[0] is undefined")
    end
  else
    let* _ := set_host (write_workspaceState (serialize false c) (host st)) in
    emit (SaveWorkspaceState (fileList c)).

(** ** Editor events *)

(** [revealPosition(line, column)] with a column that is a number: the
    selection moves there and the range is revealed. *)
Definition revealPosition (line column : Z) : M unit :=
  let* st := get in
  match activeEditor st with
  | None => throw (TypeError "activeTextEditor is undefined")
  | Some ed =>
      let* _ := set_activeEditor
                  (Some (mkEditor (document ed) (mkPosition line column))) in
      emit (Reveal line column)
  end.

(** [onDidOpenTextDocument] *)
Definition onDidOpenTextDocument (doc : TextDocument) : M unit :=
  let* st := get in
  set_controller (core_add (fsPath doc) (controller st)).

(** [onDidChangeActiveTextEditor] *)
Definition onDidChangeActiveTextEditor (editor : option TextEditor) : M unit :=
  let* _ := set_activeEditor editor in
  match editor with
  | Some e =>
      let* _ := set_activeEditorCountLine (Some (lineCount (document e))) in
      let* st := get in
      let* _ := set_controller
                  (set_activeBookmark
                     (fromUri (fsPath (document e)) (controller st))
                     (controller st)) in
      triggerUpdateDecorations
  | None => ret tt
  end.

(** The call of [Sticky.stickyBookmarks] in the text-change handler. *)
Definition call_sticky (event : TextDocumentChangeEvent) (i : nat)
    (ed : TextEditor) : M bool :=
  let* st := get in
  let (updated, c) :=
    stickyBookmarks event (activeEditorCountLine st) i ed (controller st) in
  let* _ := set_controller c in
  let* _ := emit (CoreSticky (activeEditorCountLine st) updated) in
  ret updated.

(** [onDidChangeTextDocument].  The event's document and the active
    editor's are one object, so when the handler runs the editor's document
    already has the text after the edit: the first step of the matching
    branch brings the state's copy up to date. *)
Definition onDidChangeTextDocument (event : TextDocumentChangeEvent) : M unit :=
  let* st := get in
  match activeEditor st with
  | None => ret tt
  | Some ed =>
      if String.eqb (fsPath (ev_document event)) (fsPath (document ed)) then
        let ed' := mkEditor (ev_document event) (selection_active ed) in
        let* _ := set_activeEditor (Some ed') in
        if useWorkaroundForFormatters (host st) then
          updateDecorations
        else
          let* updatedBookmark :=
            match active_file (controller st) with
            | Some (i, f) =>
                if (0 <? length (bookmarks f))%nat
                then call_sticky event i ed'
                else ret false
            | None => ret false
            end in
          let* _ := set_activeEditorCountLine
                      (Some (lineCount (ev_document event))) in
          let* _ := updateDecorations in
          if updatedBookmark then saveWorkspaceState else ret tt
      else ret tt
  end.

(** [openTextDocument(path).then(doc => showTextDocument(doc).then(editor
    => k))]: when the host can open the path it makes the document's
    editor the active one, which runs the two listeners above before the
    continuation; otherwise the promise rejects and nothing follows.  A
    document that is already the active one changes no editor. *)
Definition open_and_show (uri : string) (k : M unit) : M unit :=
  let* _ := emit (OpenTextDocument uri) in
  let* st := get in
  match find (fun e => String.eqb (fsPath (document e)) uri)
             (openable (host st)) with
  | None => ret tt
  | Some target =>
      let* _ := onDidOpenTextDocument (document target) in
      let* _ := emit (ShowTextDocument uri) in
      let* _ :=
        match activeEditor st with
        | Some ed =>
            if String.eqb (fsPath (document ed)) uri then ret tt
            else onDidChangeActiveTextEditor (Some target)
        | None => onDidChangeActiveTextEditor (Some target)
        end in
      k
  end.

(** A double quote, for the messages that have one. *)
Definition double_quote : string := String (ascii_of_nat 34) EmptyString.

(** The error [createTextEditorDecoration] shows for an icon file that
    does not exist. *)
Definition icon_missing_message (pathIcon : string) : string :=
  "The file " +:+ double_quote +:+ pathIcon +:+ double_quote
  +:+ " used for " +:+ double_quote +:+ "bookmarks.gutterIconPath"
  +:+ double_quote +:+ " does not exists.".

(** [createTextEditorDecoration]: the check of the icon the setting
    [bookmarks.gutterIconPath] names, which shows an error when the file
    does not exist.  The decoration type the function returns is no part
    of the state (a [SetDecorations] carries the lines only), so its
    options are not built: the icon, which falls back to the extension's
    own image, the colours and the lane.  [fs.existsSync] holds of the
    files of [fs_files]; directories are not modelled. *)
Definition createTextEditorDecoration : M unit :=
  let* st := get in
  let pathIcon := gutterIconPath (host st) in
  if negb (String.eqb pathIcon "") then
    match fs_files (host st) !! pathIcon with
    | None => emit (ShowErrorMessage (icon_missing_message pathIcon))
    | Some _ => ret tt
    end
  else ret tt.

(** The body of [activate] that sets the state up, from the host and
    [vscode.window.activeTextEditor]: the load, the decoration type and
    the active editor.  The page and the side bar view of the modules
    [vscode-whats-new] and [sidebar], and the registration of the
    listeners and commands, are not part of it. *)
Definition initial_state (h : Host) : State :=
  mkState (mkController [] None) None false None h.

Definition activate (activeTextEditor : option TextEditor) : M unit :=
  let* didLoadBookmarks := loadWorkspaceState in
  let* _ := createTextEditorDecoration in
  let* _ := set_activeEditor activeTextEditor in
  match activeTextEditor with
  | Some e =>
      let* st := get in
      let* _ :=
        if negb didLoadBookmarks
        then set_controller (core_add (fsPath (document e)) (controller st))
        else ret tt in
      let* _ := set_activeEditorCountLine (Some (lineCount (document e))) in
      let* st := get in
      let* _ := set_controller
                  (set_activeBookmark
                     (fromUri (fsPath (document e)) (controller st))
                     (controller st)) in
      triggerUpdateDecorations
  | None => ret tt
  end.

(** ** Commands *)

(** [bookmarks.clear] *)
Definition clear : M unit :=
  let* st := get in
  match activeEditor st with
  | None => emit (ShowInformationMessage "Open a file first to clear bookmarks")
  | Some _ =>
      let* _ := core_clear None in
      let* _ := saveWorkspaceState in
      updateDecorations
  end.

(** [bookmarks.clearFromAllFiles] *)
Definition clearFromAllFiles : M unit :=
  let* _ := core_clearAll in
  let* _ := saveWorkspaceState in
  updateDecorations.

(** [bookmarks.clearFromFile], on [node.bookmark]. *)
Definition clearFromFile (node_bookmark : option nat) : M unit :=
  let* _ := core_clear node_bookmark in
  let* _ := saveWorkspaceState in
  updateDecorations.

(** [bookmarks.deleteBookmark], on [node.command.arguments]: the path
    and the line, counted from one. *)
Definition deleteBookmark (argument0 : string) (argument1 : Z) : M unit :=
  let* st := get in
  match fromUri argument0 (controller st) with
  | None => throw (TypeError "book is undefined")
  | Some bi =>
      match file_at (controller st) bi with
      | None => throw (TypeError "book is undefined")
      | Some book =>
          let index :=
            indexOfBookmark (VNumber (argument1 - 1)) (bookmarks book) in
          let* _ := removeBookmark index (argument1 - 1) (Some bi) in
          let* _ := saveWorkspaceState in
          updateDecorations
      end
  end.

Definition checkBookmarks (result : JsValue) : M bool :=
  if strict_equals_number result NO_BOOKMARKS_BEFORE
     || strict_equals_number result NO_BOOKMARKS_AFTER
  then
    let* _ := emit (ShowInformationMessage "No more bookmarks") in
    ret false
  else ret true.

(** A value of type [number | vscode.Position] or [number | string]. *)
Definition of_next (next : Z + Position) : JsValue :=
  match next with inl n => VNumber n | inr p => VPosition p end.

(** [nextDocument.toString()] *)
Definition document_toString (nextDocument : Z + string) : string :=
  match nextDocument with inl n => pretty n | inr s => s end.

(** [bookmarks.activeBookmark.bookmarks[0]] and
    [...bookmarks[bookmarks.length - 1]]; [None] is [undefined]. *)
Definition first_bookmark (bks : list Bookmark) : option Bookmark :=
  bks !! 0%nat.

Definition last_bookmark (bks : list Bookmark) : option Bookmark :=
  if Nat.eqb (length bks) 0 then None else bks !! (length bks - 1)%nat.

(** [revealPosition(b.line, b.column)] for the bookmark [b] that [pick]
    selects in the set that is active when this runs. *)
Definition reveal_in_active (pick : list Bookmark -> option Bookmark)
    : M unit :=
  let* st := get in
  match active_file (controller st) with
  | None => throw (TypeError "activeBookmark is undefined")
  | Some (_, f) =>
      match pick (bookmarks f) with
      | None => throw (TypeError "bookmarks[index] is undefined")
      | Some b => revealPosition (line b) (column b)
      end
  end.

(** A promise chain nobody awaits: what its callbacks throw reaches no
    caller. *)
Definition detached (m : M unit) : M unit :=
  try_catch m (fun _ => ret tt).

(** The cross-file part the two jump commands share:
    [nextDocumentWithBookmarks(activeBookmark, dir).then(..)
    .catch(checkBookmarks)]. *)
Definition jump_to_document (dir : Directions)
    (pick : list Bookmark -> option Bookmark) : M unit :=
  let* st := get in
  match active_file (controller st) with
  | None => throw (TypeError "activeBookmark is undefined")
  | Some (i, _) =>
      let* _ := emit (CoreNextDocumentWithBookmarks dir) in
      match nextDocumentWithBookmarks (controller st) i dir with
      | Rejected error =>
          let* _ := checkBookmarks error in ret tt
      | Resolved nextDocument =>
          try_catch
            (if strict_equals_number
                  (match nextDocument with
                   | inl n => VNumber n
                   | inr s => VString s
                   end) NO_MORE_BOOKMARKS
             then ret tt
             else
               let* st := get in
               match activeEditor st with
               | None => throw (TypeError "activeTextEditor is undefined")
               | Some ed =>
                   let activeDocument := normalize (fsPath (document ed)) in
                   if String.eqb (document_toString nextDocument)
                                 activeDocument
                   then reveal_in_active pick
                   else
                     open_and_show (document_toString nextDocument)
                                   (detached (reveal_in_active pick))
               end)
            (fun error => let* _ := checkBookmarks (VError error) in ret tt)
      end
  end.

(** [bookmarks.jumpToNext] *)
Definition jumpToNext : M unit :=
  let* st := get in
  match activeEditor st with
  | None =>
      emit (ShowInformationMessage "Open a file first to jump to bookmarks")
  | Some ed =>
      match active_file (controller st) with
      | None => ret tt
      | Some (_, f) =>
          let* _ := emit (CoreNextBookmark Forward) in
          match nextBookmark f (selection_active ed) Forward with
          | Rejected error => ret tt
          | Resolved next =>
              detached
                match next with
                | inl n =>
                    let* more := checkBookmarks (VNumber n) in
                    if negb more then ret tt
                    else jump_to_document Forward first_bookmark
                | inr p => revealPosition (pos_line p) (character p)
                end
          end
      end
  end.

(** [bookmarks.jumpToPrevious] *)
Definition jumpToPrevious : M unit :=
  let* st := get in
  match activeEditor st with
  | None =>
      emit (ShowInformationMessage "Open a file first to jump to bookmarks")
  | Some ed =>
      match active_file (controller st) with
      | None => ret tt
      | Some (_, f) =>
          let* _ := emit (CoreNextBookmark Backward) in
          match nextBookmark f (selection_active ed) Backward with
          | Rejected error => ret tt
          | Resolved next =>
              detached
                (let* more := checkBookmarks (of_next next) in
                 if negb more then ret tt
                 else
                   match next with
                   | inl _ => jump_to_document Backward last_bookmark
                   | inr p => revealPosition (pos_line p) (character p)
                   end)
          end
      end
  end.

(** [b.bookmarks.sort(..)] on the file object [i]. *)
Definition sort_bookmarks (i : nat) (c : BookmarksController)
    : BookmarksController :=
  match file_at c i with
  | Some f => set_bookmarks i (array_sort compare_by_line (bookmarks f)) c
  | None => c
  end.

(** [vscode.window.showTextDocument(activeTextEditor.document, ..)]: the
    document shown is the active one, so no editor changes. *)
Definition show_active_document : M unit :=
  let* st := get in
  match activeEditor st with
  | None => throw (TypeError "activeTextEditor is undefined")
  | Some ed => emit (ShowTextDocument (fsPath (document ed)))
  end.

(** The callback [askForBookmarkLabel] gives to [showInputBox(..).then],
    run on what the input box resolved to: [None] when it was dismissed.
    An [oldLabel] or [book] of [None] is an argument left out. *)
Definition askForBookmarkLabel (index : Z) (position : Position)
    (oldLabel : option string) (jumpToPosition : bool) (book : option nat)
    (input : option string) : M unit :=
  match input with
  | None => ret tt
  | Some bookmarkLabel =>
      if String.eqb bookmarkLabel ""
         && (bool_decide (oldLabel = Some "") || jumpToPosition)
      then emit (ShowWarningMessage "You must define a label for the bookmark.")
      else
        let* _ :=
          if 0 <=? index
          then removeBookmark index (pos_line position) book
          else ret tt in
        let* _ := addBookmark position (Some bookmarkLabel) book in
        let* _ := if jumpToPosition then show_active_document else ret tt in
        let* st := get in
        match book_or_active book (controller st) with
        | None => throw (TypeError "b is undefined")
        | Some (b, _) =>
            let* _ := set_controller (sort_bookmarks b (controller st)) in
            let* _ := saveWorkspaceState in
            updateDecorations
        end
  end.

(** [if (!bookmarks.activeBookmark) { bookmarks.add(path);
    bookmarks.activeBookmark = bookmarks.fromUri(path) }] *)
Definition ensure_activeBookmark (ed : TextEditor) : M unit :=
  let* st := get in
  match active_file (controller st) with
  | Some _ => ret tt
  | None =>
      let c := core_add (fsPath (document ed)) (controller st) in
      set_controller (set_activeBookmark (fromUri (fsPath (document ed)) c) c)
  end.

(** [bookmarks.toggle] *)
Definition toggle : M unit :=
  let* st := get in
  match activeEditor st with
  | None =>
      emit (ShowInformationMessage "Open a file first to toggle bookmarks")
  | Some ed =>
      let position := selection_active ed in
      let* _ := ensure_activeBookmark ed in
      let* st := get in
      match active_file (controller st) with
      | None => throw (TypeError "activeBookmark is undefined")
      | Some (i, f) =>
          let index :=
            indexOfBookmark (VNumber (pos_line position)) (bookmarks f) in
          let* _ :=
            if index <? 0 then
              let* _ := addBookmark position None None in
              show_active_document
            else removeBookmark index (pos_line position) None in
          let* st := get in
          let* _ := set_controller (sort_bookmarks i (controller st)) in
          let* _ := saveWorkspaceState in
          updateDecorations
      end
  end.

(** [bookmarks.toggleLabeled], with what the input box resolves to. *)
Definition toggleLabeled (input : option string) : M unit :=
  let* st := get in
  match activeEditor st with
  | None =>
      emit (ShowInformationMessage "Open a file first to toggle bookmarks")
  | Some ed =>
      let position := selection_active ed in
      let* _ := ensure_activeBookmark ed in
      let* st := get in
      match active_file (controller st) with
      | None => throw (TypeError "activeBookmark is undefined")
      | Some (i, f) =>
          let index :=
            indexOfBookmark (VNumber (pos_line position)) (bookmarks f) in
          if index <? 0 then
            askForBookmarkLabel index position None true None input
          else
            match bookmarks f !! Z.to_nat index with
            | None => throw (TypeError "bookmarks[index] is undefined")
            | Some b =>
                askForBookmarkLabel index position (Some (label b)) false
                                    None input
            end
      end
  end.

(** [bookmarks.editLabel], on [node.command.arguments] (path, line and
    column, counted from one) and what the input box resolves to. *)
Definition editLabel (argument0 : string) (argument1 argument2 : Z)
    (input : option string) : M unit :=
  let* st := get in
  match fromUri argument0 (controller st) with
  | None => throw (TypeError "book is undefined")
  | Some bi =>
      match file_at (controller st) bi with
      | None => throw (TypeError "book is undefined")
      | Some book =>
          let index :=
            indexOfBookmark (VNumber (argument1 - 1)) (bookmarks book) in
          let position := mkPosition (argument1 - 1) (argument2 - 1) in
          match (if index <? 0 then None
                 else bookmarks book !! Z.to_nat index) with
          | None => throw (TypeError "bookmarks[index] is undefined")
          | Some b =>
              askForBookmarkLabel index position (Some (label b)) false
                                  (Some bi) input
          end
      end
  end.

(** The jump command for a direction, and the bookmark it reveals in a
    file it switched to: [bookmarks[0]] forward, [bookmarks[length - 1]]
    backward. *)
Definition jump (dir : Directions) : M unit :=
  match dir with Forward => jumpToNext | Backward => jumpToPrevious end.

Definition pick_bookmark (dir : Directions)
    : list Bookmark -> option Bookmark :=
  match dir with Forward => first_bookmark | Backward => last_bookmark end.

(** ** Events from the host

    What the host can deliver to the extension once it is activated: the
    three document and editor events, a change of the two settings the
    handlers read (the listener of the source reacts to the decoration
    settings only, so these two change without a handler running; a change
    of the decoration settings is not among the events), the timer of
    [triggerUpdateDecorations], and the commands. *)
Inductive HostEvent :=
| DidOpenTextDocument (doc : TextDocument)
| DidChangeActiveTextEditor (editor : option TextEditor)
| DidChangeTextDocument (event : TextDocumentChangeEvent)
| DidChangeConfiguration (workaround inProject : bool)
| TimerFired
| CommandToggle
| CommandToggleLabeled (input : option string)
| CommandEditLabel (argument0 : string) (argument1 argument2 : Z)
                   (input : option string)
| CommandDeleteBookmark (argument0 : string) (argument1 : Z)
| CommandClear
| CommandClearFromAllFiles
| CommandClearFromFile (node_bookmark : option nat)
| CommandJumpToNext
| CommandJumpToPrevious.

Definition write_configuration (workaround inProject : bool) (h : Host)
    : Host :=
  mkHost workaround inProject (gutterIconPath h) (workspaceFolders h)
         (fs_files h) (workspaceState h) (openable h).

Definition dispatch (e : HostEvent) : M unit :=
  match e with
  | DidOpenTextDocument doc => onDidOpenTextDocument doc
  | DidChangeActiveTextEditor editor => onDidChangeActiveTextEditor editor
  | DidChangeTextDocument event => onDidChangeTextDocument event
  | DidChangeConfiguration workaround inProject =>
      let* st := get in
      set_host (write_configuration workaround inProject (host st))
  | TimerFired => onTimeout
  | CommandToggle => toggle
  | CommandToggleLabeled input => toggleLabeled input
  | CommandEditLabel a0 a1 a2 input => editLabel a0 a1 a2 input
  | CommandDeleteBookmark a0 a1 => deleteBookmark a0 a1
  | CommandClear => clear
  | CommandClearFromAllFiles => clearFromAllFiles
  | CommandClearFromFile b => clearFromFile b
  | CommandJumpToNext => jumpToNext
  | CommandJumpToPrevious => jumpToPrevious
  end.

(** The handlers run to completion one after the other; an exception
    ends the handler that threw and leaves the state as it was then. *)
Definition run_events (es : list HostEvent) (st : State) : State :=
  fold_left (fun st e => state_after (dispatch e st)) es st.

(** The events all the handlers emitted, in order. *)
Fixpoint run_trace (es : list HostEvent) (st : State) : list Event :=
  match es with
  | [] => []
  | e :: es' =>
      events (dispatch e st) ++ run_trace es' (state_after (dispatch e st))
  end.

End Extension.

(** ** Text, as the list views use it *)

(** [s.indexOf(t) === 0]: [t] starts [s]. *)
Fixpoint starts_with (t s : list ascii) : bool :=
  match t, s with
  | [], _ => true
  | a :: t', b :: s' => Ascii.eqb a b && starts_with t' s'
  | _ :: _, [] => false
  end.

(** [s.indexOf(t) !== -1]: [t] occurs in [s]. *)
Fixpoint occurs_in (t s : list ascii) : bool :=
  match s with
  | [] => starts_with t []
  | _ :: s' => starts_with t s || occurs_in t s'
  end.

(** The last element of [s.split(sep)] for a [sep] that is not empty.
    [split] looks for [sep] from left to right and goes on after each
    occurrence it finds: [segment] is the text after the last occurrence
    found so far, and [skip] counts the characters of that occurrence
    still to step over. *)
Fixpoint after_last_from (sep : list ascii) (skip : nat)
    (segment s : list ascii) : list ascii :=
  match s with
  | [] => segment
  | _ :: r =>
      match skip with
      | S k => after_last_from sep k segment r
      | O =>
          if starts_with sep s
          then after_last_from sep (length sep - 1) (drop (length sep) s) r
          else after_last_from sep 0 segment r
      end
  end.

(** [s.split(sep).pop()].  With the empty separator [split] gives the
    characters, and [pop] the last of them, [undefined] when there is
    none. *)
Definition split_pop (s sep : string) : option string :=
  let s' := list_ascii_of_string s in
  match list_ascii_of_string sep with
  | [] => (fun c => String c EmptyString) <$> last s'
  | sep' => Some (string_of_list_ascii (after_last_from sep' 0 s' s'))
  end.

(** [s.indexOf(t) === 0] and [s.indexOf(t) === -1] on strings. *)
Definition index_is_0 (s t : string) : bool :=
  starts_with (list_ascii_of_string t) (list_ascii_of_string s).

Definition index_is_not_found (s t : string) : bool :=
  negb (occurs_in (list_ascii_of_string t) (list_ascii_of_string s)).

(** [s.split(c).shift()] and [s.split(c).slice(1).join(c)] for a
    one-character separator: what is before its first occurrence (all of
    [s] when there is none) and what is after it. *)
Fixpoint before_first (c : ascii) (s : string) : string :=
  match s with
  | EmptyString => EmptyString
  | String a r => if Ascii.eqb a c then EmptyString else String a (before_first c r)
  end.

Fixpoint after_first (c : ascii) (s : string) : string :=
  match s with
  | EmptyString => EmptyString
  | String a r => if Ascii.eqb a c then r else after_first c r
  end.

(** An operand of [+] that may be [undefined]. *)
Definition to_string (v : option string) : string := default "undefined" v.

(** What the source takes from the language's and the platform's
    libraries. *)
Class Platform := {
  (** [String.prototype.toLowerCase] *)
  toLowerCase : string -> string;
  (** [String.prototype.trim] *)
  trim : string -> string;
  (** [path.sep], which is one character *)
  path_sep : ascii;
  (** [path.join] of two paths *)
  path_join : string -> string -> string
}.

(** ** The list views *)

(** [vscode.WorkspaceFolder]: [name] and [uri.fsPath].  The folders of
    a workspace have distinct paths and the host hands out one object
    for each, so the identity test between two folders is equality of the
    records. *)
Record WorkspaceFolder := mkFolder {
  wf_name : string;
  wf_fsPath : string
}.

#[global] Instance WorkspaceFolder_eq_dec : EqDecision WorkspaceFolder.
Proof. solve_decision. Defined.

(** [vscode.QuickPickItem]; a [detail] of [None] is one left out. *)
Record QuickPickItem := mkItem {
  item_label : string;
  item_description : string;
  item_detail : option string
}.

(** An element of what the core's [listBookmarks] resolves to: its
    [detail] is the path of the file. *)
Record ListedBookmark := mkListed {
  listed_label : string;
  listed_description : string;
  listed_detail : string
}.

(** The loop of [removeBasePathFrom] over the folders: the last folder
    whose path starts [aPath]. *)
Definition inWorkspace (aPath : string) (folders : list WorkspaceFolder)
    : option WorkspaceFolder :=
  fold_left
    (fun found wf => if index_is_0 aPath (wf_fsPath wf) then Some wf else found)
    folders None.

Definition removeBasePathFrom (workspaceFolders : option (list WorkspaceFolder))
    (aPath : string) (currentWorkspaceFolder : option WorkspaceFolder)
    : option string :=
  match workspaceFolders with
  | None => Some aPath
  | Some folders =>
      match inWorkspace aPath folders with
      | Some wf =>
          if bool_decide (Some wf = currentWorkspaceFolder)
          then split_pop aPath (wf_fsPath wf)
          else
            if bool_decide (currentWorkspaceFolder = None)
               && Nat.eqb (length folders) 1
            then split_pop aPath (wf_fsPath wf)
            else Some ("$(file-submodule) " +:+ wf_name wf
                       +:+ to_string (split_pop aPath (wf_fsPath wf)))
      | None => Some ("$(file-directory) " +:+ aPath)
      end
  end.

(** [!item.detail]: left out, or empty. *)
Definition no_detail (item : QuickPickItem) : bool :=
  match item_detail item with
  | None => true
  | Some d => String.eqb d ""
  end.

(** The comparator [listFromAllFiles] passes to [sort]. *)
Definition compare_items (a b : QuickPickItem) : Z :=
  if no_detail a && no_detail b then 0
  else if no_detail a && negb (no_detail b) then -1
  else if negb (no_detail a) && no_detail b then 1
  else
    let a_detail := default "" (item_detail a) in
    let b_detail := default "" (item_detail b) in
    if index_is_0 a_detail "$(file-submodule) "
       && index_is_0 b_detail "$(file-directory) " then -1
    else if index_is_0 a_detail "$(file-directory) "
            && index_is_0 b_detail "$(file-submodule) " then 1
    else if index_is_0 a_detail "$(file-submodule) "
            && index_is_not_found b_detail "$(file-submodule) " then 1
    else if index_is_not_found a_detail "$(file-submodule) "
            && index_is_0 b_detail "$(file-submodule) " then -1
    else if index_is_0 a_detail "$(file-directory) "
            && index_is_not_found b_detail "$(file-directory) " then 1
    else if index_is_not_found a_detail "$(file-directory) "
            && index_is_0 b_detail "$(file-directory) " then -1
    else 0.

Section Views.
Context `{Collaborators} `{Platform}.

(** The items [listFromAllFiles] builds from what the files'
    [listBookmarks] resolved to ([undefined] for a file is [None]). *)
Definition all_files_item (activeTextEditorPath : string)
    (workspaceFolders : option (list WorkspaceFolder))
    (currentWorkspaceFolder : option WorkspaceFolder)
    (elementInside : ListedBookmark) : QuickPickItem :=
  if String.eqb (toLowerCase (listed_detail elementInside))
                (toLowerCase activeTextEditorPath)
  then mkItem (listed_label elementInside) (listed_description elementInside)
              None
  else mkItem (listed_label elementInside) (listed_description elementInside)
              (removeBasePathFrom workspaceFolders (listed_detail elementInside)
                                  currentWorkspaceFolder).

Definition all_files_items (activeTextEditorPath : string)
    (workspaceFolders : option (list WorkspaceFolder))
    (currentWorkspaceFolder : option WorkspaceFolder)
    (values : list (option (list ListedBookmark))) : list QuickPickItem :=
  mjoin
    ((fun element =>
        match element with
        | Some inside =>
            all_files_item activeTextEditorPath workspaceFolders
                           currentWorkspaceFolder <$> inside
        | None => []
        end) <$> values).

(** The path a picked item stands for, from its [detail] when it has
    one: [newPath] in the callback of [showQuickPick], [filePath] in
    [onDidSelectItem]. *)
Definition item_path (workspaceFolders : option (list WorkspaceFolder))
    (currentWorkspaceFolder : option WorkspaceFolder) (detail : string)
    : Result string :=
  if index_is_0 detail "$(file-directory) " then
    match split_pop detail "$(file-directory) " with
    | Some newPath => Ok newPath
    | None => Throw (TypeError "newPath is undefined")
    end
  else if index_is_0 detail "$(file-submodule)" then
    match split_pop detail "$(file-submodule) " with
    | None => Throw (TypeError "newPath is undefined")
    | Some newPath =>
        match workspaceFolders with
        | None => Throw (TypeError "workspaceFolders is not iterable")
        | Some folders =>
            match List.find
                    (fun wf => String.eqb (wf_name wf)
                                          (before_first path_sep newPath))
                    folders with
            | Some wf =>
                Ok (path_join (wf_fsPath wf) (after_first path_sep newPath))
            | None => Ok newPath
            end
        end
    end
  else
    match currentWorkspaceFolder with
    | Some wf => Ok (wf_fsPath wf +:+ detail)
    | None =>
        match workspaceFolders with
        | Some [] => Throw (TypeError "workspaceFolders[0] is undefined")
        | Some (wf :: _) => Ok (wf_fsPath wf +:+ detail)
        | None => Ok detail
        end
    end.

(** [filePath] of [onDidSelectItem]: the active document for an item
    without a detail. *)
Definition selected_item_path (activeTextEditorPath : string)
    (workspaceFolders : option (list WorkspaceFolder))
    (currentWorkspaceFolder : option WorkspaceFolder) (item : QuickPickItem)
    : Result string :=
  if no_detail item then Ok activeTextEditorPath
  else item_path workspaceFolders currentWorkspaceFolder
                 (default "" (item_detail item)).

(** What a list command comes to before the pick: a message, the items
    it gives [showQuickPick], or the exception of [document.lineAt] for a
    line the document does not have. *)
Inductive Listing :=
| ListingMessage (msg : string)
| ListingItems (items : list QuickPickItem)
| IllegalLine (line : Z).

Definition listFromAllFiles
    (workspaceFolders : option (list WorkspaceFolder))
    (getWorkspaceFolder : string -> option WorkspaceFolder)
    (values : list (option (list ListedBookmark))) (st : State) : Listing :=
  if negb (hasAnyBookmark (controller st))
  then ListingMessage "No Bookmarks found"
  else
    let activeTextEditorPath :=
      match activeEditor st with
      | Some ed => fsPath (document ed)
      | None => ""
      end in
    let currentWorkspaceFolder :=
      if String.eqb activeTextEditorPath "" then None
      else getWorkspaceFolder activeTextEditorPath in
    ListingItems
      (array_sort compare_items
         (all_files_items activeTextEditorPath workspaceFolders
                          currentWorkspaceFolder values)).

(** [document.lineAt(line).text], [None] when [lineAt] throws. *)
Definition lineAt_text (d : TextDocument) (line : Z) : option string :=
  if line <? 0 then None else lineAt d (Z.to_nat line).

(** The item the loop of [list] pushes for a bookmark, from the text
    of its line. *)
Definition list_item (text : string) (b : Bookmark) : QuickPickItem :=
  let bookmarkLine := line b + 1 in
  let bookmarkColumn := column b + 1 in
  let lineText := trim text in
  let description :=
    "(Ln " +:+ pretty bookmarkLine +:+ ", Col "
    +:+ pretty bookmarkColumn +:+ ")" in
  if String.eqb (label b) ""
  then mkItem lineText description None
  else mkItem ("$(tag) " +:+ label b) description None.

Fixpoint list_items (d : TextDocument) (bks : list Bookmark)
    (items : list QuickPickItem) : Listing :=
  match bks with
  | [] => ListingItems items
  | b :: rest =>
      let bookmarkLine := line b + 1 in
      match lineAt_text d (bookmarkLine - 1) with
      | None => IllegalLine (bookmarkLine - 1)
      | Some text => list_items d rest (items ++ [list_item text b])
      end
  end.

Definition list_bookmarks (st : State) : Listing :=
  match activeEditor st with
  | None => ListingMessage "Open a file first to list bookmarks"
  | Some ed =>
      match active_file (controller st) with
      | None => ListingMessage "No Bookmark found"
      | Some (_, f) =>
          if Nat.eqb (length (bookmarks f)) 0
          then ListingMessage "No Bookmark found"
          else list_items (document ed) (bookmarks f) []
      end
  end.

(** ** The selection commands *)

(** [vscode.Selection], as the commands read it. *)
Record Selection := mkSelection {
  sel_start : Position;
  sel_end : Position;
  sel_active : Position;
  isReversed : bool;
  isEmpty : bool
}.

(** What a selection command comes to: a message, a status bar message,
    a call into the core's [Selection], or nothing when the promise of
    [nextBookmark] rejects (the rejection is logged). *)
Inductive SelectionOutcome :=
| Information (msg : string)
| StatusBar (msg : string)
| SelectLines (lines : list Z)
| ExpandRange (next : Position) (direction : Directions)
| ShrinkRange (next : Position) (direction : Directions)
| Logged.

(** [bookmarks.activeBookmark.bookmarks], which throws when there is no
    active file. *)
Definition active_bookmarks (st : State) : Result BookmarkedFile :=
  match active_file (controller st) with
  | Some (_, f) => Ok f
  | None => Throw (TypeError "activeBookmark is undefined")
  end.

Definition selectLines (st : State) : Result SelectionOutcome :=
  match activeEditor st with
  | None => Ok (Information "Open a file first to clear bookmarks")
  | Some _ =>
      match active_bookmarks st with
      | Throw e => Throw e
      | Ok f =>
          if Nat.eqb (length (bookmarks f)) 0
          then Ok (Information "No Bookmark found")
          else Ok (SelectLines (line <$> bookmarks f))
      end
  end.

(** [shrinkSelection], for an editor whose selections are [selection]
    and [others]. *)
Definition shrinkSelection (selection : Selection) (others : list Selection)
    (st : State) : Result SelectionOutcome :=
  match activeEditor st with
  | None => Ok (Information "Open a file first to shrink bookmark selection")
  | Some _ =>
      if (1 <? length (selection :: others))%nat
      then Ok (Information "Command not supported with more than one selection")
      else if isEmpty selection then Ok (Information "No selection found")
      else
        match active_bookmarks st with
        | Throw e => Throw e
        | Ok f =>
            if Nat.eqb (length (bookmarks f)) 0
            then Ok (Information "No Bookmark found")
            else
              let direction :=
                if isReversed selection then Forward else Backward in
              let activeSelectionStartLine :=
                if isReversed selection then pos_line (sel_end selection)
                else pos_line (sel_start selection) in
              let currPosition :=
                match direction with
                | Forward => sel_start selection
                | Backward => sel_end selection
                end in
              match nextBookmark f currPosition direction with
              | Rejected _ => Ok Logged
              | Resolved (inl _) => Ok (StatusBar "No more bookmarks")
              | Resolved (inr next) =>
                  if match direction with
                     | Backward => pos_line next <? activeSelectionStartLine
                     | Forward => activeSelectionStartLine <? pos_line next
                     end
                  then Ok (StatusBar "No more bookmarks to shrink")
                  else Ok (ShrinkRange next direction)
              end
        end
  end.

Definition expandSelectionToNextBookmark (direction : Directions)
    (selection : Selection) (st : State) : Result SelectionOutcome :=
  match activeEditor st with
  | None => Ok (Information "Open a file first to clear bookmarks")
  | Some _ =>
      match active_bookmarks st with
      | Throw e => Throw e
      | Ok f =>
          if Nat.eqb (length (bookmarks f)) 0
          then Ok (Information "No Bookmark found")
          else if Nat.eqb (length (bookmarks f)) 1
          then Ok (Information "There is only one bookmark in this file")
          else
            let currPosition :=
              if isEmpty selection then sel_active selection
              else match direction with
                   | Forward => sel_end selection
                   | Backward => sel_start selection
                   end in
            match nextBookmark f currPosition direction with
            | Rejected _ => Ok Logged
            | Resolved (inl _) => Ok (StatusBar "No more bookmarks")
            | Resolved (inr next) => Ok (ExpandRange next direction)
            end
      end
  end.

End Views.

(** ** Predicates the properties are stated with *)

(** [c'] has the files of [c], each with a prefix of the bookmarks it
    had, and the same active file. *)
Definition pruned (c c' : BookmarksController) : Prop :=
  activeBookmark c' = activeBookmark c /\
  Forall2 (fun f f' => path f' = path f /\
                       bookmarks f' `prefix_of` bookmarks f)
          (fileList c) (fileList c').

Definition is_SetDecorations (e : Event) : Prop :=
  match e with SetDecorations _ => True | _ => False end.

(** A call into the core that changed bookmarks. *)
Definition is_mutation (e : Event) : bool :=
  match e with
  | CoreAddBookmark _ _ | CoreRemoveBookmark _ _ | CoreClear _
  | CoreClearAll | CoreSticky _ true => true
  | _ => false
  end.

Definition is_save (e : Event) : bool :=
  match e with SaveWorkspaceState _ => true | _ => false end.

(** Every mutation in the trace has a save after it. *)
Fixpoint saved_after_mutation (evs : list Event) : bool :=
  match evs with
  | [] => true
  | e :: rest =>
      (if is_mutation e then existsb is_save rest else true)
      && saved_after_mutation rest
  end.

(** [activeEditorCountLine] is the line count of the active editor's
    document. *)
Definition count_tracks (st : State) : Prop :=
  forall ed, activeEditor st = Some ed ->
             activeEditorCountLine st = Some (lineCount (document ed)).

(** The event is a text change of the document of the active editor. *)
Definition changes_active_document (e : HostEvent) (st : State) : Prop :=
  match e, activeEditor st with
  | DidChangeTextDocument event, Some ed =>
      fsPath (ev_document event) = fsPath (document ed)
  | _, _ => False
  end.

(** [new BookmarksController("")] *)
Definition empty_store : BookmarksController := mkController [] None.

(** The state with another controller. *)
Definition with_controller (c : BookmarksController) (st : State) : State :=
  mkState c (activeEditorCountLine st) (timeout st) (activeEditor st) (host st).

(** The sort invariant: ascending by line, and strictly so when no two
    bookmarks share a line. *)
Definition sorted_set (bks : list Bookmark) : Prop :=
  Sorted line_le bks /\ (NoDup (line <$> bks) -> Sorted line_lt bks).

(** [m] emits no mutation, whatever the state. *)
Definition quiet {A} (m : M A) : Prop :=
  forall st, Forall (fun e => is_mutation e = false) (events (m st)).

(** A run that completed saved after each mutation. *)
Definition saved_if_completed (r : Result unit) (ev : list Event) : Prop :=
  r = Ok tt -> saved_after_mutation ev = true.

(** [st'] is reached from [st] by events from the host of which every
    text change of the active document is handled with the workaround
    off. *)
Inductive reaches_without_workaround `{Collaborators} (st : State)
    : State -> Prop :=
| reaches_refl : reaches_without_workaround st st
| reaches_step st' e :
    reaches_without_workaround st st' ->
    (changes_active_document e st' ->
     useWorkaroundForFormatters (host st') = false) ->
    reaches_without_workaround st (state_after (dispatch e st')).

(** A weakest precondition for handlers: [wp m Q st] when the run of [m]
    from [st] ends in a result, state and trace that [Q] accepts. *)
Definition wp {A} (m : M A) (Q : Result A -> State -> list Event -> Prop)
    (st : State) : Prop :=
  Q (result (m st)) (state_after (m st)) (events (m st)).

(** [m] keeps the invariant [I], also when it throws. *)
Definition preserves {A} (I : State -> Prop) (m : M A) : Prop :=
  forall st, I st -> I (state_after (m st)).

(** ** Predicates for the list views *)

(** The four groups the comment in [listFromAllFiles] names, in its
    order: the active document (no detail), a document of the same
    folder (no mark), one of another folder, one outside every folder. *)
Definition item_group (item : QuickPickItem) : Z :=
  if no_detail item then 0
  else
    let d := default "" (item_detail item) in
    if index_is_0 d "$(file-submodule) " then 2
    else if index_is_0 d "$(file-directory) " then 3
    else 1.

Definition group_le (a b : QuickPickItem) : Prop :=
  item_group a <= item_group b.

(** A detail without a leading mark has no mark at all. *)
Definition marks_lead (item : QuickPickItem) : Prop :=
  item_group item = 1 ->
  index_is_not_found (default "" (item_detail item)) "$(file-submodule) " = true
  /\ index_is_not_found (default "" (item_detail item)) "$(file-directory) "
     = true.

(** What the decoration pass keeps of bookmarks in ascending order. *)
Definition kept_sorted (d : TextDocument) (bks : list Bookmark)
    : list Bookmark :=
  if (lineCount d =? 1) && bool_decide (lineAt d 0 = Some "") then []
  else filter (fun b => line b <= lineCount d) bks.

(** ** Predicates for saving and toggling *)

(** The storage of [h] holds the store [c], as [saveWorkspaceState]
    writes it: in the project's file when bookmarks are kept in the
    project (no file when no file has a bookmark), in the workspace
    state otherwise. *)
Definition persisted `{Collaborators} (c : BookmarksController) (h : Host)
    : Prop :=
  if canSaveBookmarksInProject h then
    match workspaceFolders h with
    | Some (folder :: _) =>
        fs_files h !! bookmarksFileInProject folder
        = if hasAnyBookmark c then Some (serialize true c) else None
    | _ => False
    end
  else workspaceState h = Some (serialize false c).

(** A run that ends in [st'] after the events [ev] saved the store: the
    last thing it did to the store was to write it to the storage, which
    still holds it, and only redraws followed, so the store it ends with
    is the one it saved but for the bookmarks a redraw dropped. *)
Definition saved_store `{Collaborators} (st' : State) (ev : list Event)
    : Prop :=
  exists c pre post,
    ev = (pre ++ SaveWorkspaceState (fileList c) :: post)%list /\
    Forall is_SetDecorations post /\
    persisted c (host st') /\
    pruned c (controller st').

(** A run that completed and changed a bookmark saved the store. *)
Definition stored_if_mutated `{Collaborators} (r : Result unit)
    (st' : State) (ev : list Event) : Prop :=
  r = Ok tt -> Exists (fun e => is_mutation e = true) ev -> saved_store st' ev.

(** What a run [r] of [toggle] shows that left the file [i], which was
    [f], with the bookmarks [bks] before its last steps, for the active
    editor [ed]: a run that completed saved the file with [bks] in order
    of line and redrew, and ends with the file holding what the redraw
    kept of them; a run that threw ends with the file holding [bks] in
    order of line. *)
Definition toggled_to (ed : TextEditor) (i : nat) (f : BookmarkedFile)
    (bks : list Bookmark) (r : Run unit) : Prop :=
  let sorted := array_sort compare_by_line bks in
  match result r with
  | Ok _ =>
      (exists pre snapshot,
         events r
         = (pre ++ [SaveWorkspaceState snapshot;
                    SetDecorations
                      (line <$> kept_sorted (document ed) sorted)])%list /\
         snapshot !! i = Some (mkFile (path f) sorted)) /\
      file_at (controller (state_after r)) i
      = Some (mkFile (path f) (kept_sorted (document ed) sorted))
  | Throw _ =>
      file_at (controller (state_after r)) i = Some (mkFile (path f) sorted)
  end.

(** ** Predicates for navigation *)

(** What a navigation tells the host or asks of the core. *)
Definition is_navigation (e : Event) : Prop :=
  match e with
  | ShowInformationMessage _ | Reveal _ _ | OpenTextDocument _
  | ShowTextDocument _ | CoreNextBookmark _
  | CoreNextDocumentWithBookmarks _ => True
  | _ => False
  end.

(** [st'] has the storage of [st], and every file of [st] with its
    bookmarks. *)
Definition same_bookmarks (st st' : State) : Prop :=
  host st' = host st /\
  forall j f, file_at (controller st) j = Some f ->
              file_at (controller st') j = Some f.

(** From a state where [I] holds, [m] emits only events in [P] and
    leaves a state where [I] holds, also when it throws. *)
Definition keeps {A} (P : Event -> Prop) (I : State -> Prop) (m : M A)
    : Prop :=
  forall st, I st -> Forall P (events (m st)) /\ I (state_after (m st)).

(** What a run that emptied the file [j] shows: the call to the core, a
    snapshot with that file without bookmarks and every other file as it
    was, and the redraw. *)
Definition emptied_one_file (st : State) (j : nat) (f : BookmarkedFile)
    (ev : list Event) : Prop :=
  exists snapshot decorations,
    ev = CoreClear j :: SaveWorkspaceState snapshot :: decorations /\
    Forall is_SetDecorations decorations /\
    snapshot !! j = Some (mkFile (path f) []) /\
    forall k, k <> j -> snapshot !! k = fileList (controller st) !! k.

(** ** A reader and a writer of JSON texts *)
Module Json.

#[warnings="-register-all"]
Inductive value :=
| Null
| Bool (b : bool)
| Number (mantissa exponent : Z)
| Str (s : string)
| Array (items : list value)
| Object (members : list (string * value)).

Definition code (c : ascii) : Z := Z.of_nat (nat_of_ascii c).

Definition char (n : Z) : ascii := ascii_of_nat (Z.to_nat n).

Definition is_whitespace (c : ascii) : bool :=
  (code c =? 32) || (code c =? 9) || (code c =? 10) || (code c =? 13).

Fixpoint skip_whitespace (s : list ascii) : list ascii :=
  match s with
  | c :: r => if is_whitespace c then skip_whitespace r else s
  | [] => []
  end.

Definition digit (c : ascii) : option Z :=
  if (48 <=? code c) && (code c <=? 57) then Some (code c - 48) else None.

Definition hex_digit (c : ascii) : option Z :=
  if (48 <=? code c) && (code c <=? 57) then Some (code c - 48)
  else if (65 <=? code c) && (code c <=? 70) then Some (code c - 55)
  else if (97 <=? code c) && (code c <=? 102) then Some (code c - 87)
  else None.

(** A run of digits: its value on top of [acc], how many there were, and
    the rest. *)
Fixpoint digits (acc : Z) (count : nat) (s : list ascii)
    : Z * nat * list ascii :=
  match s with
  | c :: r =>
      match digit c with
      | Some d => digits (10 * acc + d) (S count) r
      | None => (acc, count, s)
      end
  | [] => (acc, count, [])
  end.

(** The integer part: a zero, or a digit that is not zero and the digits
    after it. *)
Definition integer_part (s : list ascii) : option (Z * list ascii) :=
  match s with
  | c :: r =>
      match digit c with
      | Some d =>
          if d =? 0 then Some (0, r)
          else let '(n, _, rest) := digits 0 0 s in Some (n, rest)
      | None => None
      end
  | [] => None
  end.

(** The fraction after the integer part [int]: the mantissa with the
    fraction's digits, and how many they are. *)
Definition fraction_part (int : Z) (s : list ascii)
    : option (Z * Z * list ascii) :=
  match s with
  | c :: r =>
      if code c =? 46 then
        let '(m, k, rest) := digits int 0 r in
        if Nat.eqb k 0 then None else Some (m, Z.of_nat k, rest)
      else Some (int, 0, s)
  | [] => Some (int, 0, s)
  end.

Definition exponent_part (s : list ascii) : option (Z * list ascii) :=
  match s with
  | c :: r =>
      if (code c =? 101) || (code c =? 69) then
        let '(sign, r') :=
          match r with
          | c' :: t =>
              if code c' =? 45 then (-1, t)
              else if code c' =? 43 then (1, t)
              else (1, r)
          | [] => (1, r)
          end in
        let '(x, n, rest) := digits 0 0 r' in
        if Nat.eqb n 0 then None else Some (sign * x, rest)
      else Some (0, s)
  | [] => Some (0, s)
  end.

Definition number (s : list ascii) : option (value * list ascii) :=
  let '(negative, s1) :=
    match s with
    | c :: r => if code c =? 45 then (true, r) else (false, s)
    | [] => (false, s)
    end in
  match integer_part s1 with
  | None => None
  | Some (int, s2) =>
      match fraction_part int s2 with
      | None => None
      | Some (m, k, s3) =>
          match exponent_part s3 with
          | None => None
          | Some (x, s4) =>
              Some (Number (if negative : bool then - m else m) (x - k), s4)
          end
      end
  end.

(** The bytes of a code unit given by a [\u] escape (its UTF-8 form). *)
Definition code_unit_bytes (n : Z) : list ascii :=
  if n <? 128 then [char n]
  else if n <? 2048 then [char (192 + n / 64); char (128 + n mod 64)]
  else [char (224 + n / 4096); char (128 + (n / 64) mod 64);
        char (128 + n mod 64)].

(** What follows a backslash: the bytes it stands for, and the rest. *)
Definition escape (s : list ascii) : option (list ascii * list ascii) :=
  match s with
  | c :: r =>
      if code c =? 34 then Some ([c], r)
      else if code c =? 92 then Some ([c], r)
      else if code c =? 47 then Some ([c], r)
      else if code c =? 98 then Some ([char 8], r)
      else if code c =? 102 then Some ([char 12], r)
      else if code c =? 110 then Some ([char 10], r)
      else if code c =? 114 then Some ([char 13], r)
      else if code c =? 116 then Some ([char 9], r)
      else if code c =? 117 then
        match r with
        | h1 :: h2 :: h3 :: h4 :: r' =>
            match hex_digit h1, hex_digit h2, hex_digit h3, hex_digit h4 with
            | Some a, Some b, Some c', Some d =>
                Some (code_unit_bytes (((a * 16 + b) * 16 + c') * 16 + d), r')
            | _, _, _, _ => None
            end
        | _ => None
        end
      else None
  | [] => None
  end.

(** The characters of a string up to its closing quote.  Every step
    takes at least one character, so [fuel] the length of the text
    suffices. *)
Fixpoint string_body (fuel : nat) (acc : list ascii) (s : list ascii)
    : option (string * list ascii) :=
  match fuel with
  | O => None
  | S fuel' =>
      match s with
      | [] => None
      | c :: r =>
          if code c =? 34 then Some (string_of_list_ascii (rev acc), r)
          else if code c =? 92 then
            match escape r with
            | Some (bytes, r') => string_body fuel' (rev bytes ++ acc) r'
            | None => None
            end
          else if code c <? 32 then None
          else string_body fuel' (c :: acc) r
      end
  end.

Definition literal (word : string) (v : value) (s : list ascii)
    : option (value * list ascii) :=
  let w := list_ascii_of_string word in
  if bool_decide (take (length w) s = w)
  then Some (v, drop (length w) s)
  else None.

(** A value, the elements of an array after its bracket, and the members
    of an object after its brace. *)
Fixpoint parse_value (fuel : nat) (s : list ascii)
    : option (value * list ascii) :=
  match fuel with
  | O => None
  | S fuel' =>
      match skip_whitespace s with
      | [] => None
      | c :: r =>
          if code c =? 34 then
            match string_body (length r) [] r with
            | Some (str, rest) => Some (Str str, rest)
            | None => None
            end
          else if code c =? 91 then
            match skip_whitespace r with
            | c' :: r' =>
                if code c' =? 93 then Some (Array [], r')
                else
                  match parse_elements fuel' r with
                  | Some (items, rest) => Some (Array items, rest)
                  | None => None
                  end
            | [] => None
            end
          else if code c =? 123 then
            match skip_whitespace r with
            | c' :: r' =>
                if code c' =? 125 then Some (Object [], r')
                else
                  match parse_members fuel' r with
                  | Some (members, rest) => Some (Object members, rest)
                  | None => None
                  end
            | [] => None
            end
          else if code c =? 116 then literal "true" (Bool true) (c :: r)
          else if code c =? 102 then literal "false" (Bool false) (c :: r)
          else if code c =? 110 then literal "null" Null (c :: r)
          else number (c :: r)
      end
  end
with parse_elements (fuel : nat) (s : list ascii)
    : option (list value * list ascii) :=
  match fuel with
  | O => None
  | S fuel' =>
      match parse_value fuel' s with
      | None => None
      | Some (v, rest) =>
          match skip_whitespace rest with
          | c :: r =>
              if code c =? 93 then Some ([v], r)
              else if code c =? 44 then
                match parse_elements fuel' r with
                | Some (items, rest') => Some (v :: items, rest')
                | None => None
                end
              else None
          | [] => None
          end
      end
  end
with parse_members (fuel : nat) (s : list ascii)
    : option (list (string * value) * list ascii) :=
  match fuel with
  | O => None
  | S fuel' =>
      match skip_whitespace s with
      | q :: r =>
          if code q =? 34 then
            match string_body (length r) [] r with
            | None => None
            | Some (key, rest) =>
                match skip_whitespace rest with
                | colon :: r1 =>
                    if code colon =? 58 then
                      match parse_value fuel' r1 with
                      | None => None
                      | Some (v, rest1) =>
                          match skip_whitespace rest1 with
                          | c :: r2 =>
                              if code c =? 125 then Some ([(key, v)], r2)
                              else if code c =? 44 then
                                match parse_members fuel' r2 with
                                | Some (members, rest2) =>
                                    Some ((key, v) :: members, rest2)
                                | None => None
                                end
                              else None
                          | [] => None
                          end
                      end
                    else None
                | [] => None
                end
            end
          else None
      | [] => None
      end
  end.

(** [JSON.parse(text)]: a value and nothing after it but white space, or
    a [SyntaxError].  Every call of the three functions above that goes
    deeper has taken a character or follows one that has, so twice the
    length of the text is fuel enough. *)
Definition parse (text : string) : option value :=
  let s := list_ascii_of_string text in
  match parse_value (2 * length s + 2) s with
  | Some (v, rest) =>
      match skip_whitespace rest with
      | [] => Some v
      | _ :: _ => None
      end
  | None => None
  end.

(** [JSON.stringify] of a string: quotes around it, and a backslash
    before a quote or a backslash; a control character as [\u00XX]. *)
Definition hex_char (n : Z) : ascii :=
  if n <? 10 then char (48 + n) else char (87 + n).

Fixpoint escape_chars (s : list ascii) : list ascii :=
  match s with
  | [] => []
  | c :: r =>
      (if (code c =? 34) || (code c =? 92) then [char 92; c]
       else if code c <? 32 then
         [char 92; char 117; char 48; char 48;
          hex_char (code c / 16); hex_char (code c mod 16)]
       else [c]) ++ escape_chars r
  end.

Definition write_string (s : string) : string :=
  string_of_list_ascii
    ([char 34] ++ escape_chars (list_ascii_of_string s) ++ [char 34]).

End Json.

(** ** Sample collaborators

    An instance of [Collaborators] to run the handlers on concrete
    inputs.  The theorems hold for every instance; this one only supplies
    the witnesses and examples. *)
Module Sample.

(** The order of positions: by line, then by column. *)
Definition position_lt (l1 c1 l2 c2 : Z) : bool :=
  (l1 <? l2) || ((l1 =? l2) && (c1 <? c2)).

(** Modelled from the spec: the core's [nextBookmark] is missing from the
    sources.  The spec (4.5, [nextWithinFile]) has it find the first
    bookmark strictly after the position (the last strictly before it
    when going backward) in the order by line, then column, and return
    [NO_BOOKMARKS_AFTER] ([NO_BOOKMARKS_BEFORE]) when there is none, and
    [NO_MORE_BOOKMARKS] when the set is empty.  The spec names the three
    sentinels and gives them no value; any three distinct numbers do. *)
Definition nextBookmark (f : BookmarkedFile) (p : Position)
    (dir : Directions) : Promise (Z + Position) :=
  match bookmarks f with
  | [] => Resolved (inl (-4))
  | _ :: _ =>
      match dir with
      | Forward =>
          match List.find (fun b => position_lt (pos_line p) (character p)
                                                (line b) (column b))
                          (bookmarks f) with
          | Some b => Resolved (inr (mkPosition (line b) (column b)))
          | None => Resolved (inl (-3))
          end
      | Backward =>
          match List.find (fun b => position_lt (line b) (column b)
                                                (pos_line p) (character p))
                          (rev (bookmarks f)) with
          | Some b => Resolved (inr (mkPosition (line b) (column b)))
          | None => Resolved (inl (-2))
          end
      end
  end.

(** Modelled from the spec: the core's [nextDocumentWithBookmarks] is
    missing from the sources.  The spec (4.5, [nextFileWithBookmarks])
    goes through the files in storage order, circularly, from the one
    after (before) the given file, skips those without bookmarks, and
    returns [NO_MORE_BOOKMARKS] when no other file has any. *)
Definition nextDocumentWithBookmarks (c : BookmarksController) (i : nat)
    (dir : Directions) : Promise (Z + string) :=
  let after := drop (S i) (fileList c) in
  let before := take i (fileList c) in
  let candidates :=
    match dir with
    | Forward => (after ++ before)%list
    | Backward => (rev before ++ rev after)%list
    end in
  match List.find (fun f => negb (Nat.eqb (length (bookmarks f)) 0))
                  candidates with
  | Some f => Resolved (inr (path f))
  | None => Resolved (inl (-4))
  end.

#[global] Instance Bookmark_eq_dec : EqDecision Bookmark.
Proof. solve_decision. Defined.

(** Modelled from the spec: the adjustment of one bookmark by
    [Sticky.stickyBookmarks], which is missing from the sources.  The
    spec (4.3): a bookmark before the edit's first line stays (step 1);
    one strictly inside the edited lines goes when lines were removed
    (step 2); one after the edit's last line moves by [lineDelta]
    (step 4).  Columns are left alone. *)
Definition adjust (startLine endLine lineDelta : Z) (b : Bookmark)
    : option Bookmark :=
  if line b <? startLine then Some b
  else if endLine <? line b
  then Some (mkBookmark (line b + lineDelta) (column b) (label b))
  else if (startLine <? line b) && (lineDelta <? 0) then None
  else Some b.

(** Modelled from the spec: [Sticky.stickyBookmarks] is missing from the
    sources.  The spec (4.3) adjusts every bookmark of the file for the
    first edit of the event, with [lineDelta] the line count after the
    edit minus the one passed in.  The result says whether a bookmark
    changed. *)
Definition stickyBookmarks (event : TextDocumentChangeEvent)
    (activeEditorCountLine : option Z) (i : nat) (ed : TextEditor)
    (c : BookmarksController) : bool * BookmarksController :=
  match activeEditorCountLine, contentChanges event, file_at c i with
  | Some oldCount, change :: _, Some f =>
      let lineDelta := lineCount (ev_document event) - oldCount in
      let adjusted :=
        omap (adjust (range_start_line change) (range_end_line change)
                     lineDelta)
             (bookmarks f) in
      (negb (bool_decide (adjusted = bookmarks f)),
       set_bookmarks i adjusted c)
  | _, _, _ => (false, c)
  end.

(** A member of an object: the key, a colon, the value. *)
Definition write_member (key value : string) : string :=
  Json.write_string key +:+ ":" +:+ value.

Definition write_bookmark (b : Bookmark) : string :=
  "{" +:+ write_member "line" (pretty (line b)) +:+ ","
      +:+ write_member "column" (pretty (column b)) +:+ ","
      +:+ write_member "label" (Json.write_string (label b)) +:+ "}".

Fixpoint join (sep : string) (parts : list string) : string :=
  match parts with
  | [] => ""
  | [x] => x
  | x :: rest => x +:+ sep +:+ join sep rest
  end.

Definition write_file (f : BookmarkedFile) : string :=
  write_member (path f)
               ("[" +:+ join "," (write_bookmark <$> bookmarks f) +:+ "]").

(** Modelled from the spec: the core's [zip] is missing from the sources.
    The spec (6) gives the snapshot: an object with, for each path, the
    array of its bookmarks as objects with [line], [column] and
    [label]. *)
Definition serialize (relativePath : bool) (c : BookmarksController)
    : string :=
  "{" +:+ join "," (write_file <$> fileList c) +:+ "}".

(** A number that is a non-negative integer. *)
Definition as_natural (v : Json.value) : option Z :=
  match v with
  | Json.Number m e =>
      if (0 <=? m) && (0 <=? e) then Some (m * 10 ^ e)
      else if (0 <=? m) && (m mod 10 ^ (- e) =? 0) then Some (m / 10 ^ (- e))
      else None
  | _ => None
  end.

Definition member (key : string) (members : list (string * Json.value))
    : option Json.value :=
  snd <$> List.find (fun kv => String.eqb (fst kv) key) members.

Definition read_bookmark (v : Json.value) : option Bookmark :=
  match v with
  | Json.Object members =>
      match member "line" members ≫= as_natural with
      | Some l =>
          Some (mkBookmark l
                  (default 0 (member "column" members ≫= as_natural))
                  (match member "label" members with
                   | Some (Json.Str s) => s
                   | _ => ""
                   end))
      | None => None
      end
  | _ => None
  end.

Definition read_file (kv : string * Json.value) : option BookmarkedFile :=
  match snd kv with
  | Json.Array items => Some (mkFile (fst kv) (omap read_bookmark items))
  | _ => None
  end.

(** Modelled from the spec: the core's [loadFrom] is missing from the
    sources.  The spec (4.4 and 6) rebuilds the files from the snapshot,
    keeps the entries whose line is a non-negative integer and discards
    the others, and gives an entry without a label the empty one. *)
Definition loadFrom (json : Json.value) (relativePath : bool)
    (c : BookmarksController) : Result unit * BookmarksController :=
  match json with
  | Json.Object members =>
      (Ok tt, mkController (omap read_file members) (activeBookmark c))
  | _ => (Ok tt, c)
  end.

Definition JSON_parse (text : string) : Result Json.value :=
  match Json.parse text with
  | Some v => Ok v
  | None => Throw (SyntaxError "Unexpected token in JSON")
  end.

Definition collaborators : Collaborators :=
  Build_Collaborators (-2) (-3) (-4) (fun p => p)
    nextBookmark nextDocumentWithBookmarks stickyBookmarks
    Json.value JSON_parse loadFrom serialize.

(** *** Sample inputs *)

(** A host with the default settings, no folder and nothing persisted;
    the same with [b.ts] to open. *)
Definition host0 : Host := mkHost false false "" None ∅ None [].

Definition doc_a : TextDocument :=
  mkDocument "/w/a.ts" ["a"; "b"; "c"; "d"; "e"].

Definition doc_b : TextDocument := mkDocument "/w/b.ts" ["x"; "y"; "z"].

Definition host_b : Host :=
  mkHost false false "" None ∅ None [mkEditor doc_b (mkPosition 0 0)].

Definition bookmark_at (l : Z) : Bookmark := mkBookmark l 0 "".

(** [a.ts] is active with the cursor on [cursor], and has [bks]. *)
Definition editing_a (h : Host) (cursor : Z) (bks : list Bookmark) : State :=
  mkState (mkController [mkFile "/w/a.ts" bks] (Some 0%nat)) (Some 5) false
          (Some (mkEditor doc_a (mkPosition cursor 0))) h.

(** [a.ts] with one more line at the top, and with two. *)
Definition doc_a6 : TextDocument :=
  mkDocument "/w/a.ts" ["new"; "a"; "b"; "c"; "d"; "e"].

Definition doc_a7 : TextDocument :=
  mkDocument "/w/a.ts" ["newer"; "new"; "a"; "b"; "c"; "d"; "e"].

Definition insert_at_top (d : TextDocument) : TextDocumentChangeEvent :=
  mkChangeEvent d [mkChange 0 0 "new"].

(** [a.ts] is active and has no bookmark; [b.ts] has two. *)
Definition two_files : State :=
  mkState (mkController [mkFile "/w/a.ts" [];
                         mkFile "/w/b.ts" [bookmark_at 0; bookmark_at 2]]
                        (Some 0%nat))
          (Some 5) false (Some (mkEditor doc_a (mkPosition 1 0))) host_b.

(** The default settings but for the formatter workaround, which is on;
    and bookmarks kept in the one folder [/w]. *)
Definition host_workaround : Host := mkHost true false "" None ∅ None [].

Definition host_project (files : gmap string string) : Host :=
  mkHost false true "" (Some ["/w"]) files None [].

(** The default settings but for the gutter icon, which names a file
    that does not exist. *)
Definition host_icon : Host :=
  mkHost false false "/w/icon.svg" None ∅ None [].

(** *** A sample platform *)

(** [String.prototype.toLowerCase], on ASCII letters. *)
Definition lower (c : ascii) : ascii :=
  let n := nat_of_ascii c in
  if (65 <=? n)%nat && (n <=? 90)%nat then ascii_of_nat (n + 32) else c.

Fixpoint toLowerCase (s : string) : string :=
  match s with
  | EmptyString => EmptyString
  | String c r => String (lower c) (toLowerCase r)
  end.

(** [String.prototype.trim], for the white space of ASCII: the space and
    the characters 9 to 13. *)
Definition is_space (c : ascii) : bool :=
  let n := nat_of_ascii c in
  Nat.eqb n 32 || ((9 <=? n)%nat && (n <=? 13)%nat).

Fixpoint drop_spaces (l : list ascii) : list ascii :=
  match l with
  | c :: r => if is_space c then drop_spaces r else l
  | [] => []
  end.

Definition trim (s : string) : string :=
  string_of_list_ascii
    (rev (drop_spaces (rev (drop_spaces (list_ascii_of_string s))))).

(** [path.join] on POSIX, of a folder and a relative path that needs no
    normalising. *)
Definition path_join (a b : string) : string := a +:+ "/" +:+ b.

Definition platform : Platform :=
  Build_Platform toLowerCase trim "/"%char path_join.

(** A core that goes through all files: within a file the search is
    exhausted with [NO_MORE_BOOKMARKS], and the next document with
    bookmarks is looked for circularly from the file after the given one,
    up to the given one itself. *)
Definition wrapping_nextBookmark (f : BookmarkedFile) (p : Position)
    (dir : Directions) : Promise (Z + Position) :=
  match nextBookmark f p dir with
  | Resolved (inl _) => Resolved (inl (-4))
  | other => other
  end.

Definition wrapping_nextDocumentWithBookmarks (c : BookmarksController)
    (i : nat) (dir : Directions) : Promise (Z + string) :=
  let after := drop (S i) (fileList c) in
  let upto := take (S i) (fileList c) in
  let candidates :=
    match dir with
    | Forward => (after ++ upto)%list
    | Backward => (rev (take i (fileList c)) ++ rev (drop i (fileList c)))%list
    end in
  match List.find (fun f => negb (Nat.eqb (length (bookmarks f)) 0))
                  candidates with
  | Some f => Resolved (inr (path f))
  | None => Resolved (inl (-4))
  end.

Definition wrapping : Collaborators :=
  Build_Collaborators (-2) (-3) (-4) (fun p => p)
    wrapping_nextBookmark wrapping_nextDocumentWithBookmarks stickyBookmarks
    Json.value JSON_parse loadFrom serialize.

(** *** More sample inputs *)

(** The folder [/w], named [w]. *)
(** *** A core whose [loadFrom] can throw

    It stops at the first member of the snapshot that is not an array
    and throws; the files of the members before it stay loaded. *)
Fixpoint strict_read_files (members : list (string * Json.value))
    : Result unit * list BookmarkedFile :=
  match members with
  | [] => (Ok tt, [])
  | kv :: rest =>
      match read_file kv with
      | Some f =>
          let (r, files) := strict_read_files rest in (r, f :: files)
      | None => (Throw (TypeError "bookmarks is not iterable"), [])
      end
  end.

Definition strict_loadFrom (json : Json.value) (relativePath : bool)
    (c : BookmarksController) : Result unit * BookmarksController :=
  match json with
  | Json.Object members =>
      let (r, files) := strict_read_files members in
      (r, mkController files (activeBookmark c))
  | _ => (Throw (TypeError "json is not an object"), c)
  end.

Definition strict : Collaborators :=
  Build_Collaborators (-2) (-3) (-4) (fun p => p)
    nextBookmark nextDocumentWithBookmarks stickyBookmarks
    Json.value JSON_parse strict_loadFrom serialize.

(** The text of a snapshot whose second member is not an array. *)
Definition half_readable : string :=
  "{" +:+ write_member "/w/a.ts" "[]" +:+ ","
  +:+ write_member "/w/b.ts" "3" +:+ "}".

Definition folder_w : WorkspaceFolder := mkFolder "w" "/w".

(** A selection from the start of line [first] to the start of line
    [last], made downwards. *)
Definition selected (first last : Z) : Selection :=
  mkSelection (mkPosition first 0) (mkPosition last 0) (mkPosition last 0)
              false false.

(** [a.ts] is active and the store does not know it. *)
Definition unknown_a : State :=
  mkState (mkController [] None) (Some 5) false
          (Some (mkEditor doc_a (mkPosition 0 0))) host0.

(** What [listBookmarks] resolved to for three files: one outside the
    folder with a bookmark, one without bookmarks, and [b.ts] and the
    active [a.ts] with one each. *)
Definition listed_values : list (option (list ListedBookmark)) :=
  [Some [mkListed "x" "(Ln 1, Col 1)" "/tmp/x.ts"];
   None;
   Some [mkListed "y" "(Ln 3, Col 1)" "/w/b.ts"];
   Some [mkListed "b" "(Ln 2, Col 1)" "/w/a.ts"]].

End Sample.

(** * Properties *)

(** ** Arrays, sorting and lookup *)

Section ArrayFacts.

Lemma compare_by_line_le x y : compare_by_line x y <= 0 <-> line x <= line y.
Proof.
  unfold compare_by_line.
  destruct (Z.ltb_spec (line y) (line x)); [lia|].
  destruct (Z.ltb_spec (line x) (line y)); lia.
Qed.

Lemma sort_insert_Permutation {A} (cmp : A -> A -> Z) x l :
  sort_insert cmp x l ≡ₚ x :: l.
Proof.
  induction l as [|y l IH]; cbn; [done|].
  destruct (cmp x y <=? 0); [done|].
  rewrite IH. apply Permutation_swap.
Qed.

Lemma array_sort_Permutation {A} (cmp : A -> A -> Z) l :
  array_sort cmp l ≡ₚ l.
Proof.
  induction l as [|x l IH]; cbn; [done|].
  fold (array_sort cmp l). by rewrite sort_insert_Permutation, IH.
Qed.

Lemma sort_insert_HdRel a x l :
  line_le a x -> HdRel line_le a l ->
  HdRel line_le a (sort_insert compare_by_line x l).
Proof.
  intros Hax Hal. destruct l as [|y l]; cbn; [by constructor|].
  destruct (compare_by_line x y <=? 0); constructor; [done|].
  by inversion Hal.
Qed.

Lemma sort_insert_Sorted x l :
  Sorted line_le l -> Sorted line_le (sort_insert compare_by_line x l).
Proof.
  induction l as [|y l IH]; intros Hs; cbn.
  - by repeat constructor.
  - destruct (Z.leb_spec (compare_by_line x y) 0) as [Hle|Hgt].
    + constructor; [done|]. constructor. by apply compare_by_line_le.
    + inversion Hs; subst. constructor; [by apply IH|].
      apply sort_insert_HdRel; [|done].
      unfold line_le. 
      assert (~ line x <= line y) by (rewrite <- compare_by_line_le; lia). lia.
Qed.

Lemma array_sort_Sorted l : Sorted line_le (array_sort compare_by_line l).
Proof.
  induction l as [|x l IH]; cbn; [constructor|].
  by apply sort_insert_Sorted.
Qed.


Lemma Sorted_line_le_prefix (l1 l2 : list Bookmark) :
  l1 `prefix_of` l2 -> Sorted line_le l2 -> Sorted line_le l1.
Proof.
  intros [k ->] Hs. revert Hs. induction l1 as [|x l1 IH]; cbn; intros Hs.
  - constructor.
  - inversion Hs; subst. constructor; [by apply IH|].
    destruct l1; cbn in *; [constructor|]. inversion H2; by constructor.
Qed.

Lemma NoDup_lines_prefix (l1 l2 : list Bookmark) :
  l1 `prefix_of` l2 -> NoDup (line <$> l2) -> NoDup (line <$> l1).
Proof.
  intros [k ->]. rewrite fmap_app. apply NoDup_app.
Qed.

Lemma Sorted_line_lt (l : list Bookmark) :
  Sorted line_le l -> NoDup (line <$> l) -> Sorted line_lt l.
Proof.
  induction l as [|x l IH]; cbn; intros Hs Hn; [constructor|].
  inversion Hs; subst. apply NoDup_cons in Hn as [Hx Hn].
  constructor; [by apply IH|].
  destruct l as [|y l]; [constructor|]. constructor.
  inversion H2; subst. unfold line_le, line_lt in *.
  assert (line x <> line y) by (intros E; apply Hx; rewrite E; cbn; left).
  lia.
Qed.

Lemma indexOfBookmark_from_object k b bks :
  indexOfBookmark_from k (VBookmark b) bks = -1.
Proof. revert k. induction bks as [|e bks IH]; intros k; cbn; [done|apply IH]. Qed.

Lemma indexOfBookmark_from_spec k l bks :
  0 <= k ->
  let r := indexOfBookmark_from k (VNumber l) bks in
  (r = -1 /\ Forall (fun b => line b <> l) bks) \/
  (k <= r /\ exists b, bks !! Z.to_nat (r - k) = Some b /\ line b = l).
Proof.
  revert k. induction bks as [|e bks IH]; intros k Hk; cbn.
  - left. split; [done|constructor].
  - destruct (Z.eqb_spec l (line e)) as [->|Hne].
    + right. split; [lia|]. exists e. by rewrite Z.sub_diag.
    + destruct (IH (k + 1)) as [[Hr Hall]|[Hr (b & Hb & Hl)]]; [lia| |].
      * left. split; [done|]. constructor; [congruence|done].
      * right. split; [lia|]. exists b. split; [|done].
        replace (Z.to_nat (indexOfBookmark_from (k + 1) (VNumber l) bks - k))
          with (S (Z.to_nat (indexOfBookmark_from (k + 1) (VNumber l) bks - (k + 1)))) by lia.
        done.
Qed.

Lemma indexOfBookmark_found l bks :
  0 <= indexOfBookmark (VNumber l) bks ->
  exists b, bks !! Z.to_nat (indexOfBookmark (VNumber l) bks) = Some b /\ line b = l.
Proof.
  intros Hr. destruct (indexOfBookmark_from_spec 0 l bks) as [[E _]|[_ (b & Hb & Hl)]]; [lia| |].
  - unfold indexOfBookmark in Hr. lia.
  - exists b. rewrite Z.sub_0_r in Hb. done.
Qed.

Lemma indexOfBookmark_absent l bks :
  indexOfBookmark (VNumber l) bks < 0 -> l ∉ line <$> bks.
Proof.
  intros Hr. destruct (indexOfBookmark_from_spec 0 l bks) as [[_ Hall]|[Hk _]]; [lia| |].
  - intros (b & -> & Hb)%list_elem_of_fmap. rewrite Forall_forall in Hall. by apply (Hall b).
  - unfold indexOfBookmark in Hr. lia.
Qed.

Lemma splice1_last {A} (arr : list A) :
  splice1 (-1) arr = take (length arr - 1) arr.
Proof.
  unfold splice1. cbn.
  destruct arr as [|x arr] using rev_ind; [done|].
  rewrite length_app. cbn.
  replace (Z.to_nat (Z.max (Z.of_nat (length arr + 1) + -1) 0)) with (length arr) by lia.
  replace (length arr + 1 - 1)%nat with (length arr) by lia.
  rewrite take_app_length.
  clear. induction arr; cbn; [done|]. by f_equal.
Qed.

Lemma remove_invalids_take invalids bks :
  remove_invalids invalids bks = take (length bks - length invalids) bks.
Proof.
  unfold remove_invalids. revert bks.
  induction invalids as [|e invalids IH]; intros bks; cbn.
  - by rewrite Nat.sub_0_r, firstn_all.
  - rewrite IH. unfold indexOfBookmark.
    rewrite indexOfBookmark_from_object, splice1_last.
    rewrite length_take, take_take. f_equal. lia.
Qed.

Lemma split_valid_invalids count bks :
  (split_valid count bks).2 = filter (fun b => count < line b) bks.
Proof.
  induction bks as [|e bks IH]; [done|].
  cbn [split_valid]. destruct (split_valid count bks) as [books invalids].
  cbn in IH. subst invalids.
  destruct (Z.leb_spec (line e) count).
  - by rewrite filter_cons_False by lia.
  - by rewrite filter_cons_True by lia.
Qed.

Lemma split_valid_books count bks :
  (split_valid count bks).1 = line <$> filter (fun b => line b <= count) bks.
Proof.
  induction bks as [|e bks IH]; [done|].
  cbn [split_valid]. destruct (split_valid count bks) as [books invalids].
  cbn in IH. subst books.
  destruct (Z.leb_spec (line e) count).
  - by rewrite filter_cons_True by lia.
  - by rewrite filter_cons_False by lia.
Qed.

Lemma decorate_prefix d bks : (decorate d bks).1 `prefix_of` bks.
Proof.
  unfold decorate.
  destruct (_ && _); cbn; [apply prefix_nil|].
  destruct (split_valid (lineCount d) bks) as [books invalids]. cbn.
  rewrite remove_invalids_take. apply prefix_take.
Qed.

Lemma filter_Forall_all {A} (P : A -> Prop) `{forall x, Decision (P x)} l :
  Forall P l -> filter P l = l.
Proof.
  induction 1 as [|x l Hx Hl IH]; [done|].
  by rewrite filter_cons_True, IH.
Qed.

Lemma filter_Forall_none {A} (P : A -> Prop) `{forall x, Decision (P x)} l :
  Forall (fun x => ~ P x) l -> filter P l = [].
Proof.
  induction 1 as [|x l Hx Hl IH]; [done|].
  by rewrite filter_cons_False.
Qed.

(** On an array in ascending order of line the invalid bookmarks are the
    last ones. *)
Lemma take_valid_sorted count bks :
  Sorted line_le bks ->
  take (length bks - length (filter (fun b => count < line b) bks)) bks
  = filter (fun b => line b <= count) bks.
Proof.
  intros Hs. apply Sorted_StronglySorted in Hs;
    [|intros x y z; unfold line_le; lia].
  induction Hs as [|x l Hs IH Hall]; [done|].
  destruct (Z.le_gt_cases (line x) count) as [Hle|Hgt].
  - rewrite filter_cons_False by lia.
    rewrite (filter_cons_True (fun b => line b <= count)) by done.
    cbn [length].
    pose proof (length_filter (fun b => count < line b) l) as Hlen.
    revert IH Hlen.
    generalize (length (filter (fun b => count < line b) l)).
    intros n IH Hlen.
    replace (S (length l) - n)%nat with (S (length l - n)) by lia.
    cbn. by rewrite IH.
  - assert (Hinv : Forall (fun b => count < line b) (x :: l)).
    { constructor; [done|]. eapply Forall_impl; [exact Hall|].
      unfold line_le. cbn. lia. }
    rewrite (filter_Forall_all _ _ Hinv), Nat.sub_diag.
    rewrite filter_Forall_none; [done|].
    eapply Forall_impl; [exact Hinv|]. cbn. lia.
Qed.
End ArrayFacts.

(** ** Reasoning about runs *)

Section WP.
Context {A B : Type}.

Lemma wp_bind (m : M A) (k : A -> M B)
    (Q : Result B -> State -> list Event -> Prop) st :
  wp m (fun r st' ev =>
          match r with
          | Ok a => wp (k a) (fun r' st'' ev' => Q r' st'' (ev ++ ev')%list) st'
          | Throw e => Q (Throw e) st' ev
          end) st ->
  wp (bind m k) Q st.
Proof. unfold wp, bind. cbn. destruct (result (m st)); done. Qed.

Lemma wp_ret (a : A) Q st : Q (Ok a) st [] -> wp (ret a) Q st.
Proof. done. Qed.

Lemma wp_throw e (Q : Result A -> State -> list Event -> Prop) st :
  Q (Throw e) st [] -> wp (throw e) Q st.
Proof. done. Qed.

Lemma wp_conseq (m : M A) (Q Q' : Result A -> State -> list Event -> Prop) st :
  wp m Q st -> (forall r st' ev, Q r st' ev -> Q' r st' ev) -> wp m Q' st.
Proof. unfold wp. auto. Qed.

Lemma wp_try_catch (m : M A) handler
    (Q : Result A -> State -> list Event -> Prop) st :
  wp m (fun r st' ev =>
          match r with
          | Ok a => Q (Ok a) st' ev
          | Throw e => wp (handler e) (fun r' st'' ev' => Q r' st'' (ev ++ ev')%list) st'
          end) st ->
  wp (try_catch m handler) Q st.
Proof.
  unfold wp, try_catch. cbn. destruct (result (m st)) eqn:E; [|done].
  by rewrite E.
Qed.

End WP.

Lemma wp_get Q st : Q (Ok st) st [] -> wp get Q st.
Proof. done. Qed.

Lemma wp_modify f Q st : Q (Ok tt) (f st) [] -> wp (modify f) Q st.
Proof. done. Qed.

Lemma wp_emit e Q st : Q (Ok tt) st [e] -> wp (emit e) Q st.
Proof. done. Qed.

Ltac wp_step :=
  lazymatch goal with
  | |- wp (bind _ _) _ _ => apply wp_bind
  | |- wp get _ _ => apply wp_get
  | |- wp (ret _) _ _ => apply wp_ret
  | |- wp (throw _) _ _ => apply wp_throw
  | |- wp (emit _) _ _ => apply wp_emit
  | |- wp (modify _) _ _ => apply wp_modify
  | |- wp (set_controller _) _ _ => apply wp_modify
  | |- wp (set_activeEditor _) _ _ => apply wp_modify
  | |- wp (set_activeEditorCountLine _) _ _ => apply wp_modify
  | |- wp (set_timeout _) _ _ => apply wp_modify
  | |- wp (set_host _) _ _ => apply wp_modify
  | |- wp (try_catch _ _) _ _ => apply wp_try_catch
  end; cbn beta iota.

Ltac wp_steps := repeat wp_step.

(** ** What the shared steps do *)

Section HandlerFacts.
Context `{Collaborators}.

Lemma pruned_refl c : pruned c c.
Proof.
  split; [done|]. apply Forall_Forall2_diag, Forall_forall. intros f _. done.
Qed.

Lemma pruned_set_bookmarks c i f bks :
  file_at c i = Some f -> bks `prefix_of` bookmarks f ->
  pruned c (set_bookmarks i bks c).
Proof.
  intros Hf Hp. split; [done|]. cbn. unfold file_at in Hf.
  revert i Hf. induction (fileList c) as [|g l IH]; intros i Hf; [constructor|].
  destruct i as [|i]; cbn in *.
  - inversion Hf; subst. constructor; [done|].
    apply Forall_Forall2_diag, Forall_forall. intros h _. done.
  - constructor; [done|]. by apply IH.
Qed.

Lemma pruned_file_at c c' i f' :
  pruned c c' -> file_at c' i = Some f' ->
  exists f, file_at c i = Some f /\ path f' = path f /\
            bookmarks f' `prefix_of` bookmarks f.
Proof.
  intros [_ Hall] Hf. unfold file_at in *.
  destruct (Forall2_lookup_r _ _ _ _ _ Hall Hf) as (f & Hf0 & Hp & Hb).
  eauto.
Qed.

Lemma active_file_Some c i f :
  active_file c = Some (i, f) -> activeBookmark c = Some i /\ file_at c i = Some f.
Proof.
  unfold active_file, file_at. destruct (activeBookmark c) as [j|]; [|done].
  destruct (fileList c !! j) eqn:E; [|done]. intros [= -> ->]. done.
Qed.

Lemma updateDecorations_result st : result (updateDecorations st) = Ok tt.
Proof.
  unfold updateDecorations, bind, get. cbn.
  destruct (activeEditor st); [|done].
  destruct (active_file (controller st)) as [[i f]|]; [|done].
  destruct (Nat.eqb _ _); [done|].
  destruct (decorate _ _); cbn; done.
Qed.

Lemma updateDecorations_frame st :
  let st' := state_after (updateDecorations st) in
  activeEditor st' = activeEditor st /\
  activeEditorCountLine st' = activeEditorCountLine st /\
  timeout st' = timeout st /\
  host st' = host st.
Proof.
  unfold updateDecorations, bind, get. cbn.
  destruct (activeEditor st) eqn:Hed; cbn; [|by rewrite Hed].
  destruct (active_file (controller st)) as [[i f]|]; cbn; [|by rewrite Hed].
  destruct (Nat.eqb _ _); cbn; [by rewrite Hed|].
  destruct (decorate _ _); cbn; by rewrite Hed.
Qed.

Lemma updateDecorations_pruned st :
  pruned (controller st) (controller (state_after (updateDecorations st))).
Proof.
  unfold updateDecorations, bind, get. cbn.
  destruct (activeEditor st); [|apply pruned_refl].
  destruct (active_file (controller st)) as [[i f]|] eqn:Hact; [|apply pruned_refl].
  destruct (Nat.eqb _ _); [apply pruned_refl|].
  pose proof (decorate_prefix (document t) (bookmarks f)) as Hp.
  destruct (decorate _ _) as [kept books]. cbn in *.
  apply active_file_Some in Hact as [_ Hf].
  by apply (pruned_set_bookmarks _ _ f).
Qed.

Lemma updateDecorations_events st :
  Forall is_SetDecorations (events (updateDecorations st)).
Proof.
  unfold updateDecorations, bind, get. cbn.
  destruct (activeEditor st); [|constructor].
  destruct (active_file (controller st)) as [[i f]|]; [|constructor].
  destruct (Nat.eqb _ _); [by repeat constructor|].
  destruct (decorate _ _); cbn; by repeat constructor.
Qed.

Lemma saveWorkspaceState_frame st :
  let st' := state_after (saveWorkspaceState st) in
  controller st' = controller st /\
  activeEditor st' = activeEditor st /\
  activeEditorCountLine st' = activeEditorCountLine st /\
  timeout st' = timeout st.
Proof.
  unfold saveWorkspaceState, bind, get. cbn.
  destruct (canSaveBookmarksInProject _); cbn; [|done].
  destruct (workspaceFolders _) as [[|folder ?]|]; cbn; [done| |done].
  destruct (negb _); done.
Qed.

Lemma saveWorkspaceState_events st :
  events (saveWorkspaceState st) =
    match result (saveWorkspaceState st) with
    | Ok _ => [SaveWorkspaceState (fileList (controller st))]
    | Throw _ => []
    end.
Proof.
  unfold saveWorkspaceState, bind, get. cbn.
  destruct (canSaveBookmarksInProject _); cbn; [|done].
  destruct (workspaceFolders _) as [[|folder ?]|]; cbn; [done| |done].
  destruct (negb _); done.
Qed.


Lemma file_at_set_bookmarks c i bks f :
  file_at c i = Some f ->
  file_at (set_bookmarks i bks c) i = Some (mkFile (path f) bks).
Proof.
  unfold file_at, set_bookmarks. cbn. intros Hf.
  by rewrite list_lookup_alter_eq, Hf.
Qed.

Lemma file_at_set_bookmarks_ne c i j bks :
  i <> j -> file_at (set_bookmarks i bks c) j = file_at c j.
Proof.
  unfold file_at, set_bookmarks. cbn. intros Hf.
  by rewrite list_lookup_alter_ne.
Qed.

Lemma active_file_set_bookmarks c i bks f :
  active_file c = Some (i, f) ->
  active_file (set_bookmarks i bks c) = Some (i, mkFile (path f) bks).
Proof.
  intros [Ha Hf]%active_file_Some. unfold active_file, file_at in *. cbn.
  by rewrite Ha, list_lookup_alter_eq, Hf.
Qed.

Lemma sort_bookmarks_file_at c i f :
  file_at c i = Some f ->
  file_at (sort_bookmarks i c) i
  = Some (mkFile (path f) (array_sort compare_by_line (bookmarks f))).
Proof.
  intros Hf. unfold sort_bookmarks. rewrite Hf.
  by apply file_at_set_bookmarks.
Qed.


Lemma pruned_active_file c c' i f :
  pruned c c' -> active_file c = Some (i, f) ->
  exists f', active_file c' = Some (i, f') /\ path f' = path f /\
             bookmarks f' `prefix_of` bookmarks f.
Proof.
  intros [Ha Hall] [Hi Hf]%active_file_Some. unfold file_at in Hf.
  destruct (Forall2_lookup_l _ _ _ _ _ Hall Hf) as (f' & Hf' & Hp & Hb).
  exists f'. split; [|done]. unfold active_file. by rewrite Ha, Hi, Hf'.
Qed.

Lemma wp_updateDecorations st (Q : Result unit -> State -> list Event -> Prop) :
  (forall c' ev,
     pruned (controller st) c' -> Forall is_SetDecorations ev ->
     Q (Ok tt)
       (mkState c' (activeEditorCountLine st) (timeout st) (activeEditor st)
                (host st)) ev) ->
  wp updateDecorations Q st.
Proof.
  intros HQ. unfold wp.
  pose proof (updateDecorations_frame st) as (H1 & H2 & H3 & H4).
  pose proof (updateDecorations_pruned st) as Hp.
  pose proof (updateDecorations_events st) as He.
  rewrite updateDecorations_result.
  destruct (state_after (updateDecorations st)) as [c' n t e h]. cbn in *. subst.
  by apply HQ.
Qed.

Lemma wp_saveWorkspaceState st (Q : Result unit -> State -> list Event -> Prop) :
  (forall h',
     Q (Ok tt)
       (mkState (controller st) (activeEditorCountLine st) (timeout st)
                (activeEditor st) h')
       [SaveWorkspaceState (fileList (controller st))]) ->
  (forall e, Q (Throw e) st []) ->
  wp saveWorkspaceState Q st.
Proof.
  intros HQ HT. unfold wp.
  unfold saveWorkspaceState, bind, get. cbn.
  destruct (canSaveBookmarksInProject _); cbn; [|apply HQ].
  destruct (workspaceFolders _) as [[|folder ?]|]; cbn;
    [destruct st; apply HT| |destruct st; apply HT].
  destruct (negb _); apply HQ.
Qed.

Lemma wp_ensure_activeBookmark ed st
    (Q : Result unit -> State -> list Event -> Prop) :
  (forall c',
     Q (Ok tt)
       (mkState c' (activeEditorCountLine st) (timeout st) (activeEditor st)
                (host st)) []) ->
  wp (ensure_activeBookmark ed) Q st.
Proof.
  intros HQ. unfold ensure_activeBookmark. wp_steps.
  destruct (active_file (controller st)); wp_steps; [|apply HQ].
  destruct st; apply HQ.
Qed.

End HandlerFacts.

(** ** The core's array operations, and the steps after them *)

Section CoreFacts.
Context `{Collaborators}.

Lemma wp_addBookmark position label book st
    (Q : Result unit -> State -> list Event -> Prop) :
  (book_or_active book (controller st) = None ->
   Q (Throw (TypeError "book is undefined")) st []) ->
  (forall i f,
     book_or_active book (controller st) = Some (i, f) ->
     0 <= indexOfBookmark (VNumber (pos_line position)) (bookmarks f) ->
     Q (Throw DuplicateLine) st []) ->
  (forall i f,
     book_or_active book (controller st) = Some (i, f) ->
     indexOfBookmark (VNumber (pos_line position)) (bookmarks f) < 0 ->
     Q (Ok tt)
       (with_controller
          (set_bookmarks i
             (sort_insert compare_by_line
                (mkBookmark (pos_line position) (character position)
                            (default "" label))
                (bookmarks f))
             (controller st)) st)
       [CoreAddBookmark i (pos_line position)]) ->
  wp (addBookmark position label book) Q st.
Proof.
  intros HT HD HQ. unfold addBookmark. wp_steps.
  destruct (book_or_active book (controller st)) as [[i f]|] eqn:Hb;
    wp_steps; [|by apply HT].
  destruct (Z.leb_spec 0 (indexOfBookmark (VNumber (pos_line position))
                                          (bookmarks f))); wp_steps;
    [by eapply HD|].
  by apply HQ.
Qed.

Lemma wp_removeBookmark index aline book st
    (Q : Result unit -> State -> list Event -> Prop) :
  (book_or_active book (controller st) = None ->
   Q (Throw (TypeError "book is undefined")) st []) ->
  (forall i f,
     book_or_active book (controller st) = Some (i, f) ->
     ~ 0 <= index < Z.of_nat (length (bookmarks f)) ->
     Q (Throw IndexOutOfRange) st []) ->
  (forall i f,
     book_or_active book (controller st) = Some (i, f) ->
     0 <= index < Z.of_nat (length (bookmarks f)) ->
     Q (Ok tt)
       (with_controller
          (set_bookmarks i (delete (Z.to_nat index) (bookmarks f))
                         (controller st)) st)
       [CoreRemoveBookmark i index]) ->
  wp (removeBookmark index aline book) Q st.
Proof.
  intros HT HR HQ. unfold removeBookmark. wp_steps.
  destruct (book_or_active book (controller st)) as [[i f]|] eqn:Hb;
    wp_steps; [|by apply HT].
  destruct (Z.ltb_spec index 0); cbn; wp_steps;
    [eapply HR; [done|lia]|].
  destruct (Z.leb_spec (Z.of_nat (length (bookmarks f))) index); wp_steps;
    [eapply HR; [done|lia]|].
  apply HQ; [done|lia].
Qed.

Lemma wp_show_active_document st
    (Q : Result unit -> State -> list Event -> Prop) :
  (activeEditor st = None ->
   Q (Throw (TypeError "activeTextEditor is undefined")) st []) ->
  (forall ed, activeEditor st = Some ed ->
              Q (Ok tt) st [ShowTextDocument (fsPath (document ed))]) ->
  wp show_active_document Q st.
Proof.
  intros HT HQ. unfold show_active_document. wp_steps.
  destruct (activeEditor st) eqn:E; wp_steps; [by apply HQ|by apply HT].
Qed.

Lemma book_or_active_Some book c i f :
  book_or_active book c = Some (i, f) -> file_at c i = Some f.
Proof.
  unfold book_or_active. destruct book as [j|].
  - destruct (file_at c j) eqn:E; [|done]. by intros [= -> ->].
  - by intros [_ ?]%active_file_Some.
Qed.

Lemma book_or_active_set_bookmarks book c i f bks :
  book_or_active book c = Some (i, f) ->
  book_or_active book (set_bookmarks i bks c) = Some (i, mkFile (path f) bks).
Proof.
  unfold book_or_active. destruct book as [j|].
  - destruct (file_at c j) eqn:E; [|done]. intros [= -> ->].
    by rewrite (file_at_set_bookmarks _ _ _ f).
  - apply active_file_set_bookmarks.
Qed.

Lemma book_or_active_pruned book c c' i f :
  pruned c c' -> book_or_active book c = Some (i, f) ->
  exists f', book_or_active book c' = Some (i, f') /\ path f' = path f /\
             bookmarks f' `prefix_of` bookmarks f.
Proof.
  intros Hp. unfold book_or_active. destruct book as [j|].
  - destruct (file_at c j) eqn:E; [|done]. intros [= -> ->].
    destruct Hp as [_ Hall]. unfold file_at in *.
    destruct (Forall2_lookup_l _ _ _ _ _ Hall E) as (f' & Hf' & Hp & Hb).
    exists f'. by rewrite Hf'.
  - by apply pruned_active_file.
Qed.

(** The steps [toggle] and [askForBookmarkLabel] end with: sort the file's
    array, save, redraw. *)
Lemma wp_sort_save_update book b f st
    (Q : Result unit -> State -> list Event -> Prop) :
  book_or_active book (controller st) = Some (b, f) ->
  (forall e, Q (Throw e) (with_controller (sort_bookmarks b (controller st)) st) []) ->
  (forall c' h' ev,
     pruned (sort_bookmarks b (controller st)) c' ->
     Forall is_SetDecorations ev ->
     Q (Ok tt)
       (mkState c' (activeEditorCountLine st) (timeout st) (activeEditor st) h')
       (SaveWorkspaceState (fileList (sort_bookmarks b (controller st))) :: ev)) ->
  wp (let* _ := set_controller (sort_bookmarks b (controller st)) in
      let* _ := saveWorkspaceState in
      updateDecorations) Q st.
Proof.
  intros Hb HT HQ. wp_steps.
  apply wp_saveWorkspaceState; cbn.
  - intros h'. apply wp_updateDecorations; cbn. intros c' ev Hp Hev.
    by apply HQ.
  - intros e. apply HT.
Qed.

Lemma sorted_after_sort_pruned book c b f c' :
  book_or_active book c = Some (b, f) ->
  pruned (sort_bookmarks b c) c' ->
  exists f', book_or_active book c' = Some (b, f') /\
             Sorted line_le (bookmarks f') /\
             (NoDup (line <$> bookmarks f) -> NoDup (line <$> bookmarks f')).
Proof.
  intros Hb Hp.
  pose proof (book_or_active_Some _ _ _ _ Hb) as Hf.
  assert (Hb' : book_or_active book (sort_bookmarks b c)
                = Some (b, mkFile (path f) (array_sort compare_by_line (bookmarks f)))).
  { unfold sort_bookmarks. rewrite Hf. by apply book_or_active_set_bookmarks. }
  destruct (book_or_active_pruned _ _ _ _ _ Hp Hb') as (f' & Hf' & _ & Hpre).
  exists f'. split; [done|]. cbn in Hpre. split.
  - eapply Sorted_line_le_prefix; [exact Hpre|apply array_sort_Sorted].
  - intros Hn. eapply NoDup_lines_prefix; [exact Hpre|].
    by rewrite array_sort_Permutation.
Qed.

Lemma filter_mutation_decorations ev :
  Forall is_SetDecorations ev -> List.filter is_mutation ev = [].
Proof.
  induction 1 as [|e ev He _ IH]; [done|].
  destruct e; try done. 
Qed.

Lemma NoDup_lines_sort_insert b bks :
  line b ∉ line <$> bks -> NoDup (line <$> bks) ->
  NoDup (line <$> sort_insert compare_by_line b bks).
Proof.
  intros Hb Hn. rewrite sort_insert_Permutation. cbn.
  by apply NoDup_cons.
Qed.

Lemma NoDup_lines_delete k (bks : list Bookmark) :
  NoDup (line <$> bks) -> NoDup (line <$> delete k bks).
Proof.
  intros Hn. apply (sublist_NoDup (line <$> delete k bks) (line <$> bks));
    [done|apply fmap_sublist, sublist_delete].
Qed.

Lemma ensure_activeBookmark_run ed st :
  result (ensure_activeBookmark ed st) = Ok tt /\
  events (ensure_activeBookmark ed st) = [] /\
  activeEditor (state_after (ensure_activeBookmark ed st)) = activeEditor st.
Proof.
  unfold ensure_activeBookmark, bind, get. cbn.
  destruct (active_file (controller st)); done.
Qed.

End CoreFacts.

(** ** The sort invariant *)

Section SortInvariant.
Context `{Collaborators}.

Lemma sorted_set_intro bks : Sorted line_le bks -> sorted_set bks.
Proof. intros Hs. split; [done|]. by apply Sorted_line_lt. Qed.

Lemma toggle_leaves_sorted st ed :
  activeEditor st = Some ed ->
  result (toggle st) = Ok tt ->
  exists i f,
    active_file (controller (state_after (toggle st))) = Some (i, f) /\
    sorted_set (bookmarks f).
Proof.
  intros Hed.
  change (wp toggle (fun r st' _ => r = Ok tt -> exists i f,
     active_file (controller st') = Some (i, f) /\ sorted_set (bookmarks f)) st).
  unfold toggle. wp_steps. rewrite Hed. wp_steps.
  apply wp_ensure_activeBookmark. intros c1. wp_steps. cbn.
  destruct (active_file c1) as [[i f]|] eqn:Hact; wp_steps; [|done].
  assert (Htail : forall st2 f2,
    active_file (controller st2) = Some (i, f2) ->
    wp (let* st0 := get in
        let* _ := set_controller (sort_bookmarks i (controller st0)) in
        let* _ := saveWorkspaceState in updateDecorations)
       (fun r st' _ => r = Ok tt -> exists i0 f0,
          active_file (controller st') = Some (i0, f0) /\ sorted_set (bookmarks f0))
       st2).
  { intros st2 f2 Hact2. wp_step. wp_step.
    apply (wp_sort_save_update None i f2); [done|done|].
    intros c' h' ev Hp _ _. cbn.
    destruct (sorted_after_sort_pruned None _ _ _ _ Hact2 Hp) as (f' & Hf' & Hs & _).
    exists i, f'. split; [done|]. by apply sorted_set_intro. }
  destruct (_ <? 0).
  - wp_step. apply wp_addBookmark; [done|done|]. intros i' f' Hb Hidx. cbn in Hb.
    rewrite Hact in Hb. injection Hb as <- <-.
    apply wp_show_active_document; [done|]. intros ed' Hed'.
    eapply Htail. cbn. by apply active_file_set_bookmarks.
  - apply wp_removeBookmark; [done|done|]. intros i' f' Hb Hidx. cbn in Hb.
    rewrite Hact in Hb. injection Hb as <- <-.
    eapply Htail. cbn. by apply active_file_set_bookmarks.
Qed.

Lemma askForBookmarkLabel_leaves_sorted index position oldLabel jump book
    bookmarkLabel st :
  String.eqb bookmarkLabel ""
    && (bool_decide (oldLabel = Some "") || jump) = false ->
  let r := askForBookmarkLabel index position oldLabel jump book
                               (Some bookmarkLabel) st in
  result r = Ok tt ->
  exists b f,
    book_or_active book (controller (state_after r)) = Some (b, f) /\
    sorted_set (bookmarks f).
Proof.
  intros Haccept r. subst r.
  change (wp (askForBookmarkLabel index position oldLabel jump book
                (Some bookmarkLabel))
             (fun r st' _ => r = Ok tt -> exists b f,
                book_or_active book (controller st') = Some (b, f) /\
                sorted_set (bookmarks f)) st).
  unfold askForBookmarkLabel. rewrite Haccept.
  assert (Htail : forall st2,
    wp (let* st0 := get in
        match book_or_active book (controller st0) with
        | Some (b, _) =>
            let* _ := set_controller (sort_bookmarks b (controller st0)) in
            let* _ := saveWorkspaceState in updateDecorations
        | None => throw (TypeError "b is undefined")
        end)
       (fun r st' _ => r = Ok tt -> exists b f,
          book_or_active book (controller st') = Some (b, f) /\
          sorted_set (bookmarks f))
       st2).
  { intros st2. wp_step. wp_step.
    destruct (book_or_active book (controller st2)) as [[b f2]|] eqn:Hb2;
      [|by wp_step].
    apply (wp_sort_save_update book b f2); [done|done|].
    intros c' h' ev Hp _ _. cbn.
    destruct (sorted_after_sort_pruned book _ _ _ _ Hb2 Hp) as (f' & Hf' & Hs & _).
    exists b, f'. split; [done|]. by apply sorted_set_intro. }
  assert (Hadd : forall st1,
    wp (let* _ := addBookmark position (Some bookmarkLabel) book in
        let* _ := if jump then show_active_document else ret tt in
        let* st0 := get in
        match book_or_active book (controller st0) with
        | Some (b, _) =>
            let* _ := set_controller (sort_bookmarks b (controller st0)) in
            let* _ := saveWorkspaceState in updateDecorations
        | None => throw (TypeError "b is undefined")
        end)
       (fun r st' _ => r = Ok tt -> exists b f,
          book_or_active book (controller st') = Some (b, f) /\
          sorted_set (bookmarks f))
       st1).
  { intros st1. wp_step. apply wp_addBookmark; [done|done|]. intros i f Hb Hidx.
    wp_step. destruct jump.
    - apply wp_show_active_document; [done|]. intros ed' Hed'. apply Htail.
    - wp_step. apply Htail. }
  wp_step. destruct (0 <=? index).
  - apply wp_removeBookmark; [done|done|]. intros i f Hb Hidx. apply Hadd.
  - wp_step. apply Hadd.
Qed.


(** C4: after every completed toggle, and after every completed labelled
    add through [askForBookmarkLabel] (a label was entered and accepted),
    the bookmarks of the affected file are in ascending order of line, and
    in strictly ascending order when no two of them share a line. *)
Theorem toggle_and_label_leave_sorted :
  (forall st ed,
     activeEditor st = Some ed ->
     result (toggle st) = Ok tt ->
     exists i f,
       active_file (controller (state_after (toggle st))) = Some (i, f) /\
       sorted_set (bookmarks f))
  /\
  (forall index position oldLabel jump book bookmarkLabel st,
     String.eqb bookmarkLabel ""
       && (bool_decide (oldLabel = Some "") || jump) = false ->
     let r := askForBookmarkLabel index position oldLabel jump book
                                  (Some bookmarkLabel) st in
     result r = Ok tt ->
     exists b f,
       book_or_active book (controller (state_after r)) = Some (b, f) /\
       sorted_set (bookmarks f)).
Proof.
  split.
  - apply toggle_leaves_sorted.
  - apply askForBookmarkLabel_leaves_sorted.
Qed.

End SortInvariant.

(** ** The decoration pass *)

Section Decorations.
Context `{Collaborators}.

(** C2: when the document of the active editor is a single empty line,
    the decoration pass leaves the active file without bookmarks. *)
Theorem updateDecorations_clears_empty_document st ed i f :
  activeEditor st = Some ed ->
  active_file (controller st) = Some (i, f) ->
  lineCount (document ed) = 1 ->
  lineAt (document ed) 0 = Some "" ->
  result (updateDecorations st) = Ok tt /\
  exists f',
    active_file (controller (state_after (updateDecorations st)))
      = Some (i, f') /\
    bookmarks f' = [].
Proof.
  intros Hed Hact Hcount Htext. split; [apply updateDecorations_result|].
  unfold updateDecorations, bind, get. cbn. rewrite Hed, Hact.
  destruct (Nat.eqb (length (bookmarks f)) 0) eqn:Hlen; cbn.
  - exists f. split; [done|].
    apply Nat.eqb_eq in Hlen. by apply nil_length_inv.
  - unfold decorate. rewrite Hcount, Htext.
    rewrite Z.eqb_refl, bool_decide_eq_true_2 by done. cbn [andb].
    change (exists f',
      active_file (set_bookmarks i [] (controller st)) = Some (i, f') /\
      bookmarks f' = []).
    rewrite (active_file_set_bookmarks _ _ _ f Hact). eauto.
Qed.

Lemma prefix_lookup_Some {A} (l1 l2 : list A) k x :
  l1 `prefix_of` l2 -> l1 !! k = Some x -> l2 !! k = Some x.
Proof. intros [l ->] Hk. by apply lookup_app_l_Some. Qed.

(** C9: with [bookmarks.useWorkaroundForFormatters] on, a text change of
    the active document only redraws the decorations and returns: the
    handler emits nothing but [setDecorations] (no sticky adjustment, no
    save), leaves [activeEditorCountLine] and the host's storage as they
    were, and every bookmark a file has afterwards is one it had, at the
    same index, with its line, column and label. *)
Theorem formatter_workaround_only_redraws st ed event :
  activeEditor st = Some ed ->
  fsPath (ev_document event) = fsPath (document ed) ->
  useWorkaroundForFormatters (host st) = true ->
  let r := onDidChangeTextDocument event st in
  result r = Ok tt /\
  Forall is_SetDecorations (events r) /\
  activeEditorCountLine (state_after r) = activeEditorCountLine st /\
  host (state_after r) = host st /\
  (forall j f' k b,
     file_at (controller (state_after r)) j = Some f' ->
     bookmarks f' !! k = Some b ->
     exists f, file_at (controller st) j = Some f /\
               bookmarks f !! k = Some b).
Proof.
  intros Hed Hdoc Hflag r. subst r.
  change (wp (onDidChangeTextDocument event)
    (fun r st' ev =>
       r = Ok tt /\ Forall is_SetDecorations ev /\
       activeEditorCountLine st' = activeEditorCountLine st /\
       host st' = host st /\
       (forall j f' k b,
          file_at (controller st') j = Some f' ->
          bookmarks f' !! k = Some b ->
          exists f, file_at (controller st) j = Some f /\
                    bookmarks f !! k = Some b)) st).
  unfold onDidChangeTextDocument. wp_steps. rewrite Hed, Hdoc, String.eqb_refl.
  wp_steps. rewrite Hflag.
  apply wp_updateDecorations. cbn. intros c' ev Hp Hev.
  repeat split; try done.
  intros j f' k b Hf' Hb.
  destruct (pruned_file_at _ _ _ _ Hp Hf') as (f & Hf & _ & Hpre).
  exists f. split; [done|]. by eapply prefix_lookup_Some.
Qed.

End Decorations.

(** ** Saving after a mutation *)

Section Saving.
Context `{Collaborators}.

Lemma quiet_bind {A B} (m : M A) (k : A -> M B) :
  quiet m -> (forall a, quiet (k a)) -> quiet (bind m k).
Proof.
  intros Hm Hk st. unfold bind. destruct (result (m st)); cbn; [|apply Hm].
  apply Forall_app. split; [apply Hm|apply Hk].
Qed.

Lemma quiet_try_catch {A} (m : M A) handler :
  quiet m -> (forall e, quiet (handler e)) -> quiet (try_catch m handler).
Proof.
  intros Hm Hk st. unfold try_catch. destruct (result (m st)); cbn; [apply Hm|].
  apply Forall_app. split; [apply Hm|apply Hk].
Qed.

Lemma quiet_ret {A} (a : A) : quiet (ret a).
Proof. intros st. constructor. Qed.

Lemma quiet_throw {A} e : quiet (@throw A e).
Proof. intros st. constructor. Qed.

Lemma quiet_get : quiet get.
Proof. intros st. constructor. Qed.

Lemma quiet_modify f : quiet (modify f).
Proof. intros st. constructor. Qed.

Lemma quiet_emit e : is_mutation e = false -> quiet (emit e).
Proof. intros He st. by repeat constructor. Qed.

Lemma quiet_updateDecorations : quiet updateDecorations.
Proof.
  intros st. eapply Forall_impl; [apply updateDecorations_events|].
  by intros [].
Qed.

Ltac quiet_step :=
  lazymatch goal with
  | |- quiet (bind _ _) => apply quiet_bind; [|intros ?]
  | |- quiet (try_catch _ _) => apply quiet_try_catch; [|intros ?]
  | |- quiet (ret _) => apply quiet_ret
  | |- quiet (throw _) => apply quiet_throw
  | |- quiet get => apply quiet_get
  | |- quiet (modify _) => apply quiet_modify
  | |- quiet (set_controller _) => apply quiet_modify
  | |- quiet (set_activeEditor _) => apply quiet_modify
  | |- quiet (set_activeEditorCountLine _) => apply quiet_modify
  | |- quiet (set_timeout _) => apply quiet_modify
  | |- quiet (set_host _) => apply quiet_modify
  | |- quiet (emit _) => apply quiet_emit; reflexivity
  | |- quiet updateDecorations => apply quiet_updateDecorations
  | |- quiet (match ?x with _ => _ end) => destruct x
  | |- quiet (if ?x then _ else _) => destruct x
  | |- quiet (let (_, _) := ?x in _) => destruct x
  end.

Ltac quiet_auto := repeat quiet_step.

Lemma quiet_revealPosition l c : quiet (revealPosition l c).
Proof. unfold revealPosition. quiet_auto. Qed.

Lemma quiet_onDidOpenTextDocument doc : quiet (onDidOpenTextDocument doc).
Proof. unfold onDidOpenTextDocument. quiet_auto. Qed.

Lemma quiet_onDidChangeActiveTextEditor editor :
  quiet (onDidChangeActiveTextEditor editor).
Proof.
  unfold onDidChangeActiveTextEditor, triggerUpdateDecorations. quiet_auto.
Qed.

Lemma quiet_checkBookmarks v : quiet (checkBookmarks v).
Proof. unfold checkBookmarks. quiet_auto. Qed.

Lemma quiet_reveal_in_active pick : quiet (reveal_in_active pick).
Proof.
  unfold reveal_in_active. quiet_auto. apply quiet_revealPosition.
Qed.

Lemma quiet_open_and_show uri k : quiet k -> quiet (open_and_show uri k).
Proof.
  intros Hk. unfold open_and_show. quiet_auto;
    try apply quiet_onDidOpenTextDocument;
    try apply quiet_onDidChangeActiveTextEditor; done.
Qed.

Lemma quiet_jump_to_document dir pick : quiet (jump_to_document dir pick).
Proof.
  unfold jump_to_document. quiet_auto; try apply quiet_checkBookmarks;
    try apply quiet_reveal_in_active.
  all: apply quiet_open_and_show; unfold detached; quiet_auto;
    apply quiet_reveal_in_active.
Qed.

Lemma quiet_jumpToNext : quiet jumpToNext.
Proof.
  unfold jumpToNext, detached. quiet_auto;
    try apply quiet_checkBookmarks; try apply quiet_jump_to_document;
    try apply quiet_revealPosition.
Qed.

Lemma quiet_jumpToPrevious : quiet jumpToPrevious.
Proof.
  unfold jumpToPrevious, detached. quiet_auto;
    try apply quiet_checkBookmarks; try apply quiet_jump_to_document;
    try apply quiet_revealPosition.
Qed.

Lemma quiet_saved ev :
  Forall (fun e => is_mutation e = false) ev -> saved_after_mutation ev = true.
Proof.
  induction 1 as [|e ev He _ IH]; [done|]. cbn. by rewrite He, IH.
Qed.

Lemma decorations_quiet ev :
  Forall is_SetDecorations ev -> Forall (fun e => is_mutation e = false) ev.
Proof. intros Hev. eapply Forall_impl; [exact Hev|]. by intros []. Qed.

Lemma saved_app_quiet ev1 ev2 :
  Forall (fun e => is_mutation e = false) ev1 ->
  saved_after_mutation (ev1 ++ ev2) = saved_after_mutation ev2.
Proof.
  induction 1 as [|e ev He _ IH]; [done|]. cbn. by rewrite He, IH.
Qed.

Lemma existsb_save_app ev1 ev2 :
  existsb is_save ev2 = true -> existsb is_save (ev1 ++ ev2) = true.
Proof. intros Hs. rewrite existsb_app, Hs. by destruct (existsb _ ev1). Qed.


(** The steps the mutating commands end with: save, then redraw. *)
Ltac wp_save_update :=
  wp_steps; apply wp_saveWorkspaceState; cbn beta iota;
  [ intros ?h; apply wp_updateDecorations; cbn beta iota;
    intros ?c ?ev ?Hp ?Hev
  | intros ?e ].

Lemma saved_tail pre snapshot ev :
  Forall is_SetDecorations ev ->
  saved_after_mutation (pre ++ SaveWorkspaceState snapshot :: ev) = true.
Proof.
  intros Hev. induction pre as [|e pre IH]; cbn.
  - by apply quiet_saved, decorations_quiet.
  - rewrite IH, andb_true_r. destruct (is_mutation e); [|done].
    by apply existsb_save_app.
Qed.

Ltac saved_leaf :=
  unfold saved_if_completed; intros _; cbn;
  try (apply quiet_saved, decorations_quiet; assumption); try done.

Lemma quiet_saved_if_completed (m : M unit) st :
  quiet m -> saved_if_completed (result (m st)) (events (m st)).
Proof. intros Hq _. apply quiet_saved, Hq. Qed.

Lemma clear_saves st :
  saved_if_completed (result (clear st)) (events (clear st)).
Proof.
  change (wp clear (fun r _ ev => saved_if_completed r ev) st).
  unfold clear. wp_steps. destruct (activeEditor st); wp_steps; [|done].
  unfold core_clear. wp_steps.
  destruct (book_or_active None (controller st)) as [[i f]|]; wp_steps;
    [|done].
  wp_save_update; [|done]. saved_leaf.
Qed.

Lemma clearFromFile_saves b st :
  saved_if_completed (result (clearFromFile b st))
                     (events (clearFromFile b st)).
Proof.
  change (wp (clearFromFile b) (fun r _ ev => saved_if_completed r ev) st).
  unfold clearFromFile, core_clear. wp_steps.
  destruct (book_or_active b (controller st)) as [[i f]|]; wp_steps; [|done].
  wp_save_update; [|done]. saved_leaf.
Qed.

Lemma clearFromAllFiles_saves st :
  saved_if_completed (result (clearFromAllFiles st))
                     (events (clearFromAllFiles st)).
Proof.
  change (wp clearFromAllFiles (fun r _ ev => saved_if_completed r ev) st).
  unfold clearFromAllFiles, core_clearAll. wp_steps.
  wp_save_update; [|done]. saved_leaf.
Qed.

Lemma deleteBookmark_saves a0 a1 st :
  saved_if_completed (result (deleteBookmark a0 a1 st))
                     (events (deleteBookmark a0 a1 st)).
Proof.
  change (wp (deleteBookmark a0 a1)
             (fun r _ ev => saved_if_completed r ev) st).
  unfold deleteBookmark. wp_steps.
  destruct (fromUri a0 (controller st)) as [bi|]; wp_steps; [|done].
  destruct (file_at (controller st) bi) as [book|]; wp_steps; [|done].
  apply wp_removeBookmark; [done|done|]. intros i f _ _.
  wp_save_update; [|done]. saved_leaf.
Qed.

Lemma toggle_saves st :
  saved_if_completed (result (toggle st)) (events (toggle st)).
Proof.
  change (wp toggle (fun r _ ev => saved_if_completed r ev) st).
  unfold toggle. wp_steps. destruct (activeEditor st) as [ed|]; wp_steps;
    [|saved_leaf].
  apply wp_ensure_activeBookmark. intros c1. wp_steps. cbn.
  destruct (active_file c1) as [[i f]|] eqn:Hact; wp_steps; [|done].
  destruct (_ <? 0).
  - wp_step. apply wp_addBookmark; [done|done|]. intros i' f' _ _.
    apply wp_show_active_document; [done|]. intros ed' _. wp_steps.
    wp_save_update; [|done]. saved_leaf.
  - apply wp_removeBookmark; [done|done|]. intros i' f' _ _. wp_steps.
    wp_save_update; [|done]. saved_leaf.
Qed.

Lemma askForBookmarkLabel_saves index position oldLabel jump book input st :
  let r := askForBookmarkLabel index position oldLabel jump book input st in
  saved_if_completed (result r) (events r).
Proof.
  intros r. subst r.
  change (wp (askForBookmarkLabel index position oldLabel jump book input)
             (fun r _ ev => saved_if_completed r ev) st).
  unfold askForBookmarkLabel. destruct input as [bookmarkLabel|];
    [|wp_steps; saved_leaf].
  destruct (_ && _); [wp_steps; saved_leaf|].
  assert (Hadd : forall st1 pre,
    wp (let* _ := addBookmark position (Some bookmarkLabel) book in
        let* _ := if jump then show_active_document else ret tt in
        let* st0 := get in
        match book_or_active book (controller st0) with
        | Some (b, _) =>
            let* _ := set_controller (sort_bookmarks b (controller st0)) in
            let* _ := saveWorkspaceState in updateDecorations
        | None => throw (TypeError "b is undefined")
        end)
       (fun r _ ev => saved_if_completed r (pre ++ ev)) st1).
  { intros st1 pre. wp_step. apply wp_addBookmark; [done|done|].
    intros i f _ _. wp_step.
    assert (Htail : forall st2 mid,
      wp (let* st0 := get in
          match book_or_active book (controller st0) with
          | Some (b, _) =>
              let* _ := set_controller (sort_bookmarks b (controller st0)) in
              let* _ := saveWorkspaceState in updateDecorations
          | None => throw (TypeError "b is undefined")
          end)
         (fun r _ ev => saved_if_completed r (pre ++ mid ++ ev)) st2).
    { intros st2 mid. wp_steps.
      destruct (book_or_active book (controller st2)) as [[b f2]|];
        wp_steps; [|done].
      wp_save_update; [|done]. intros _. rewrite app_assoc.
      apply saved_tail. done. }
    destruct jump.
    - apply wp_show_active_document; [done|]. intros ed' _.
      eapply wp_conseq; [apply (Htail _ [CoreAddBookmark i (pos_line position); ShowTextDocument (fsPath (document ed'))])|].
      cbn. intros r _ ev Hs. exact Hs.
    - wp_step.
      eapply wp_conseq; [apply (Htail _ [CoreAddBookmark i (pos_line position)])|].
      cbn. intros r _ ev Hs. exact Hs. }
  wp_step. destruct (0 <=? index).
  - apply wp_removeBookmark; [done|done|]. intros i f _ _.
    eapply wp_conseq; [apply (Hadd _ [CoreRemoveBookmark i index])|].
    cbn. intros r _ ev Hs. done.
  - wp_step. eapply wp_conseq; [apply (Hadd _ [])|].
    cbn. intros r _ ev Hs. done.
Qed.

Lemma toggleLabeled_saves input st :
  saved_if_completed (result (toggleLabeled input st))
                     (events (toggleLabeled input st)).
Proof.
  change (wp (toggleLabeled input) (fun r _ ev => saved_if_completed r ev) st).
  unfold toggleLabeled. wp_steps.
  destruct (activeEditor st) as [ed|]; wp_steps; [|saved_leaf].
  apply wp_ensure_activeBookmark. intros c1. wp_steps. cbn.
  destruct (active_file c1) as [[i f]|] eqn:Hact; wp_steps; [|done].
  destruct (_ <? 0).
  - apply askForBookmarkLabel_saves.
  - destruct (bookmarks f !! _); wp_steps; [|done].
    apply askForBookmarkLabel_saves.
Qed.

Lemma editLabel_saves a0 a1 a2 input st :
  saved_if_completed (result (editLabel a0 a1 a2 input st))
                     (events (editLabel a0 a1 a2 input st)).
Proof.
  change (wp (editLabel a0 a1 a2 input)
             (fun r _ ev => saved_if_completed r ev) st).
  unfold editLabel. wp_steps.
  destruct (fromUri a0 (controller st)) as [bi|]; wp_steps; [|done].
  destruct (file_at (controller st) bi) as [book|]; wp_steps; [|done].
  destruct (if _ <? 0 then None else _); wp_steps; [|done].
  apply askForBookmarkLabel_saves.
Qed.

Lemma wp_call_sticky event i ed st
    (Q : Result bool -> State -> list Event -> Prop) :
  (forall updated c,
     Q (Ok updated) (with_controller c st)
       [CoreSticky (activeEditorCountLine st) updated]) ->
  wp (call_sticky event i ed) Q st.
Proof.
  intros HQ. unfold call_sticky. wp_steps.
  destruct (stickyBookmarks _ _ _ _ _) as [updated c]. wp_steps. apply HQ.
Qed.

Lemma onDidChangeTextDocument_saves event st :
  saved_if_completed (result (onDidChangeTextDocument event st))
                     (events (onDidChangeTextDocument event st)).
Proof.
  change (wp (onDidChangeTextDocument event)
             (fun r _ ev => saved_if_completed r ev) st).
  unfold onDidChangeTextDocument. wp_steps.
  destruct (activeEditor st) as [ed|]; wp_steps; [|saved_leaf].
  destruct (String.eqb _ _); wp_steps; [|saved_leaf].
  destruct (useWorkaroundForFormatters (host st)).
  { apply wp_updateDecorations. cbn. intros c' ev _ Hev. saved_leaf. }
  wp_step.
  assert (Hrest : forall st1 pre updatedBookmark,
    (updatedBookmark = false -> Forall (fun e => is_mutation e = false) pre) ->
    wp (let* _ := set_activeEditorCountLine
                    (Some (lineCount (ev_document event))) in
        let* _ := updateDecorations in
        if updatedBookmark then saveWorkspaceState else ret tt)
       (fun r _ ev => saved_if_completed r (pre ++ ev)) st1).
  { intros st1 pre updated Hupd. wp_steps.
    apply wp_updateDecorations. cbn. intros c' ev _ Hev.
    destruct updated.
    - apply wp_saveWorkspaceState; [|done]. intros h' _.
      rewrite app_assoc. apply saved_tail. constructor.
    - wp_step. intros _. rewrite app_nil_r. apply quiet_saved.
      apply Forall_app. split; [by apply Hupd|by apply decorations_quiet]. }
  destruct (active_file (controller st)) as [[i f]|].
  - destruct (_ <? _)%nat.
    + apply wp_call_sticky. intros updated c. cbn beta iota.
      eapply wp_conseq;
        [apply (Hrest _ [CoreSticky (activeEditorCountLine st) updated]
                      updated)|].
      * intros ->. by repeat constructor.
      * cbn. intros r _ ev Hs. exact Hs.
    + apply wp_ret. cbn beta iota.
      eapply wp_conseq; [apply (Hrest _ [] false)|].
      * constructor.
      * cbn. intros r _ ev Hs. exact Hs.
  - apply wp_ret. cbn beta iota.
    eapply wp_conseq; [apply (Hrest _ [] false)|].
    + constructor.
    + cbn. intros r _ ev Hs. exact Hs.
Qed.

(** *** The storage after a mutation *)

Lemma wp_saveWorkspaceState_persisted st
    (Q : Result unit -> State -> list Event -> Prop) :
  (forall h',
     persisted (controller st) h' ->
     Q (Ok tt)
       (mkState (controller st) (activeEditorCountLine st) (timeout st)
                (activeEditor st) h')
       [SaveWorkspaceState (fileList (controller st))]) ->
  (forall e, Q (Throw e) st []) ->
  wp saveWorkspaceState Q st.
Proof.
  intros HQ HT. unfold wp.
  unfold saveWorkspaceState, bind, get. cbn.
  destruct (canSaveBookmarksInProject (host st)) eqn:Hcan; cbn.
  - destruct (workspaceFolders (host st)) as [[|folder ?]|] eqn:Hw; cbn;
      [destruct st; apply HT| |destruct st; apply HT].
    destruct (hasAnyBookmark (controller st)) eqn:Hany; cbn; apply HQ;
      unfold persisted;
      change (canSaveBookmarksInProject (write_fs ?files (host st)))
        with (canSaveBookmarksInProject (host st));
      rewrite Hcan; cbn; rewrite Hw, Hany.
    + apply lookup_insert_eq.
    + apply lookup_delete_eq.
  - apply HQ. unfold persisted.
    change (canSaveBookmarksInProject
              (write_workspaceState (serialize false (controller st)) (host st)))
      with (canSaveBookmarksInProject (host st)).
    by rewrite Hcan.
Qed.

Lemma quiet_not_mutated ev :
  Forall (fun e => is_mutation e = false) ev ->
  ~ Exists (fun e => is_mutation e = true) ev.
Proof.
  intros Hq Hex. apply Exists_exists in Hex as (e & Hin & He).
  rewrite Forall_forall in Hq. specialize (Hq e Hin). congruence.
Qed.

Lemma quiet_stored_if_mutated (m : M unit) st :
  quiet m ->
  stored_if_mutated (result (m st)) (state_after (m st)) (events (m st)).
Proof. intros Hq _ Hex. by apply quiet_not_mutated in Hex. Qed.

Lemma saved_store_intro c pre post st' :
  Forall is_SetDecorations post ->
  persisted c (host st') ->
  pruned c (controller st') ->
  saved_store st' (pre ++ SaveWorkspaceState (fileList c) :: post)%list.
Proof. intros Hpost Hp Hpr. by exists c, pre, post. Qed.

(** The steps the mutating commands end with: save, then redraw. *)
Ltac stored_save_update :=
  wp_steps; apply wp_saveWorkspaceState_persisted; cbn beta iota;
  [ intros ?h ?Hp; apply wp_updateDecorations; cbn beta iota;
    intros ?c ?ev ?Hpr ?Hev; intros _ _;
    first [ apply (saved_store_intro _ [])
          | apply (saved_store_intro _ [_])
          | apply (saved_store_intro _ [_; _])
          | apply (saved_store_intro _ [_; _; _]) ];
    assumption
  | intros ?e; done ].

Ltac stored_leaf :=
  unfold stored_if_mutated; intros _ Hex;
  exfalso; revert Hex; apply quiet_not_mutated;
  repeat constructor.

Lemma clear_stores st :
  stored_if_mutated (result (clear st)) (state_after (clear st))
                    (events (clear st)).
Proof.
  change (wp clear stored_if_mutated st).
  unfold clear. wp_steps. destruct (activeEditor st); wp_steps;
    [|stored_leaf].
  unfold core_clear. wp_steps.
  destruct (book_or_active None (controller st)) as [[i f]|]; wp_steps;
    [|done].
  stored_save_update.
Qed.

Lemma clearFromFile_stores b st :
  stored_if_mutated (result (clearFromFile b st))
                    (state_after (clearFromFile b st))
                    (events (clearFromFile b st)).
Proof.
  change (wp (clearFromFile b) stored_if_mutated st).
  unfold clearFromFile, core_clear. wp_steps.
  destruct (book_or_active b (controller st)) as [[i f]|]; wp_steps; [|done].
  stored_save_update.
Qed.

Lemma clearFromAllFiles_stores st :
  stored_if_mutated (result (clearFromAllFiles st))
                    (state_after (clearFromAllFiles st))
                    (events (clearFromAllFiles st)).
Proof.
  change (wp clearFromAllFiles stored_if_mutated st).
  unfold clearFromAllFiles, core_clearAll. wp_steps.
  stored_save_update.
Qed.

Lemma deleteBookmark_stores a0 a1 st :
  stored_if_mutated (result (deleteBookmark a0 a1 st))
                    (state_after (deleteBookmark a0 a1 st))
                    (events (deleteBookmark a0 a1 st)).
Proof.
  change (wp (deleteBookmark a0 a1) stored_if_mutated st).
  unfold deleteBookmark. wp_steps.
  destruct (fromUri a0 (controller st)) as [bi|]; wp_steps; [|done].
  destruct (file_at (controller st) bi) as [book|]; wp_steps; [|done].
  apply wp_removeBookmark; [done|done|]. intros i f _ _.
  stored_save_update.
Qed.

Lemma toggle_stores st :
  stored_if_mutated (result (toggle st)) (state_after (toggle st))
                    (events (toggle st)).
Proof.
  change (wp toggle stored_if_mutated st).
  unfold toggle. wp_steps. destruct (activeEditor st) as [ed|]; wp_steps;
    [|stored_leaf].
  apply wp_ensure_activeBookmark. intros c1. wp_steps. cbn.
  destruct (active_file c1) as [[i f]|] eqn:Hact; wp_steps; [|done].
  destruct (_ <? 0).
  - wp_step. apply wp_addBookmark; [done|done|]. intros i' f' _ _.
    apply wp_show_active_document; [done|]. intros ed' _. wp_steps.
    stored_save_update.
  - apply wp_removeBookmark; [done|done|]. intros i' f' _ _. wp_steps.
    stored_save_update.
Qed.

Lemma askForBookmarkLabel_stores index position oldLabel jump book input st :
  let r := askForBookmarkLabel index position oldLabel jump book input st in
  stored_if_mutated (result r) (state_after r) (events r).
Proof.
  intros r. subst r.
  change (wp (askForBookmarkLabel index position oldLabel jump book input)
             stored_if_mutated st).
  unfold askForBookmarkLabel. destruct input as [bookmarkLabel|];
    [|wp_steps; stored_leaf].
  destruct (_ && _); [wp_steps; stored_leaf|].
  assert (Hadd : forall st1 pre,
    wp (let* _ := addBookmark position (Some bookmarkLabel) book in
        let* _ := if jump then show_active_document else ret tt in
        let* st0 := get in
        match book_or_active book (controller st0) with
        | Some (b, _) =>
            let* _ := set_controller (sort_bookmarks b (controller st0)) in
            let* _ := saveWorkspaceState in updateDecorations
        | None => throw (TypeError "b is undefined")
        end)
       (fun r st' ev => stored_if_mutated r st' (pre ++ ev)%list) st1).
  { intros st1 pre. wp_step. apply wp_addBookmark; [done|done|].
    intros i f _ _. wp_step.
    assert (Htail : forall st2 mid,
      wp (let* st0 := get in
          match book_or_active book (controller st0) with
          | Some (b, _) =>
              let* _ := set_controller (sort_bookmarks b (controller st0)) in
              let* _ := saveWorkspaceState in updateDecorations
          | None => throw (TypeError "b is undefined")
          end)
         (fun r st' ev => stored_if_mutated r st' (pre ++ mid ++ ev)%list) st2).
    { intros st2 mid. wp_steps.
      destruct (book_or_active book (controller st2)) as [[b f2]|];
        [|wp_steps; done].
      wp_steps. apply wp_saveWorkspaceState_persisted; cbn beta iota;
        [|done].
      intros h' Hp. apply wp_updateDecorations. cbn beta iota.
      intros c' ev Hpr Hev _ _. cbn [app]. rewrite app_assoc.
      by apply saved_store_intro. }
    destruct jump.
    - apply wp_show_active_document; [done|]. intros ed' _.
      eapply wp_conseq; [apply (Htail _ [CoreAddBookmark i (pos_line position); ShowTextDocument (fsPath (document ed'))])|].
      cbn. intros r st' ev Hs. exact Hs.
    - wp_step.
      eapply wp_conseq; [apply (Htail _ [CoreAddBookmark i (pos_line position)])|].
      cbn. intros r st' ev Hs. exact Hs. }
  wp_step. destruct (0 <=? index).
  - apply wp_removeBookmark; [done|done|]. intros i f _ _.
    eapply wp_conseq; [apply (Hadd _ [CoreRemoveBookmark i index])|].
    cbn. intros r st' ev Hs. done.
  - wp_step. eapply wp_conseq; [apply (Hadd _ [])|].
    cbn. intros r st' ev Hs. done.
Qed.

Lemma toggleLabeled_stores input st :
  stored_if_mutated (result (toggleLabeled input st))
                    (state_after (toggleLabeled input st))
                    (events (toggleLabeled input st)).
Proof.
  change (wp (toggleLabeled input) stored_if_mutated st).
  unfold toggleLabeled. wp_steps.
  destruct (activeEditor st) as [ed|]; wp_steps; [|stored_leaf].
  apply wp_ensure_activeBookmark. intros c1. wp_steps. cbn.
  destruct (active_file c1) as [[i f]|] eqn:Hact; wp_steps; [|done].
  destruct (_ <? 0).
  - apply askForBookmarkLabel_stores.
  - destruct (bookmarks f !! _); wp_steps; [|done].
    apply askForBookmarkLabel_stores.
Qed.

Lemma editLabel_stores a0 a1 a2 input st :
  stored_if_mutated (result (editLabel a0 a1 a2 input st))
                    (state_after (editLabel a0 a1 a2 input st))
                    (events (editLabel a0 a1 a2 input st)).
Proof.
  change (wp (editLabel a0 a1 a2 input) stored_if_mutated st).
  unfold editLabel. wp_steps.
  destruct (fromUri a0 (controller st)) as [bi|]; wp_steps; [|done].
  destruct (file_at (controller st) bi) as [book|]; wp_steps; [|done].
  destruct (if _ <? 0 then None else _); wp_steps; [|done].
  apply askForBookmarkLabel_stores.
Qed.

Lemma onDidChangeTextDocument_stores event st :
  stored_if_mutated (result (onDidChangeTextDocument event st))
                    (state_after (onDidChangeTextDocument event st))
                    (events (onDidChangeTextDocument event st)).
Proof.
  change (wp (onDidChangeTextDocument event) stored_if_mutated st).
  unfold onDidChangeTextDocument. wp_steps.
  destruct (activeEditor st) as [ed|]; wp_steps; [|stored_leaf].
  destruct (String.eqb _ _); wp_steps; [|stored_leaf].
  destruct (useWorkaroundForFormatters (host st)).
  { apply wp_updateDecorations. cbn. intros c' ev _ Hev _ Hex.
    exfalso. revert Hex. by apply quiet_not_mutated, decorations_quiet. }
  wp_step.
  assert (Hrest : forall st1 pre updatedBookmark,
    (updatedBookmark = false -> Forall (fun e => is_mutation e = false) pre) ->
    wp (let* _ := set_activeEditorCountLine
                    (Some (lineCount (ev_document event))) in
        let* _ := updateDecorations in
        if updatedBookmark then saveWorkspaceState else ret tt)
       (fun r st' ev => stored_if_mutated r st' (pre ++ ev)%list) st1).
  { intros st1 pre updated Hupd. wp_steps.
    apply wp_updateDecorations. cbn. intros c' ev _ Hev.
    destruct updated.
    - apply wp_saveWorkspaceState_persisted; [|done]. cbn.
      intros h' Hp _ _. exists c', (pre ++ ev)%list, [].
      rewrite app_assoc. split; [done|]. split; [constructor|].
      split; [done|apply pruned_refl].
    - wp_step. intros _ Hex. exfalso. revert Hex. apply quiet_not_mutated.
      rewrite app_nil_r.
      apply Forall_app. split; [by apply Hupd|by apply decorations_quiet]. }
  destruct (active_file (controller st)) as [[i f]|].
  - destruct (_ <? _)%nat.
    + apply wp_call_sticky. intros updated c. cbn beta iota.
      eapply wp_conseq;
        [apply (Hrest _ [CoreSticky (activeEditorCountLine st) updated]
                      updated)|].
      * intros ->. by repeat constructor.
      * cbn. intros r st' ev Hs. exact Hs.
    + apply wp_ret. cbn beta iota.
      eapply wp_conseq; [apply (Hrest _ [] false)|].
      * constructor.
      * cbn. intros r st' ev Hs. exact Hs.
  - apply wp_ret. cbn beta iota.
    eapply wp_conseq; [apply (Hrest _ [] false)|].
    + constructor.
    + cbn. intros r st' ev Hs. exact Hs.
Qed.

(** C8: whatever the host delivers (a command, an editor event, the
    timer), when its handler completes, every mutation of bookmarks it
    made through the core ([addBookmark], [removeBookmark], [clear],
    [clearAll], a sticky adjustment that reports an update) is followed,
    within the same handler, by [saveWorkspaceState]; and when it made
    one, the storage holds at the end the store as [saveWorkspaceState]
    serialised it after the last of them: the project's file or the
    workspace state has what it wrote, nothing but redraws came after
    the save, and the store the handler ends with is the saved one but
    for the bookmarks a redraw dropped. *)
Theorem mutation_is_saved e st :
  let r := dispatch e st in
  result r = Ok tt ->
  saved_after_mutation (events r) = true /\
  (Exists (fun ev => is_mutation ev = true) (events r) ->
   saved_store (state_after r) (events r)).
Proof.
  intros r Hok. split.
  - revert Hok. subst r.
    change (saved_if_completed (result (dispatch e st))
                               (events (dispatch e st))).
    destruct e; cbn [dispatch].
    + apply quiet_saved_if_completed, quiet_onDidOpenTextDocument.
    + apply quiet_saved_if_completed, quiet_onDidChangeActiveTextEditor.
    + apply onDidChangeTextDocument_saves.
    + apply quiet_saved_if_completed. quiet_auto.
    + apply quiet_saved_if_completed. unfold onTimeout. quiet_auto.
    + apply toggle_saves.
    + apply toggleLabeled_saves.
    + apply editLabel_saves.
    + apply deleteBookmark_saves.
    + apply clear_saves.
    + apply clearFromAllFiles_saves.
    + apply clearFromFile_saves.
    + apply quiet_saved_if_completed, quiet_jumpToNext.
    + apply quiet_saved_if_completed, quiet_jumpToPrevious.
  - revert Hok. subst r.
    change (stored_if_mutated (result (dispatch e st))
                              (state_after (dispatch e st))
                              (events (dispatch e st))).
    destruct e; cbn [dispatch].
    + apply quiet_stored_if_mutated, quiet_onDidOpenTextDocument.
    + apply quiet_stored_if_mutated, quiet_onDidChangeActiveTextEditor.
    + apply onDidChangeTextDocument_stores.
    + apply quiet_stored_if_mutated. quiet_auto.
    + apply quiet_stored_if_mutated. unfold onTimeout. quiet_auto.
    + apply toggle_stores.
    + apply toggleLabeled_stores.
    + apply editLabel_stores.
    + apply deleteBookmark_stores.
    + apply clear_stores.
    + apply clearFromAllFiles_stores.
    + apply clearFromFile_stores.
    + apply quiet_stored_if_mutated, quiet_jumpToNext.
    + apply quiet_stored_if_mutated, quiet_jumpToPrevious.
Qed.

End Saving.

(** ** Jumping *)

Section Jumping.
Context `{Collaborators}.

Lemma detached_result m st : result (detached m st) = Ok tt.
Proof.
  unfold detached, try_catch. destruct (result (m st)) as [[]|e] eqn:E; cbn; done.
Qed.

Lemma jump_result dir st : result (jump dir st) = Ok tt.
Proof.
  destruct dir; cbn [jump]; [unfold jumpToNext|unfold jumpToPrevious];
    unfold bind at 1; cbn;
    destruct (activeEditor st) as [ed|]; cbn; try done;
    destruct (active_file (controller st)) as [[i f]|]; cbn; try done;
    unfold bind at 1; cbn;
    destruct (nextBookmark _ _ _); cbn; try done;
    apply detached_result.
Qed.

Lemma checkBookmarks_sentinel v st :
  strict_equals_number v NO_BOOKMARKS_BEFORE
    || strict_equals_number v NO_BOOKMARKS_AFTER = true ->
  checkBookmarks v st
  = mkRun (Ok false) st [ShowInformationMessage "No more bookmarks"].
Proof. intros Hs. unfold checkBookmarks. by rewrite Hs. Qed.

Lemma checkBookmarks_other v st :
  strict_equals_number v NO_BOOKMARKS_BEFORE
    || strict_equals_number v NO_BOOKMARKS_AFTER = false ->
  checkBookmarks v st = mkRun (Ok true) st [].
Proof. intros Hs. unfold checkBookmarks. by rewrite Hs. Qed.

(** C7: the jump commands never throw, and exhaustion reaches them as a
    number: [checkBookmarks] answers [NO_BOOKMARKS_BEFORE] and
    [NO_BOOKMARKS_AFTER] with the message "No more bookmarks" and
    [false], and lets [NO_MORE_BOOKMARKS] pass without a message; a jump
    whose search in the file resolves to one of the first two shows the
    message and stops, and one whose searches in the file and across the
    files both resolve to [NO_MORE_BOOKMARKS] ends silently; either way
    it completes and leaves the state as it was.  The three constants are
    the core's; they are taken to be distinct. *)
Theorem exhaustion_is_a_value dir st :
  NO_MORE_BOOKMARKS <> NO_BOOKMARKS_BEFORE ->
  NO_MORE_BOOKMARKS <> NO_BOOKMARKS_AFTER ->
  result (jump dir st) = Ok tt /\
  (forall s, s = NO_BOOKMARKS_BEFORE \/ s = NO_BOOKMARKS_AFTER ->
     checkBookmarks (VNumber s) st
     = mkRun (Ok false) st [ShowInformationMessage "No more bookmarks"]) /\
  checkBookmarks (VNumber NO_MORE_BOOKMARKS) st = mkRun (Ok true) st [] /\
  (forall ed i f,
     activeEditor st = Some ed ->
     active_file (controller st) = Some (i, f) ->
     (forall s,
        s = NO_BOOKMARKS_BEFORE \/ s = NO_BOOKMARKS_AFTER ->
        nextBookmark f (selection_active ed) dir = Resolved (inl s) ->
        jump dir st
        = mkRun (Ok tt) st [CoreNextBookmark dir;
                            ShowInformationMessage "No more bookmarks"]) /\
     (nextBookmark f (selection_active ed) dir
        = Resolved (inl NO_MORE_BOOKMARKS) ->
      nextDocumentWithBookmarks (controller st) i dir
        = Resolved (inl NO_MORE_BOOKMARKS) ->
      jump dir st
      = mkRun (Ok tt) st [CoreNextBookmark dir;
                          CoreNextDocumentWithBookmarks dir])).
Proof.
  intros Hb Ha.
  assert (Hsent : forall s, s = NO_BOOKMARKS_BEFORE \/ s = NO_BOOKMARKS_AFTER ->
            strict_equals_number (VNumber s) NO_BOOKMARKS_BEFORE
            || strict_equals_number (VNumber s) NO_BOOKMARKS_AFTER = true).
  { intros s [->| ->]; cbn; rewrite Z.eqb_refl; [done|apply orb_true_r]. }
  assert (Hmore : strict_equals_number (VNumber NO_MORE_BOOKMARKS) NO_BOOKMARKS_BEFORE
            || strict_equals_number (VNumber NO_MORE_BOOKMARKS) NO_BOOKMARKS_AFTER = false).
  { cbn. apply orb_false_intro; by apply Z.eqb_neq. }
  split; [apply jump_result|].
  split; [intros s Hs; by apply checkBookmarks_sentinel, Hsent|].
  split; [by apply checkBookmarks_other|].
  intros ed i f Hed Hact. split.
  - intros s Hs Hnext.
    destruct dir; cbn [jump]; [unfold jumpToNext|unfold jumpToPrevious];
      unfold bind at 1; cbn; rewrite Hed; cbn; rewrite Hact; cbn;
      unfold bind at 1; cbn; rewrite Hnext; cbn;
      unfold detached, try_catch, bind; cbn;
      rewrite (checkBookmarks_sentinel _ _ (Hsent s Hs)); cbn; done.
  - intros Hnext Hdoc.
    destruct dir; cbn [jump]; [unfold jumpToNext|unfold jumpToPrevious];
      unfold bind at 1; cbn; rewrite Hed; cbn; rewrite Hact; cbn;
      unfold bind at 1; cbn; rewrite Hnext; cbn;
      unfold detached, try_catch, bind; cbn;
      rewrite (checkBookmarks_other _ _ Hmore); cbn;
      unfold jump_to_document, bind, get; cbn; rewrite Hact; cbn;
      rewrite Hdoc; cbn; unfold try_catch; cbn; rewrite Z.eqb_refl; cbn; done.
Qed.


Lemma jump_unfold dir st ed i f :
  activeEditor st = Some ed ->
  active_file (controller st) = Some (i, f) ->
  jump dir st =
  (let* _ := emit (CoreNextBookmark dir) in
   match nextBookmark f (selection_active ed) dir with
   | Rejected error => ret tt
   | Resolved next =>
       detached
         (let* more := checkBookmarks (of_next next) in
          if negb more then ret tt
          else
            match next with
            | inl _ => jump_to_document dir (pick_bookmark dir)
            | inr p => revealPosition (pos_line p) (character p)
            end)
   end) st.
Proof.
  intros Hed Hact.
  destruct dir; cbn [jump pick_bookmark];
    [unfold jumpToNext|unfold jumpToPrevious];
    unfold bind at 1; cbn; rewrite Hed; cbn; rewrite Hact; cbn; [|done].
  unfold bind at 1 3. cbn.
  destruct (nextBookmark f (selection_active ed) Forward) as [[n|p]|]; cbn;
    done.
Qed.


Lemma detached_events m st :
  events (detached m st) = events (m st).
Proof.
  unfold detached, try_catch. destruct (result (m st)); cbn; [done|].
  apply app_nil_r.
Qed.

Lemma active_file_set_activeBookmark c j tf :
  file_at c j = Some tf ->
  active_file (set_activeBookmark (Some j) c) = Some (j, tf).
Proof. unfold active_file, file_at. cbn. by intros ->. Qed.

Lemma jump_to_document_other_file dir st ed i f uri target j tf b :
  activeEditor st = Some ed ->
  active_file (controller st) = Some (i, f) ->
  nextDocumentWithBookmarks (controller st) i dir = Resolved (inr uri) ->
  uri <> normalize (fsPath (document ed)) ->
  uri <> fsPath (document ed) ->
  find (fun e => String.eqb (fsPath (document e)) uri) (openable (host st))
    = Some target ->
  let c' := core_add (fsPath (document target)) (controller st) in
  fromUri (fsPath (document target)) c' = Some j ->
  file_at c' j = Some tf ->
  pick_bookmark dir (bookmarks tf) = Some b ->
  wp (jump_to_document dir (pick_bookmark dir))
     (fun r st' ev =>
        r = Ok tt /\
        active_file (controller st') = Some (j, tf) /\
        ev = [CoreNextDocumentWithBookmarks dir; OpenTextDocument uri;
              ShowTextDocument uri; Reveal (line b) (column b)])
     st.
Proof.
  intros Hed Hact Hdoc Hnorm Hother Hfind c' Hj Htf Hpick.
  apply String.eqb_neq in Hnorm, Hother. rewrite String.eqb_sym in Hother.
  unfold jump_to_document. wp_steps. rewrite Hact. wp_steps. rewrite Hdoc.
  wp_steps. cbn [strict_equals_number]. wp_steps. rewrite Hed. wp_steps.
  cbn [document_toString]. rewrite Hnorm.
  unfold open_and_show. wp_steps. rewrite Hfind. wp_steps.
  unfold onDidOpenTextDocument. wp_steps. rewrite Hed, Hother.
  unfold onDidChangeActiveTextEditor, triggerUpdateDecorations. wp_steps.
  unfold detached, reveal_in_active. wp_steps. cbn [controller].
  fold c'. rewrite Hj.
  rewrite (active_file_set_activeBookmark c' j tf Htf). rewrite Hpick.
  unfold revealPosition. wp_steps. cbn.
  split; [done|]. split; [|done].
  by apply active_file_set_activeBookmark.
Qed.

(** C6: a jump first asks the active file for the next bookmark; when that
    resolves to a position it reveals it and asks nothing else; it asks
    for the next document with bookmarks only when the search in the file
    resolved to a number; and when that names another document, which the
    host opens and shows, it reveals the bookmark at index 0 of that
    document's file when jumping forward and the one at index
    [length - 1] when jumping backward. *)
Theorem jump_searches_the_file_first dir st ed i f :
  activeEditor st = Some ed ->
  active_file (controller st) = Some (i, f) ->
  let r := jump dir st in
  let next := nextBookmark f (selection_active ed) dir in
  (exists rest, events r = CoreNextBookmark dir :: rest) /\
  (forall p,
     next = Resolved (inr p) ->
     events r = [CoreNextBookmark dir; Reveal (pos_line p) (character p)]) /\
  (In (CoreNextDocumentWithBookmarks dir) (events r) ->
   exists n, next = Resolved (inl n)) /\
  (forall n uri target j tf b,
     next = Resolved (inl n) ->
     n <> NO_BOOKMARKS_BEFORE -> n <> NO_BOOKMARKS_AFTER ->
     nextDocumentWithBookmarks (controller st) i dir = Resolved (inr uri) ->
     uri <> normalize (fsPath (document ed)) ->
     uri <> fsPath (document ed) ->
     find (fun e => String.eqb (fsPath (document e)) uri) (openable (host st))
       = Some target ->
     let c' := core_add (fsPath (document target)) (controller st) in
     fromUri (fsPath (document target)) c' = Some j ->
     file_at c' j = Some tf ->
     pick_bookmark dir (bookmarks tf) = Some b ->
     events r = [CoreNextBookmark dir; CoreNextDocumentWithBookmarks dir;
                 OpenTextDocument uri; ShowTextDocument uri;
                 Reveal (line b) (column b)] /\
     active_file (controller (state_after r)) = Some (j, tf)).
Proof.
  intros Hed Hact r next. subst r next.
  rewrite (jump_unfold dir st ed i f Hed Hact).
  split; [|split; [|split]].
  - unfold bind at 1. cbn. eauto.
  - intros p Hnext. unfold bind at 1. cbn. rewrite Hnext. cbn.
    rewrite detached_events. unfold bind, checkBookmarks, revealPosition. cbn.
    by rewrite Hed.
  - unfold bind at 1. cbn.
    destruct (nextBookmark f (selection_active ed) dir) as [[n|p]|] eqn:Hnext;
      cbn.
    + eauto.
    + rewrite detached_events. unfold bind, checkBookmarks, revealPosition.
      cbn. rewrite Hed. cbn. intros [?|[?|[]]]; done.
    + intros [?|[]]. done.
  - intros n uri target j tf b Hnext Hb Ha Hdoc Hnorm Hother Hfind c' Hj Htf
           Hpick.
    change (wp
      (let* _ := emit (CoreNextBookmark dir) in
       match nextBookmark f (selection_active ed) dir with
       | Rejected error => ret tt
       | Resolved next =>
           detached
             (let* more := checkBookmarks (of_next next) in
              if negb more then ret tt
              else
                match next with
                | inl _ => jump_to_document dir (pick_bookmark dir)
                | inr p => revealPosition (pos_line p) (character p)
                end)
       end)
      (fun _ st' ev =>
         ev = [CoreNextBookmark dir; CoreNextDocumentWithBookmarks dir;
               OpenTextDocument uri; ShowTextDocument uri;
               Reveal (line b) (column b)] /\
         active_file (controller st') = Some (j, tf)) st).
    wp_steps. rewrite Hnext. unfold detached, checkBookmarks. wp_steps.
    cbn [of_next strict_equals_number].
    apply Z.eqb_neq in Hb, Ha. rewrite Hb, Ha. cbn [orb]. wp_steps.
    cbn [negb].
    eapply wp_conseq;
      [by apply (jump_to_document_other_file dir st ed i f uri target j tf b)|].
    cbn. intros r st' ev (-> & Hact' & ->). done.
Qed.

End Jumping.

(** ** The tracked line count *)

Section CountLine.
Context `{Collaborators}.

Lemma preserves_bind {A B} I (m : M A) (k : A -> M B) :
  preserves I m -> (forall a, preserves I (k a)) -> preserves I (bind m k).
Proof.
  intros Hm Hk st HI. unfold bind. destruct (result (m st)); cbn.
  - by apply Hk, Hm.
  - by apply Hm.
Qed.

Lemma preserves_try_catch {A} I (m : M A) handler :
  preserves I m -> (forall e, preserves I (handler e)) ->
  preserves I (try_catch m handler).
Proof.
  intros Hm Hk st HI. unfold try_catch. destruct (result (m st)); cbn.
  - by apply Hm.
  - by apply Hk, Hm.
Qed.

Lemma preserves_ret {A} I (a : A) : preserves I (ret a).
Proof. by intros st. Qed.

Lemma preserves_throw {A} I e : preserves I (@throw A e).
Proof. by intros st. Qed.

Lemma preserves_get I : preserves I get.
Proof. by intros st. Qed.

Lemma preserves_emit I e : preserves I (emit e).
Proof. by intros st. Qed.

Lemma preserves_lift {A} I (r : Result A) : preserves I (lift r).
Proof. by intros st. Qed.

Lemma count_tracks_set_controller c : preserves count_tracks (set_controller c).
Proof. by intros st. Qed.

Lemma count_tracks_set_timeout b : preserves count_tracks (set_timeout b).
Proof. by intros st. Qed.

Lemma count_tracks_set_host h : preserves count_tracks (set_host h).
Proof. by intros st. Qed.

Lemma count_tracks_updateDecorations : preserves count_tracks updateDecorations.
Proof.
  intros st HI ed. destruct (updateDecorations_frame st) as (-> & -> & _).
  apply HI.
Qed.

Lemma count_tracks_saveWorkspaceState :
  preserves count_tracks saveWorkspaceState.
Proof.
  intros st HI ed. destruct (saveWorkspaceState_frame st) as (_ & -> & -> & _).
  apply HI.
Qed.

Lemma count_tracks_revealPosition l c :
  preserves count_tracks (revealPosition l c).
Proof.
  intros st HI. unfold revealPosition, bind, get. cbn.
  destruct (activeEditor st) as [ed|] eqn:Hed; cbn; [|done].
  intros ed' [= <-]. cbn. by apply HI.
Qed.

(** After [onDidChangeActiveTextEditor] the count is the new editor's. *)
Lemma onDidChangeActiveTextEditor_sets_count editor st :
  count_tracks (state_after (onDidChangeActiveTextEditor editor st)).
Proof.
  unfold onDidChangeActiveTextEditor, bind, get. cbn.
  destruct editor as [e|]; cbn; [|done].
  by intros ed [= <-].
Qed.

Lemma count_tracks_show_active_document :
  preserves count_tracks show_active_document.
Proof.
  intros st HI. unfold show_active_document, bind, get. cbn.
  by destruct (activeEditor st).
Qed.

Ltac preserves_step :=
  lazymatch goal with
  | |- preserves _ (bind _ _) => apply preserves_bind; [|intros ?]
  | |- preserves _ (try_catch _ _) => apply preserves_try_catch; [|intros ?]
  | |- preserves _ (ret _) => apply preserves_ret
  | |- preserves _ (throw _) => apply preserves_throw
  | |- preserves _ get => apply preserves_get
  | |- preserves _ (emit _) => apply preserves_emit
  | |- preserves _ (lift _) => apply preserves_lift
  | |- preserves _ (set_controller _) => apply count_tracks_set_controller
  | |- preserves _ (set_timeout _) => apply count_tracks_set_timeout
  | |- preserves _ (set_host _) => apply count_tracks_set_host
  | |- preserves _ updateDecorations => apply count_tracks_updateDecorations
  | |- preserves _ saveWorkspaceState => apply count_tracks_saveWorkspaceState
  | |- preserves _ show_active_document =>
      apply count_tracks_show_active_document
  | |- preserves _ (revealPosition _ _) => apply count_tracks_revealPosition
  | |- preserves _ (onDidChangeActiveTextEditor _) =>
      intros ? _; apply onDidChangeActiveTextEditor_sets_count
  | |- preserves _ (match ?x with _ => _ end) => destruct x
  | |- preserves _ (if ?x then _ else _) => destruct x
  | |- preserves _ (let (_, _) := ?x in _) => destruct x
  end.

Ltac preserves_auto := repeat preserves_step.

Lemma count_tracks_addBookmark p l b : preserves count_tracks (addBookmark p l b).
Proof. unfold addBookmark. preserves_auto. Qed.

Lemma count_tracks_removeBookmark i l b :
  preserves count_tracks (removeBookmark i l b).
Proof. unfold removeBookmark. preserves_auto. Qed.

Lemma count_tracks_core_clear b : preserves count_tracks (core_clear b).
Proof. unfold core_clear. preserves_auto. Qed.

Lemma count_tracks_askForBookmarkLabel index position oldLabel jump book input :
  preserves count_tracks
    (askForBookmarkLabel index position oldLabel jump book input).
Proof.
  unfold askForBookmarkLabel. preserves_auto;
    try apply count_tracks_addBookmark; try apply count_tracks_removeBookmark.
Qed.

Lemma count_tracks_ensure ed : preserves count_tracks (ensure_activeBookmark ed).
Proof. unfold ensure_activeBookmark. preserves_auto. Qed.

Lemma count_tracks_jump_to_document dir pick :
  preserves count_tracks (jump_to_document dir pick).
Proof.
  unfold jump_to_document, checkBookmarks, open_and_show, detached,
    reveal_in_active, onDidOpenTextDocument.
  preserves_auto.
Qed.

Lemma count_tracks_commands e :
  match e with DidChangeTextDocument _ => False | _ => True end ->
  preserves count_tracks (dispatch e).
Proof.
  destruct e; cbn [dispatch]; intros He; try done.
  - unfold onDidOpenTextDocument. preserves_auto.
  - preserves_auto.
  - preserves_auto.
  - unfold onTimeout. preserves_auto.
  - unfold toggle. preserves_auto;
      try apply count_tracks_ensure; try apply count_tracks_addBookmark;
      try apply count_tracks_removeBookmark.
  - unfold toggleLabeled. preserves_auto;
      try apply count_tracks_ensure;
      try apply count_tracks_askForBookmarkLabel.
  - unfold editLabel. preserves_auto;
      try apply count_tracks_askForBookmarkLabel.
  - unfold deleteBookmark. preserves_auto;
      try apply count_tracks_removeBookmark.
  - unfold clear. preserves_auto; apply count_tracks_core_clear.
  - unfold clearFromAllFiles, core_clearAll. preserves_auto.
  - unfold clearFromFile. preserves_auto; apply count_tracks_core_clear.
  - unfold jumpToNext, detached, checkBookmarks. preserves_auto;
      apply count_tracks_jump_to_document.
  - unfold jumpToPrevious, detached, checkBookmarks. preserves_auto;
      apply count_tracks_jump_to_document.
Qed.


Lemma In_decorations_sticky ev cnt upd :
  Forall is_SetDecorations ev -> ~ In (CoreSticky cnt upd) ev.
Proof.
  induction 1 as [|e ev He _ IH]; [by intros []|].
  intros [->|Hin]; [done|by apply IH].
Qed.

(** A text change of the active document with the workaround off. *)
Lemma onDidChangeTextDocument_refreshes st ed event :
  activeEditor st = Some ed ->
  fsPath (ev_document event) = fsPath (document ed) ->
  useWorkaroundForFormatters (host st) = false ->
  let r := onDidChangeTextDocument event st in
  (forall cnt upd,
     In (CoreSticky cnt upd) (events r) -> cnt = activeEditorCountLine st) /\
  activeEditorCountLine (state_after r)
    = Some (lineCount (ev_document event)) /\
  activeEditor (state_after r)
    = Some (mkEditor (ev_document event) (selection_active ed)).
Proof.
  intros Hed Hdoc Hflag r. subst r.
  change (wp (onDidChangeTextDocument event)
    (fun _ st' ev =>
       (forall cnt upd, In (CoreSticky cnt upd) ev ->
                        cnt = activeEditorCountLine st) /\
       activeEditorCountLine st' = Some (lineCount (ev_document event)) /\
       activeEditor st'
         = Some (mkEditor (ev_document event) (selection_active ed))) st).
  unfold onDidChangeTextDocument. wp_steps. rewrite Hed, Hdoc, String.eqb_refl.
  wp_steps. rewrite Hflag. wp_step.
  assert (Hrest : forall c pre (updatedBookmark : bool),
    (forall cnt upd, In (CoreSticky cnt upd) pre ->
                     cnt = activeEditorCountLine st) ->
    wp (let* _ := set_activeEditorCountLine
                    (Some (lineCount (ev_document event))) in
        let* _ := updateDecorations in
        if updatedBookmark then saveWorkspaceState else ret tt)
       (fun (_ : Result unit) st' ev =>
          (forall cnt upd, In (CoreSticky cnt upd) (pre ++ ev) ->
                           cnt = activeEditorCountLine st) /\
          activeEditorCountLine st' = Some (lineCount (ev_document event)) /\
          activeEditor st'
            = Some (mkEditor (ev_document event) (selection_active ed)))
       (mkState c (activeEditorCountLine st) (timeout st)
                (Some (mkEditor (ev_document event) (selection_active ed)))
                (host st))).
  { intros c pre updated Hpre. wp_steps.
    apply wp_updateDecorations. cbn. intros c' ev _ Hev.
    destruct updated.
    - apply wp_saveWorkspaceState.
      + intros h'. cbn. split; [|done]. intros cnt upd.
        rewrite !in_app_iff. intros [?|[Hin|[Hin|[]]]]; [by eapply Hpre| |done].
        by apply In_decorations_sticky in Hin.
      + intros e. cbn. split; [|done]. intros cnt upd.
        rewrite !in_app_iff. intros [?|[Hin|[]]]; [by eapply Hpre|].
        by apply In_decorations_sticky in Hin.
    - wp_step. cbn. split; [|done]. intros cnt upd.
      rewrite !in_app_iff. intros [?|[Hin|[]]]; [by eapply Hpre|].
      by apply In_decorations_sticky in Hin. }
  destruct (active_file (controller st)) as [[i f]|].
  - destruct (_ <? _)%nat.
    + apply wp_call_sticky. intros updated c. cbn beta iota.
      eapply wp_conseq;
        [apply (Hrest c [CoreSticky (activeEditorCountLine st) updated]
                      updated)|].
      * intros cnt upd [[= <- _]|[]]. done.
      * cbn. intros r st' ev Hs. exact Hs.
    + apply wp_ret. cbn beta iota.
      eapply wp_conseq; [apply (Hrest (controller st) [] false)|].
      * intros cnt upd [].
      * cbn. intros r st' ev Hs. exact Hs.
  - apply wp_ret. cbn beta iota.
    eapply wp_conseq; [apply (Hrest (controller st) [] false)|].
    + intros cnt upd [].
    + cbn. intros r st' ev Hs. exact Hs.
Qed.

Lemma count_tracks_dispatch e st :
  count_tracks st ->
  (changes_active_document e st ->
   useWorkaroundForFormatters (host st) = false) ->
  count_tracks (state_after (dispatch e st)).
Proof.
  intros HI Hoff.
  destruct e; try (by apply count_tracks_commands).
  cbn [dispatch]. unfold changes_active_document in Hoff.
  destruct (activeEditor st) as [ed|] eqn:Hed.
  - destruct (String.eqb_spec (fsPath (ev_document event))
                              (fsPath (document ed))) as [Hdoc|Hdoc].
    + destruct (onDidChangeTextDocument_refreshes st ed event Hed Hdoc
                  (Hoff Hdoc)) as (_ & Hcount & Heditor).
      intros ed'. rewrite Heditor, Hcount. by intros [= <-].
    + unfold onDidChangeTextDocument, bind, get. cbn. rewrite Hed.
      apply String.eqb_neq in Hdoc. by rewrite Hdoc.
  - unfold onDidChangeTextDocument, bind, get. cbn. by rewrite Hed.
Qed.

Lemma loadWorkspaceState_editor st :
  activeEditor (state_after (loadWorkspaceState st)) = activeEditor st.
Proof.
  set (I := fun st' => activeEditor st' = activeEditor st).
  assert (Hset : forall c, preserves I (set_controller c)) by by intros c st'.
  assert (Hload : forall json rel, preserves I (do_loadFrom json rel)).
  { intros json rel st' HI. unfold do_loadFrom.
    by destruct (loadFrom json rel (controller st')). }
  assert (Hall : preserves I loadWorkspaceState).
  { unfold loadWorkspaceState.
    repeat first
      [ apply Hset | apply Hload
      | lazymatch goal with
        | |- preserves _ (bind _ _) => apply preserves_bind; [|intros ?]
        | |- preserves _ (try_catch _ _) =>
            apply preserves_try_catch; [|intros ?]
        | |- preserves _ (ret _) => apply preserves_ret
        | |- preserves _ (throw _) => apply preserves_throw
        | |- preserves _ get => apply preserves_get
        | |- preserves _ (emit _) => apply preserves_emit
        | |- preserves _ (lift _) => apply preserves_lift
        | |- preserves _ (match ?x with _ => _ end) => destruct x
        | |- preserves _ (if ?x then _ else _) => destruct x
        end ]. }
  by apply Hall.
Qed.

Lemma wp_createTextEditorDecoration st
    (Q : Result unit -> State -> list Event -> Prop) :
  (forall ev, Q (Ok tt) st ev) -> wp createTextEditorDecoration Q st.
Proof.
  intros HQ. unfold createTextEditorDecoration. wp_steps.
  destruct (negb _); [|wp_steps; apply HQ].
  destruct (fs_files (host st) !! _); wp_steps; apply HQ.
Qed.

Lemma activate_sets_count h editor :
  count_tracks (state_after (activate editor (initial_state h))).
Proof.
  unfold activate. unfold bind at 1.
  pose proof (loadWorkspaceState_editor (initial_state h)) as Hnone.
  destruct (result (loadWorkspaceState (initial_state h))) as [didLoad|e];
    cbn [state_after].
  - set (st1 := state_after (loadWorkspaceState (initial_state h))) in *.
    clearbody st1.
    change (wp
      (let* _ := createTextEditorDecoration in
       let* _ := set_activeEditor editor in
       match editor with
       | Some e =>
           let* st := get in
           let* _ :=
             if negb didLoad
             then set_controller (core_add (fsPath (document e)) (controller st))
             else ret tt in
           let* _ := set_activeEditorCountLine (Some (lineCount (document e))) in
           let* st0 := get in
           let* _ := set_controller
                       (set_activeBookmark
                          (fromUri (fsPath (document e)) (controller st0))
                          (controller st0)) in
           triggerUpdateDecorations
       | None => ret tt
       end) (fun _ st' _ => count_tracks st') st1).
    wp_step. apply wp_createTextEditorDecoration. intros ev.
    wp_steps. destruct editor as [e|]; wp_steps.
    + destruct (negb didLoad); wp_steps; unfold triggerUpdateDecorations;
        wp_steps; by intros ed [= <-].
    + by intros ed.
  - intros ed. rewrite Hnone. done.
Qed.

(** C10, amended: [activeEditorCountLine] is set to the active document's
    line count on activation and on every change of the active editor;
    it stays that line count over any sequence of events in which every
    text change of the active document is handled with
    [bookmarks.useWorkaroundForFormatters] off; and such a text change
    invokes the sticky adjuster with the line count of the document before
    the edit and leaves the variable at the line count after it. *)
Theorem count_line_is_the_pre_edit_count :
  (forall h editor,
     count_tracks (state_after (activate editor (initial_state h)))) /\
  (forall editor st,
     count_tracks (state_after (onDidChangeActiveTextEditor editor st))) /\
  (forall st st',
     count_tracks st -> reaches_without_workaround st st' ->
     count_tracks st') /\
  (forall st ed event,
     count_tracks st ->
     activeEditor st = Some ed ->
     fsPath (ev_document event) = fsPath (document ed) ->
     useWorkaroundForFormatters (host st) = false ->
     let r := onDidChangeTextDocument event st in
     (forall cnt upd,
        In (CoreSticky cnt upd) (events r) ->
        cnt = Some (lineCount (document ed))) /\
     activeEditorCountLine (state_after r)
       = Some (lineCount (ev_document event))).
Proof.
  split; [apply activate_sets_count|].
  split; [apply onDidChangeActiveTextEditor_sets_count|].
  split.
  - intros st st' HI Hreach. induction Hreach as [|st' e _ IH Hoff]; [done|].
    by apply count_tracks_dispatch.
  - intros st ed event HI Hed Hdoc Hflag r.
    destruct (onDidChangeTextDocument_refreshes st ed event Hed Hdoc Hflag)
      as (Hsticky & Hcount & _).
    split; [|done]. intros cnt upd Hin.
    rewrite (Hsticky cnt upd Hin). by apply HI.
Qed.

End CountLine.

(** ** Loading *)

Section Loading.
Context `{Collaborators}.

(** The workspace-state branch lets the exception of [JSON.parse] out. *)
Lemma loadWorkspaceState_workspace_state_throws st text e :
  canSaveBookmarksInProject (host st) = false ->
  workspaceState (host st) = Some text ->
  text <> "" ->
  JSON_parse text = Throw e ->
  loadWorkspaceState st = mkRun (Throw e) (with_controller empty_store st) [].
Proof.
  intros Hsave Hws Hne Hparse. apply String.eqb_neq in Hne.
  unfold loadWorkspaceState, bind, get, lift. cbn.
  rewrite Hsave, Hws. cbn. rewrite Hne. cbn. by rewrite Hparse.
Qed.

(** The project-file branch catches what [JSON.parse] or [loadFrom]
    throws on the text of the project's file: it shows the error and
    returns [false].  After a throw of [JSON.parse] the store is the
    fresh, empty one; after a throw of [loadFrom] it is the fresh store
    as [loadFrom] left it. *)
Theorem loadWorkspaceState_project_file_catches st folder folders text e :
  canSaveBookmarksInProject (host st) = true ->
  workspaceFolders (host st) = Some (folder :: folders) ->
  fs_files (host st) !! bookmarksFileInProject folder = Some text ->
  let shown :=
    [ShowErrorMessage ("Error loading Bookmarks: " +:+ Exn_toString e)] in
  (JSON_parse text = Throw e ->
   loadWorkspaceState st
   = mkRun (Ok false) (with_controller empty_store st) shown) /\
  (forall json c,
     JSON_parse text = Ok json ->
     loadFrom json true empty_store = (Throw e, c) ->
     loadWorkspaceState st = mkRun (Ok false) (with_controller c st) shown).
Proof.
  intros Hsave Hfolders Hfile shown. split.
  - intros Hparse.
    unfold loadWorkspaceState, bind, get, lift, try_catch. cbn.
    rewrite Hsave, Hfolders, Hfile. cbn. by rewrite Hparse.
  - intros json c Hparse Hload.
    unfold loadWorkspaceState, bind, get, lift, try_catch, do_loadFrom. cbn.
    rewrite Hsave, Hfolders, Hfile. cbn. rewrite Hparse. cbn.
    unfold empty_store in Hload. by rewrite Hload.
Qed.

(** With nothing persisted the store is empty, in both branches. *)
Theorem loadWorkspaceState_nothing_persisted st :
  (canSaveBookmarksInProject (host st) = false ->
   workspaceState (host st) = None ->
   loadWorkspaceState st = mkRun (Ok false) (with_controller empty_store st) [])
  /\
  (forall folder folders,
     canSaveBookmarksInProject (host st) = true ->
     workspaceFolders (host st) = Some (folder :: folders) ->
     fs_files (host st) !! bookmarksFileInProject folder = None ->
     loadWorkspaceState st
     = mkRun (Ok false) (with_controller empty_store st) []).
Proof.
  split.
  - intros Hsave Hws. unfold loadWorkspaceState, bind, get. cbn.
    by rewrite Hsave, Hws.
  - intros folder folders Hsave Hfolders Hfile.
    unfold loadWorkspaceState, bind, get. cbn.
    by rewrite Hsave, Hfolders, Hfile.
Qed.

End Loading.

Section PruningFacts.
Context `{Collaborators}.

(** What the decoration pass keeps of a non-empty array: as many of the
    first bookmarks as there are valid ones. *)
Lemma decorate_kept d bks :
  ~ (lineCount d = 1 /\ lineAt d 0 = Some "") ->
  (decorate d bks).1
  = take (length bks
          - length (filter (fun b => lineCount d < line b) bks)) bks.
Proof.
  intros Hnot. unfold decorate.
  destruct (Z.eqb_spec (lineCount d) 1) as [H1|H1]; cbn.
  - rewrite bool_decide_eq_false_2 by tauto.
    pose proof (split_valid_invalids (lineCount d) bks) as Hinv.
    destruct (split_valid (lineCount d) bks) as [books invalids]. cbn in *.
    subst invalids. apply remove_invalids_take.
  - pose proof (split_valid_invalids (lineCount d) bks) as Hinv.
    destruct (split_valid (lineCount d) bks) as [books invalids]. cbn in *.
    subst invalids. apply remove_invalids_take.
Qed.

(** On bookmarks in ascending order of line the decoration pass does
    prune: the bookmarks beyond the line count are the last ones, so
    removing the last entry once for each of them leaves exactly the
    bookmarks within the line count, in their order. *)
Theorem updateDecorations_prunes_sorted st ed i f :
  activeEditor st = Some ed ->
  active_file (controller st) = Some (i, f) ->
  ~ (lineCount (document ed) = 1 /\ lineAt (document ed) 0 = Some "") ->
  Sorted line_le (bookmarks f) ->
  active_file (controller (state_after (updateDecorations st)))
  = Some (i, mkFile (path f)
                    (filter (fun b => line b <= lineCount (document ed))
                            (bookmarks f))).
Proof.
  intros Hed Hact Hnot Hsorted.
  unfold updateDecorations, bind, get. cbn. rewrite Hed, Hact.
  destruct (Nat.eqb (length (bookmarks f)) 0) eqn:Hlen; cbn.
  - apply Nat.eqb_eq, nil_length_inv in Hlen. rewrite Hact, Hlen.
    destruct f. cbn in *. by subst.
  - pose proof (decorate_kept (document ed) (bookmarks f) Hnot) as Hkept.
    destruct (decorate (document ed) (bookmarks f)) as [kept books].
    cbn in *. subst kept.
    rewrite (take_valid_sorted _ _ Hsorted).
    by apply active_file_set_bookmarks.
Qed.

End PruningFacts.

(** ** The views, the selection commands and more on the handlers *)

Section TextFacts.

Lemma list_ascii_of_string_app a b :
  list_ascii_of_string (a +:+ b)
  = (list_ascii_of_string a ++ list_ascii_of_string b)%list.
Proof. induction a as [|c a IH]; simpl; [done|]. by rewrite IH. Qed.

Lemma starts_with_app t r : starts_with t (t ++ r) = true.
Proof.
  induction t as [|a t IH]; cbn; [done|].
  by rewrite Ascii.eqb_refl, IH.
Qed.

Lemma starts_with_inv t s : starts_with t s = true -> s = (t ++ drop (length t) s)%list.
Proof.
  revert s. induction t as [|a t IH]; intros s; cbn; [done|].
  destruct s as [|b s]; [done|].
  intros [->%Ascii.eqb_eq Ht]%andb_prop. cbn. f_equal. by apply IH.
Qed.

Lemma occurs_in_nil t : t <> [] -> occurs_in t [] = false.
Proof. by destruct t. Qed.

(** No occurrence from [skip] on: the segment so far is the last one. *)
Lemma after_last_from_none sep skip segment s :
  sep <> [] -> occurs_in sep (drop skip s) = false ->
  after_last_from sep skip segment s = segment.
Proof.
  intros Hsep. revert skip.
  induction s as [|c s IH]; intros skip Hnone; [done|].
  destruct skip as [|k]; cbn in *.
  - apply orb_false_elim in Hnone as [-> Hs]. by apply IH.
  - by apply IH.
Qed.

(** The last segment follows an occurrence of the separator and has
    none. *)
Lemma after_last_from_spec sep skip segment s :
  sep <> [] ->
  let r := after_last_from sep skip segment s in
  (r = segment /\ occurs_in sep (drop skip s) = false) \/
  (exists pre, drop skip s = (pre ++ sep ++ r)%list /\ occurs_in sep r = false).
Proof.
  intros Hsep. revert skip segment.
  induction s as [|c s IH]; intros skip segment.
  - left. split; [done|]. rewrite drop_nil. by apply occurs_in_nil.
  - destruct skip as [|k]; [|apply (IH k segment)].
    cbn [after_last_from drop].
    destruct (starts_with sep (c :: s)) eqn:Hst.
    + right. apply starts_with_inv in Hst.
      assert (Hdrop : drop (length sep) (c :: s) = drop (length sep - 1) s).
      { destruct sep as [|a sep]; [done|]. cbn. by rewrite Nat.sub_0_r. }
      revert Hst Hdrop. generalize (drop (length sep) (c :: s)).
      intros rest Hst Hdrop. cbn [drop]. rewrite Hst.
      destruct (IH (length sep - 1)%nat rest)
        as [[Hr Hnone]|(pre & Hpre & Hnone)].
      * exists []. cbn [app]. rewrite Hr. split; [done|].
        by rewrite Hdrop.
      * exists (sep ++ pre)%list. split; [|done].
        rewrite <- app_assoc. f_equal. rewrite <- Hpre. exact Hdrop.
    + destruct (IH 0%nat segment) as [[Hr Hnone]|(pre & Hpre & Hnone)].
      * left. split; [done|]. cbn. by rewrite Hst.
      * right. exists (c :: pre). cbn in *. by rewrite <- Hpre.
Qed.

Lemma index_is_0_app s r : index_is_0 (s +:+ r) s = true.
Proof.
  unfold index_is_0. rewrite list_ascii_of_string_app. apply starts_with_app.
Qed.

Lemma list_ascii_of_string_nil s : list_ascii_of_string s = [] -> s = "".
Proof. by destruct s. Qed.

Lemma after_last_from_prefixed sep r :
  sep <> [] -> occurs_in sep r = false ->
  after_last_from sep 0 (sep ++ r) (sep ++ r) = r.
Proof.
  intros Hsep Hnone. destruct sep as [|a sep']; [done|].
  pose proof (starts_with_app (a :: sep') r) as Hst.
  cbn [app] in *. cbn [after_last_from]. rewrite Hst.
  cbn [length drop]. rewrite Nat.sub_succ, Nat.sub_0_r, drop_app_length.
  apply after_last_from_none; [done|]. by rewrite drop_app_length.
Qed.

(** [(sep + rest).split(sep).pop()] is [rest] when [sep] does not occur
    in it. *)
Lemma split_pop_prefixed sep rest :
  sep <> "" -> index_is_not_found rest sep = true ->
  split_pop (sep +:+ rest) sep = Some rest.
Proof.
  intros Hsep Hnone. unfold split_pop, index_is_not_found in *.
  apply negb_true_iff in Hnone.
  rewrite list_ascii_of_string_app.
  destruct (list_ascii_of_string sep) as [|a sep'] eqn:E.
  { by apply list_ascii_of_string_nil in E. }
  by rewrite after_last_from_prefixed, string_of_list_ascii_of_string.
Qed.

End TextFacts.

Section PathFacts.
Context `{Collaborators} `{Platform}.

Lemma string_of_list_ascii_app a b :
  string_of_list_ascii (a ++ b)
  = string_of_list_ascii a +:+ string_of_list_ascii b.
Proof. induction a as [|c a IH]; simpl; [done|]. by rewrite IH. Qed.

Lemma starts_with_occurs t s : starts_with t s = true -> occurs_in t s = true.
Proof. destruct s; cbn; [done|]. by intros ->. Qed.

Lemma inWorkspace_fold aPath folders found :
  fold_left
    (fun found wf => if index_is_0 aPath (wf_fsPath wf) then Some wf else found)
    folders found
  = match inWorkspace aPath folders with
    | Some wf => Some wf
    | None => found
    end.
Proof.
  unfold inWorkspace. revert found.
  induction folders as [|wf folders IH]; intros found; [done|].
  cbn [fold_left].
  rewrite (IH (if index_is_0 aPath (wf_fsPath wf) then Some wf else found)).
  rewrite (IH (if index_is_0 aPath (wf_fsPath wf) then Some wf else None)).
  destruct (fold_left _ folders None) as [y|]; [done|].
  by destruct (index_is_0 _ _).
Qed.

Lemma inWorkspace_None aPath folders :
  Forall (fun wf => index_is_0 aPath (wf_fsPath wf) = false) folders ->
  inWorkspace aPath folders = None.
Proof.
  induction 1 as [|wf folders Hwf _ IH]; [done|].
  unfold inWorkspace. cbn [fold_left]. rewrite inWorkspace_fold, IH.
  by rewrite Hwf.
Qed.

Lemma inWorkspace_Some aPath folders wf :
  inWorkspace aPath folders = Some wf ->
  wf ∈ folders /\ index_is_0 aPath (wf_fsPath wf) = true.
Proof.
  induction folders as [|x folders IH]; [done|].
  unfold inWorkspace. cbn [fold_left]. rewrite inWorkspace_fold.
  destruct (inWorkspace aPath folders) as [y|].
  - intros [= ->]. destruct IH as [Hin Hp]; [done|]. split; [by right|done].
  - destruct (index_is_0 aPath (wf_fsPath x)) eqn:E; [|done].
    intros [= ->]. split; [by left|done].
Qed.

(** A bookmark of a file outside every folder of the workspace is
    listed with the file's whole path after the mark
    ["$(file-directory) "], and picking the item gives the path back,
    when the mark does not occur in the path itself. *)
Theorem outside_path_round_trip folders e current activePath :
  toLowerCase (listed_detail e) <> toLowerCase activePath ->
  Forall (fun wf => index_is_0 (listed_detail e) (wf_fsPath wf) = false)
         folders ->
  index_is_not_found (listed_detail e) "$(file-directory) " = true ->
  let item := all_files_item activePath (Some folders) current e in
  item_detail item = Some ("$(file-directory) " +:+ listed_detail e) /\
  selected_item_path activePath (Some folders) current item
  = Ok (listed_detail e).
Proof.
  intros Hactive Hout Hmark item.
  assert (Hr : item_detail item
               = Some ("$(file-directory) " +:+ listed_detail e)).
  { subst item. unfold all_files_item.
    destruct (String.eqb_spec (toLowerCase (listed_detail e))
                              (toLowerCase activePath)); [done|].
    cbn [item_detail]. unfold removeBasePathFrom.
    by rewrite inWorkspace_None. }
  split; [done|].
  unfold selected_item_path, item_path, no_detail. rewrite Hr.
  cbn [default id].
  change (String.eqb ("$(file-directory) " +:+ listed_detail e) "") with false.
  cbn match. rewrite index_is_0_app, split_pop_prefixed; done.
Qed.

(** A bookmark of a file of the current folder (or of the only folder,
    when there is no current one) is listed with what follows the
    folder's path, and picking the item gives the file's path back, when
    the folder's path does not occur again in that rest and the rest is
    not empty and does not start like a mark. *)
Theorem folder_path_round_trip folders wf rest e current activePath :
  toLowerCase (listed_detail e) <> toLowerCase activePath ->
  listed_detail e = wf_fsPath wf +:+ rest ->
  inWorkspace (listed_detail e) folders = Some wf ->
  current = Some wf \/ (current = None /\ length folders = 1%nat) ->
  wf_fsPath wf <> "" ->
  index_is_not_found rest (wf_fsPath wf) = true ->
  rest <> "" ->
  index_is_0 rest "$(file-directory) " = false ->
  index_is_0 rest "$(file-submodule)" = false ->
  let item := all_files_item activePath (Some folders) current e in
  item_detail item = Some rest /\
  selected_item_path activePath (Some folders) current item
  = Ok (listed_detail e).
Proof.
  intros Hactive Hpath Hin Hcur Hne Hnone Hrest Hdir Hsub item.
  assert (Hr : item_detail item = Some rest).
  { subst item. unfold all_files_item.
    destruct (String.eqb_spec (toLowerCase (listed_detail e))
                              (toLowerCase activePath)); [done|].
    cbn [item_detail]. unfold removeBasePathFrom. rewrite Hin, Hpath.
    destruct Hcur as [->|[-> Hlen]].
    - rewrite bool_decide_eq_true_2 by done. by apply split_pop_prefixed.
    - rewrite bool_decide_eq_false_2 by done.
      rewrite bool_decide_eq_true_2 by done. rewrite Hlen. cbn.
      by apply split_pop_prefixed. }
  split; [done|].
  unfold selected_item_path, item_path, no_detail. rewrite Hr.
  cbn [default id].
  destruct (String.eqb_spec rest ""); [done|].
  rewrite Hdir, Hsub, Hpath.
  destruct Hcur as [->|[-> Hlen]]; [done|].
  destruct folders as [|x [|? ?]]; try done.
  unfold inWorkspace in Hin. cbn in Hin.
  destruct (index_is_0 (listed_detail e) (wf_fsPath x)); [|done].
  by injection Hin as ->.
Qed.

(** What such a file is listed with is what follows the last occurrence
    of the folder's path in the file's path: the path is some text, the
    folder's path and what is shown, and the folder's path does not occur
    in what is shown. *)
Theorem removeBasePathFrom_after_last_occurrence folders aPath wf current :
  inWorkspace aPath folders = Some wf ->
  wf_fsPath wf <> "" ->
  current = Some wf \/ (current = None /\ length folders = 1%nat) ->
  exists pre shown,
    removeBasePathFrom (Some folders) aPath current = Some shown /\
    aPath = pre +:+ wf_fsPath wf +:+ shown /\
    index_is_not_found shown (wf_fsPath wf) = true.
Proof.
  intros Hin Hne Hcur.
  assert (Hr : removeBasePathFrom (Some folders) aPath current
               = split_pop aPath (wf_fsPath wf)).
  { unfold removeBasePathFrom. rewrite Hin.
    destruct Hcur as [->|[-> Hlen]].
    - by rewrite bool_decide_eq_true_2.
    - rewrite bool_decide_eq_false_2 by done.
      rewrite bool_decide_eq_true_2 by done. by rewrite Hlen. }
  rewrite Hr. apply inWorkspace_Some in Hin as [_ Hp].
  unfold split_pop, index_is_0, index_is_not_found in *.
  destruct (list_ascii_of_string (wf_fsPath wf)) as [|a sep] eqn:E.
  { by apply list_ascii_of_string_nil in E. }
  assert (Hfs : wf_fsPath wf = string_of_list_ascii (a :: sep)).
  { by rewrite <- E, string_of_list_ascii_of_string. }
  rewrite Hfs. clear Hfs E Hr Hne.
  assert (Hsep : a :: sep <> []) by done. revert Hsep Hp.
  generalize (a :: sep). intros sep' Hsep Hp.
  destruct (after_last_from_spec sep' 0 (list_ascii_of_string aPath)
              (list_ascii_of_string aPath) Hsep)
    as [[_ Hnone]|(pre & Hpre & Hnone)].
  { apply starts_with_occurs in Hp. rewrite drop_0 in Hnone. congruence. }
  exists (string_of_list_ascii pre), (string_of_list_ascii
    (after_last_from sep' 0 (list_ascii_of_string aPath)
                     (list_ascii_of_string aPath))).
  split; [by destruct sep'|]. split.
  - rewrite <- !string_of_list_ascii_app. rewrite drop_0 in Hpre.
    by rewrite <- Hpre, string_of_list_ascii_of_string.
  - rewrite list_ascii_of_string_of_list_ascii. by rewrite Hnone.
Qed.

End PathFacts.

Section SortFacts.

Lemma sort_insert_Sorted_by {A} (cmp : A -> A -> Z) (R : A -> A -> Prop)
    (P : A -> Prop) x l :
  (forall a b, P a -> P b -> if cmp a b <=? 0 then R a b else R b a) ->
  P x -> Forall P l -> Sorted R l -> Sorted R (sort_insert cmp x l).
Proof.
  intros Hcmp Hx Hl Hs.
  induction Hs as [|y l Hs IH Hhd]; cbn; [by repeat constructor|].
  apply Forall_cons in Hl as [Hy Hl].
  pose proof (Hcmp x y Hx Hy) as Hxy.
  destruct (cmp x y <=? 0).
  - by repeat constructor.
  - constructor; [by apply IH|].
    destruct l as [|z l]; cbn; [by constructor|].
    apply Forall_cons in Hl as [Hz Hl].
    pose proof (Hcmp x z Hx Hz) as Hxz.
    destruct (cmp x z <=? 0); constructor; [done|].
    by inversion Hhd.
Qed.

Lemma array_sort_Sorted_by {A} (cmp : A -> A -> Z) (R : A -> A -> Prop)
    (P : A -> Prop) l :
  (forall a b, P a -> P b -> if cmp a b <=? 0 then R a b else R b a) ->
  Forall P l -> Sorted R (array_sort cmp l).
Proof.
  intros Hcmp. induction 1 as [|x l Hx Hl IH]; cbn; [constructor|].
  apply (sort_insert_Sorted_by cmp R P); [done..| |done].
  change (Forall P (array_sort cmp l)). by rewrite array_sort_Permutation.
Qed.

Lemma marks_differ d :
  index_is_0 d "$(file-submodule) " = true ->
  index_is_0 d "$(file-directory) " = false.
Proof.
  unfold index_is_0. intros Hs%starts_with_inv. rewrite Hs. reflexivity.
Qed.

Lemma index_is_0_found d t :
  index_is_0 d t = true -> index_is_not_found d t = false.
Proof.
  unfold index_is_0, index_is_not_found. intros Hs.
  apply negb_false_iff. destruct (list_ascii_of_string d); cbn; [done|].
  by rewrite Hs.
Qed.

Lemma compare_items_groups a b :
  marks_lead a -> marks_lead b ->
  if compare_items a b <=? 0 then group_le a b else group_le b a.
Proof.
  unfold marks_lead, group_le, item_group, compare_items.
  pose proof (marks_differ (default "" (item_detail a))) as Ha.
  pose proof (marks_differ (default "" (item_detail b))) as Hb.
  pose proof (index_is_0_found (default "" (item_detail a))
                               "$(file-submodule) ") as Has.
  pose proof (index_is_0_found (default "" (item_detail a))
                               "$(file-directory) ") as Had.
  pose proof (index_is_0_found (default "" (item_detail b))
                               "$(file-submodule) ") as Hbs.
  pose proof (index_is_0_found (default "" (item_detail b))
                               "$(file-directory) ") as Hbd.
  cbv zeta. revert Ha Hb Has Had Hbs Hbd.
  generalize (index_is_0 (default "" (item_detail a)) "$(file-submodule) ").
  generalize (index_is_0 (default "" (item_detail a)) "$(file-directory) ").
  generalize (index_is_0 (default "" (item_detail b)) "$(file-submodule) ").
  generalize (index_is_0 (default "" (item_detail b)) "$(file-directory) ").
  generalize (index_is_not_found (default "" (item_detail a))
                                 "$(file-submodule) ").
  generalize (index_is_not_found (default "" (item_detail a))
                                 "$(file-directory) ").
  generalize (index_is_not_found (default "" (item_detail b))
                                 "$(file-submodule) ").
  generalize (index_is_not_found (default "" (item_detail b))
                                 "$(file-directory) ").
  intros fbd fbs fad fas sbd sbs sad sas Ha Hb Has Had Hbs Hbd.
  destruct (no_detail a), (no_detail b), sas, sad, sbs, sbd;
    cbn; intros Hma Hmb; try lia;
    try (by specialize (Ha eq_refl)); try (by specialize (Hb eq_refl));
    try rewrite (Has eq_refl); try rewrite (Had eq_refl);
    try rewrite (Hbs eq_refl); try rewrite (Hbd eq_refl);
    try (destruct Hma as [-> ->]; [done|]);
    try (destruct Hmb as [-> ->]; [done|]);
    cbn; try lia;
    repeat match goal with b : bool |- _ => destruct b end; cbn; lia.
Qed.

End SortFacts.

Section AllFiles.
Context `{Collaborators} `{Platform}.

(** [listFromAllFiles] shows its items in the order of the four groups
    its comment names: the active document's, then those of the same
    folder, of other folders, and outside every folder; it keeps every
    item.  This holds when a detail has a mark only at its start.
    Without any bookmark it shows a message instead. *)
Theorem listFromAllFiles_sorts_by_group folders getWorkspaceFolder values st :
  let activePath :=
    match activeEditor st with
    | Some ed => fsPath (document ed)
    | None => ""
    end in
  let current :=
    if String.eqb activePath "" then None else getWorkspaceFolder activePath in
  let unsorted := all_files_items activePath folders current values in
  (hasAnyBookmark (controller st) = false ->
   listFromAllFiles folders getWorkspaceFolder values st
   = ListingMessage "No Bookmarks found") /\
  (hasAnyBookmark (controller st) = true ->
   Forall marks_lead unsorted ->
   exists items,
     listFromAllFiles folders getWorkspaceFolder values st
     = ListingItems items /\
     Sorted group_le items /\ items ≡ₚ unsorted).
Proof.
  cbv zeta. unfold listFromAllFiles. split; [by intros ->|].
  intros -> Hm. cbn [negb]. eexists. split; [done|].
  split; [|apply array_sort_Permutation].
  apply (array_sort_Sorted_by compare_items group_le marks_lead); [|done].
  apply compare_items_groups.
Qed.

End AllFiles.

Section ListFacts.
Context `{Collaborators} `{Platform}.

Lemma lineAt_text_None d l :
  lineAt_text d l = None <-> ~ (0 <= l < lineCount d).
Proof.
  unfold lineAt_text, lineAt, lineCount.
  destruct (Z.ltb_spec l 0) as [Hneg|Hpos]; [split; [lia|done]|].
  rewrite lookup_ge_None. lia.
Qed.

Lemma list_items_complete d bks items :
  Forall (fun b => 0 <= line b < lineCount d) bks ->
  list_items d bks items
  = ListingItems
      (items ++ ((fun b => list_item (default "" (lineAt_text d (line b))) b)
                   <$> bks)).
Proof.
  intros Hall. revert items.
  induction Hall as [|b bks Hb _ IH]; intros items; cbn.
  - by rewrite app_nil_r.
  - replace (line b + 1 - 1) with (line b) by lia.
    destruct (lineAt_text d (line b)) as [text|] eqn:E.
    + rewrite IH, <- app_assoc. done.
    + by apply lineAt_text_None in E.
Qed.

Lemma list_items_illegal d bks items :
  ~ Forall (fun b => 0 <= line b < lineCount d) bks ->
  exists l, list_items d bks items = IllegalLine l /\
            ~ (0 <= l < lineCount d).
Proof.
  revert items. induction bks as [|b bks IH]; intros items Hnot.
  - destruct Hnot. constructor.
  - cbn. replace (line b + 1 - 1) with (line b) by lia.
    destruct (lineAt_text d (line b)) as [text|] eqn:E.
    + apply IH. intros Hall. apply Hnot. constructor; [|done].
      destruct (decide (0 <= line b < lineCount d)) as [|Hout]; [done|].
      apply lineAt_text_None in Hout. congruence.
    + exists (line b). split; [done|]. by apply lineAt_text_None.
Qed.

(** [bookmarks.list] gets to its pick exactly when every bookmark of the
    active file is on a line the document has: then it offers one item
    for each bookmark, in their order; otherwise [lineAt] throws for a
    line outside the document. *)
Theorem list_bookmarks_needs_lines_of_the_document st ed i f :
  activeEditor st = Some ed ->
  active_file (controller st) = Some (i, f) ->
  bookmarks f <> [] ->
  (Forall (fun b => 0 <= line b < lineCount (document ed)) (bookmarks f) ->
   list_bookmarks st
   = ListingItems
       ((fun b => list_item
                    (default "" (lineAt_text (document ed) (line b))) b)
          <$> bookmarks f)) /\
  (~ Forall (fun b => 0 <= line b < lineCount (document ed)) (bookmarks f) ->
   exists l, list_bookmarks st = IllegalLine l /\
             ~ (0 <= l < lineCount (document ed))).
Proof.
  intros Hed Hact Hne. unfold list_bookmarks. rewrite Hed, Hact.
  destruct (bookmarks f) as [|b bks] eqn:E; [done|]. cbn [length Nat.eqb].
  split.
  - intros Hall. by rewrite list_items_complete.
  - apply list_items_illegal.
Qed.

(** The decoration pass keeps a bookmark whose line is the document's
    line count, one past its last line, and [bookmarks.list] then fails
    on it.  The bookmarks are in ascending order of line and the document
    is not a single empty line, so that the pass removes by its test of
    the line only. *)
Theorem list_fails_on_a_bookmark_the_redraw_keeps st ed i f b :
  activeEditor st = Some ed ->
  active_file (controller st) = Some (i, f) ->
  ~ (lineCount (document ed) = 1 /\ lineAt (document ed) 0 = Some "") ->
  Sorted line_le (bookmarks f) ->
  b ∈ bookmarks f ->
  line b = lineCount (document ed) ->
  let st' := state_after (updateDecorations st) in
  (exists f', active_file (controller st') = Some (i, f') /\
              b ∈ bookmarks f') /\
  exists l, list_bookmarks st' = IllegalLine l /\
            ~ (0 <= l < lineCount (document ed)).
Proof.
  intros Hed Hact Hnot Hsorted Hin Hline st'.
  assert (Hact' : active_file (controller st')
                  = Some (i, mkFile (path f)
                       (filter (fun b => line b <= lineCount (document ed))
                               (bookmarks f)))).
  { subst st'. unfold updateDecorations, bind, get. cbn. rewrite Hed, Hact.
    destruct (Nat.eqb (length (bookmarks f)) 0) eqn:Hlen; cbn.
    - apply Nat.eqb_eq, nil_length_inv in Hlen. rewrite Hlen in Hin.
      by apply elem_of_nil in Hin.
    - pose proof (decorate_kept (document ed) (bookmarks f) Hnot) as Hk.
      destruct (decorate (document ed) (bookmarks f)) as [kept books].
      cbn in *. subst kept. rewrite take_valid_sorted by done.
      by apply active_file_set_bookmarks. }
  assert (Hin' : b ∈ filter (fun b => line b <= lineCount (document ed))
                             (bookmarks f)).
  { apply list_elem_of_filter. split; [lia|done]. }
  split; [by eexists|].
  assert (Hed' : activeEditor st' = Some ed).
  { subst st'. pose proof (updateDecorations_frame st) as (-> & _). done. }
  unfold list_bookmarks. rewrite Hed', Hact'. cbn [bookmarks].
  destruct (filter (fun b => line b <= lineCount (document ed)) (bookmarks f))
    as [|b0 kept] eqn:Hkept; [by apply elem_of_nil in Hin'|].
  cbn [length Nat.eqb]. apply list_items_illegal.
  rewrite Forall_forall. intros Hall. specialize (Hall b Hin'). lia.
Qed.

End ListFacts.

Section SelectionFacts.
Context `{Collaborators} `{Platform}.

(** [shrinkSelection] hands a bookmark to the core's [shrinkRange] only
    when the editor has one selection that is not empty, the bookmark is
    what [nextBookmark] resolved to from the far end of the selection,
    towards its anchor, and the bookmark's line is not beyond the
    anchor's: the selection never shrinks past its other end. *)
Theorem shrinkSelection_stays_within_the_selection
    selection others st next direction :
  shrinkSelection selection others st = Ok (ShrinkRange next direction) ->
  others = [] /\ isEmpty selection = false /\
  (exists i f,
     active_file (controller st) = Some (i, f) /\
     nextBookmark f (if isReversed selection then sel_start selection
                     else sel_end selection) direction
     = Resolved (inr next)) /\
  if isReversed selection
  then direction = Forward /\ pos_line next <= pos_line (sel_end selection)
  else direction = Backward /\ pos_line (sel_start selection) <= pos_line next.
Proof.
  unfold shrinkSelection, active_bookmarks.
  destruct (activeEditor st); [|done].
  cbn [length]. destruct others as [|other others]; [|done]. cbn.
  destruct (isEmpty selection); [done|].
  destruct (active_file (controller st)) as [[i f]|]; [|done].
  destruct (Nat.eqb (length (bookmarks f)) 0); [done|].
  destruct (isReversed selection).
  - destruct (nextBookmark f (sel_start selection) Forward)
      as [[n|p]|reason] eqn:E; try done.
    destruct (Z.ltb_spec (pos_line (sel_end selection)) (pos_line p)); [done|].
    intros [= -> <-]. repeat split; eauto.
  - destruct (nextBookmark f (sel_end selection) Backward)
      as [[n|p]|reason] eqn:E; try done.
    destruct (Z.ltb_spec (pos_line p) (pos_line (sel_start selection))); [done|].
    intros [= -> <-]. repeat split; eauto.
Qed.

(** The selection commands read [bookmarks.activeBookmark.bookmarks]
    without the guard [list] and the jump commands have: with an editor
    and no active file they throw a [TypeError], where [list] reports
    that no bookmark was found and a jump does nothing. *)
Theorem selection_commands_need_an_active_file
    st ed direction selection :
  activeEditor st = Some ed ->
  active_file (controller st) = None ->
  selectLines st = Throw (TypeError "activeBookmark is undefined") /\
  expandSelectionToNextBookmark direction selection st
    = Throw (TypeError "activeBookmark is undefined") /\
  (isEmpty selection = false ->
   shrinkSelection selection [] st
   = Throw (TypeError "activeBookmark is undefined")) /\
  list_bookmarks st = ListingMessage "No Bookmark found" /\
  jump direction st = mkRun (Ok tt) st [].
Proof.
  intros Hed Hact.
  unfold selectLines, expandSelectionToNextBookmark, shrinkSelection,
    list_bookmarks, active_bookmarks.
  rewrite Hed, Hact. cbn. repeat split.
  - by intros ->.
  - destruct direction; unfold jump, jumpToNext, jumpToPrevious, bind, get;
      cbn; by rewrite Hed, Hact.
Qed.

End SelectionFacts.

Section Persistence.
Context `{Collaborators}.

(** Where [saveWorkspaceState] writes: to [.vscode/bookmarks.json] of the
    folder when the setting is on and the workspace has one folder (the
    file is written when some file has a bookmark and removed otherwise,
    and the workspace state is not touched), and to the workspace state
    when the setting is off, no folder is open or several are (the file
    system is not touched). *)
Theorem saveWorkspaceState_destination st :
  let r := saveWorkspaceState st in
  let c := controller st in
  (forall folder,
     saveBookmarksInProject (host st) = true ->
     workspaceFolders (host st) = Some [folder] ->
     result r = Ok tt /\
     workspaceState (host (state_after r)) = workspaceState (host st) /\
     fs_files (host (state_after r))
     = if hasAnyBookmark c
       then <[bookmarksFileInProject folder := serialize true c]>
              (fs_files (host st))
       else delete (bookmarksFileInProject folder) (fs_files (host st))) /\
  (saveBookmarksInProject (host st) = false \/
   workspaceFolders (host st) = None \/
   (exists folders, workspaceFolders (host st) = Some folders /\
                    (1 < length folders)%nat) ->
   result r = Ok tt /\
   fs_files (host (state_after r)) = fs_files (host st) /\
   workspaceState (host (state_after r)) = Some (serialize false c)).
Proof.
  cbv zeta. unfold saveWorkspaceState, bind, get. cbn. split.
  - intros folder Hset Hw.
    assert (canSaveBookmarksInProject (host st) = true) as ->.
    { unfold canSaveBookmarksInProject. by rewrite Hset, Hw. }
    rewrite Hw. cbn. by destruct (hasAnyBookmark (controller st)).
  - intros Hcase.
    assert (canSaveBookmarksInProject (host st) = false) as ->; [|done].
    unfold canSaveBookmarksInProject.
    destruct Hcase as [->|[->|(folders & -> & Hlen%Nat.ltb_lt)]];
      [done|by destruct (saveBookmarksInProject (host st))|].
    rewrite Hlen. by destruct (saveBookmarksInProject (host st)).
Qed.

Lemma canSaveBookmarksInProject_write_fs files h :
  canSaveBookmarksInProject (write_fs files h) = canSaveBookmarksInProject h.
Proof. done. Qed.

(** What [saveWorkspaceState] wrote is what [loadWorkspaceState] reads
    next: the text [JSON.parse] and [loadFrom] get is the serialised
    store, from the workspace state or from the project's file; and
    after a save of a store without bookmarks to the project, whose file
    is then removed, the load finds nothing and leaves the empty
    store. *)
Theorem load_reads_what_save_wrote st :
  let saved := state_after (saveWorkspaceState st) in
  let c := controller st in
  result (saveWorkspaceState st) = Ok tt ->
  (forall json c',
     canSaveBookmarksInProject (host st) = false ->
     serialize false c <> "" ->
     JSON_parse (serialize false c) = Ok json ->
     loadFrom json false empty_store = (Ok tt, c') ->
     loadWorkspaceState saved
     = mkRun (Ok true) (with_controller c' saved) []) /\
  (forall json c',
     canSaveBookmarksInProject (host st) = true ->
     hasAnyBookmark c = true ->
     JSON_parse (serialize true c) = Ok json ->
     loadFrom json true empty_store = (Ok tt, c') ->
     loadWorkspaceState saved
     = mkRun (Ok true) (with_controller c' saved) []) /\
  (canSaveBookmarksInProject (host st) = true ->
   hasAnyBookmark c = false ->
   loadWorkspaceState saved
   = mkRun (Ok false) (with_controller empty_store saved) []).
Proof.
  cbv zeta. intros Hok. repeat split.
  - intros json c' Hcan Hne Hparse Hload.
    revert Hok. unfold saveWorkspaceState, loadWorkspaceState, bind, get.
    cbn. rewrite Hcan. cbn. intros _.
    change (canSaveBookmarksInProject
              (write_workspaceState (serialize false (controller st)) (host st)))
      with (canSaveBookmarksInProject (host st)).
    rewrite Hcan. cbn.
    destruct (String.eqb_spec (serialize false (controller st)) ""); [done|].
    cbn. unfold lift, do_loadFrom. rewrite Hparse. cbn.
    unfold empty_store in Hload. rewrite Hload. done.
  - intros json c' Hcan Hany Hparse Hload.
    revert Hok. unfold saveWorkspaceState, loadWorkspaceState, bind, get.
    cbn. rewrite Hcan. cbn.
    destruct (workspaceFolders (host st)) as [[|folder folders]|] eqn:Hw;
      cbn; [done| |done].
    rewrite Hany. cbn. intros _.
    rewrite canSaveBookmarksInProject_write_fs, Hcan. cbn. rewrite Hw.
    rewrite lookup_insert_eq. unfold try_catch, lift, do_loadFrom, bind.
    cbn. rewrite Hparse. cbn.
    unfold empty_store in Hload. rewrite Hload. done.
  - intros Hcan Hany.
    revert Hok. unfold saveWorkspaceState, loadWorkspaceState, bind, get.
    cbn. rewrite Hcan. cbn.
    destruct (workspaceFolders (host st)) as [[|folder folders]|] eqn:Hw;
      cbn; [done| |done].
    rewrite Hany. cbn. intros _.
    rewrite canSaveBookmarksInProject_write_fs, Hcan. cbn. rewrite Hw.
    by rewrite lookup_delete_eq.
Qed.

Lemma hasAnyBookmark_none c :
  Forall (fun f => bookmarks f = []) (fileList c) -> hasAnyBookmark c = false.
Proof.
  unfold hasAnyBookmark. induction 1 as [|f l Hf _ IH]; [done|].
  cbn. by rewrite Hf, IH.
Qed.

Lemma pruned_all_empty c c' :
  pruned c c' ->
  Forall (fun f => bookmarks f = []) (fileList c) ->
  Forall (fun f => bookmarks f = []) (fileList c') /\
  path <$> fileList c' = path <$> fileList c.
Proof.
  intros [_ Hall].
  induction Hall as [|f f' l l' [Hp Hpre] _ IH]; [done|].
  intros [Hf Hl]%Forall_cons. destruct (IH Hl) as [IH1 IH2].
  split.
  - constructor; [|done]. rewrite Hf in Hpre. by apply prefix_nil_inv in Hpre.
  - cbn. by rewrite Hp, IH2.
Qed.

Lemma wp_run {A} (m : M A) (Q : Result A -> State -> list Event -> Prop)
    st run :
  m st = run -> Q (result run) (state_after run) (events run) -> wp m Q st.
Proof. intros <-. done. Qed.

Lemma saveWorkspaceState_project_empty st folder folders :
  canSaveBookmarksInProject (host st) = true ->
  workspaceFolders (host st) = Some (folder :: folders) ->
  hasAnyBookmark (controller st) = false ->
  saveWorkspaceState st
  = mkRun (Ok tt)
          (mkState (controller st) (activeEditorCountLine st) (timeout st)
                   (activeEditor st)
                   (write_fs (delete (bookmarksFileInProject folder)
                                     (fs_files (host st))) (host st)))
          [SaveWorkspaceState (fileList (controller st))].
Proof.
  intros Hcan Hw Hany. unfold saveWorkspaceState, bind, get.
  cbv beta. cbn [result state_after events]. rewrite Hcan, Hw, Hany. done.
Qed.

(** [bookmarks.clearFromAllFiles] with the bookmarks kept in the project:
    every file stays in the store, none has a bookmark left, and
    [.vscode/bookmarks.json] is gone, not written empty. *)
Theorem clearFromAllFiles_removes_the_project_file st folder folders :
  canSaveBookmarksInProject (host st) = true ->
  workspaceFolders (host st) = Some (folder :: folders) ->
  let r := clearFromAllFiles st in
  result r = Ok tt /\
  Forall (fun f => bookmarks f = []) (fileList (controller (state_after r))) /\
  path <$> fileList (controller (state_after r))
    = path <$> fileList (controller st) /\
  fs_files (host (state_after r)) !! bookmarksFileInProject folder = None.
Proof.
  intros Hcan Hw r.
  set (c1 := mkController
               ((fun f => mkFile (path f) []) <$> fileList (controller st))
               (activeBookmark (controller st))).
  assert (Hempty : Forall (fun f => bookmarks f = []) (fileList c1)).
  { cbn. apply Forall_fmap, Forall_forall. done. }
  assert (Hpaths : path <$> fileList c1 = path <$> fileList (controller st)).
  { cbn. rewrite <- list_fmap_compose. done. }
  enough (wp clearFromAllFiles
            (fun res st' _ =>
               res = Ok tt /\
               Forall (fun f => bookmarks f = []) (fileList (controller st')) /\
               path <$> fileList (controller st')
                 = path <$> fileList (controller st) /\
               fs_files (host st') !! bookmarksFileInProject folder = None)
            st) by done.
  unfold clearFromAllFiles, core_clearAll. wp_steps. fold c1.
  eapply wp_run.
  { apply (saveWorkspaceState_project_empty _ folder folders);
      [done|done|apply (hasAnyBookmark_none c1 Hempty)]. }
  cbn [result state_after events].
  apply wp_updateDecorations. cbn. intros c' ev Hp _.
  destruct (pruned_all_empty _ _ Hp Hempty) as [He' Hp'].
  repeat split; [done|by rewrite Hp'|apply lookup_delete_eq].
Qed.

End Persistence.

Section Redraw.
Context `{Collaborators}.

Lemma decorations_no_save ev snapshot :
  Forall is_SetDecorations ev -> ~ In (SaveWorkspaceState snapshot) ev.
Proof.
  induction 1 as [|e ev He _ IH]; [by intros []|].
  intros [->|Hin]; [done|by apply IH].
Qed.

(** The text-change handler saves only after the sticky adjuster reported
    an update, and otherwise leaves the host's storage alone; a change
    of a document that is not the active editor's does nothing at all. *)
Theorem text_change_saves_only_an_update event st :
  let r := onDidChangeTextDocument event st in
  (forall snapshot,
     In (SaveWorkspaceState snapshot) (events r) ->
     exists cnt, In (CoreSticky cnt true) (events r)) /\
  ((forall cnt, ~ In (CoreSticky cnt true) (events r)) ->
   host (state_after r) = host st) /\
  (match activeEditor st with
   | Some ed => fsPath (ev_document event) <> fsPath (document ed)
   | None => True
   end -> r = mkRun (Ok tt) st []).
Proof.
  cbv zeta.
  assert (Hquiet :
    wp (onDidChangeTextDocument event)
       (fun _ st' ev =>
          (forall snapshot,
             In (SaveWorkspaceState snapshot) ev ->
             exists cnt, In (CoreSticky cnt true) ev) /\
          ((forall cnt, ~ In (CoreSticky cnt true) ev) ->
           host st' = host st)) st).
  { unfold onDidChangeTextDocument. wp_steps.
    destruct (activeEditor st) as [ed|]; wp_steps; [|by split; [intros ? []|]].
    destruct (String.eqb _ _); wp_steps; [|by split; [intros ? []|]].
    destruct (useWorkaroundForFormatters (host st)).
    { apply wp_updateDecorations. cbn. intros c' ev _ Hev. split; [|done].
      intros snapshot Hin. by apply decorations_no_save in Hin. }
    wp_step.
    assert (Hrest : forall st1 pre updatedBookmark,
      host st1 = host st ->
      (updatedBookmark = true -> exists cnt, In (CoreSticky cnt true) pre) ->
      (forall snapshot, ~ In (SaveWorkspaceState snapshot) pre) ->
      wp (let* _ := set_activeEditorCountLine
                      (Some (lineCount (ev_document event))) in
          let* _ := updateDecorations in
          if updatedBookmark then saveWorkspaceState else ret tt)
         (fun _ st' ev =>
            (forall snapshot,
               In (SaveWorkspaceState snapshot) (pre ++ ev) ->
               exists cnt, In (CoreSticky cnt true) (pre ++ ev)) /\
            ((forall cnt, ~ In (CoreSticky cnt true) (pre ++ ev)) ->
             host st' = host st)) st1).
    { intros st1 pre updated Hhost Hupd Hpre. wp_steps.
      apply wp_updateDecorations. cbn. intros c' ev _ Hev.
      destruct updated.
      - destruct (Hupd eq_refl) as [cnt Hcnt].
        assert (Hin : In (CoreSticky cnt true) pre) by done.
        apply wp_saveWorkspaceState; cbn.
        + intros h'. split.
          * intros _ _. exists cnt. apply in_or_app. by left.
          * intros Hno. destruct (Hno cnt). apply in_or_app. by left.
        + intros e. split.
          * intros _ _. exists cnt. apply in_or_app. by left.
          * intros Hno. destruct (Hno cnt). apply in_or_app. by left.
      - wp_step. split; [|done].
        intros snapshot Hs. rewrite app_nil_r in Hs.
        apply in_app_or in Hs as [Hs|Hs].
        + by apply Hpre in Hs.
        + by apply decorations_no_save in Hs. }
    destruct (active_file (controller st)) as [[i f]|].
    - destruct (_ <? _)%nat.
      + apply wp_call_sticky. intros updated c. cbn beta iota.
        eapply wp_conseq;
          [apply (Hrest _ [CoreSticky (activeEditorCountLine st) updated]
                        updated)|].
        * done.
        * intros ->. eexists. by left.
        * intros snapshot [|[]]. done.
        * cbn. intros r st' ev Hs. exact Hs.
      + apply wp_ret. cbn beta iota.
        eapply wp_conseq; [apply (Hrest _ [] false)|]; try done.
        * by intros ? [].
    - apply wp_ret. cbn beta iota.
      eapply wp_conseq; [apply (Hrest _ [] false)|]; try done.
      by intros ? []. }
  destruct Hquiet as [H1 H2]. split; [done|]. split; [done|].
  unfold onDidChangeTextDocument, bind, get. cbn.
  destruct (activeEditor st) as [ed|]; [|done].
  destruct (String.eqb_spec (fsPath (ev_document event))
                            (fsPath (document ed))); done.
Qed.

(** The decorations [updateDecorations] sets are the lines of the
    bookmarks of the active file that are not beyond the document's line
    count, in the order of the array, and none for a document that is a
    single empty line; it is one call of [setDecorations]. *)
Theorem updateDecorations_draws_the_lines_within st ed i f :
  activeEditor st = Some ed ->
  active_file (controller st) = Some (i, f) ->
  events (updateDecorations st)
  = [SetDecorations
       (if (lineCount (document ed) =? 1)
           && bool_decide (lineAt (document ed) 0 = Some "")
        then []
        else line <$> filter (fun b => line b <= lineCount (document ed))
                             (bookmarks f))].
Proof.
  intros Hed Hact. unfold updateDecorations, bind, get. cbn.
  rewrite Hed, Hact.
  destruct (Nat.eqb (length (bookmarks f)) 0) eqn:Hlen; cbn.
  - apply Nat.eqb_eq, nil_length_inv in Hlen. rewrite Hlen.
    by destruct (_ && _).
  - unfold decorate.
    destruct ((lineCount (document ed) =? 1)
              && bool_decide (lineAt (document ed) 0 = Some "")); cbn; [done|].
    pose proof (split_valid_books (lineCount (document ed)) (bookmarks f)) as Hb.
    destruct (split_valid _ _) as [books invalids]. cbn in *. by subst.
Qed.

Lemma set_bookmarks_twice i bks bks' c :
  set_bookmarks i bks (set_bookmarks i bks' c) = set_bookmarks i bks c.
Proof.
  unfold set_bookmarks. cbn. f_equal.
  generalize (fileList c). clear. intros l. revert i.
  induction l as [|f l IH]; intros [|i]; cbn; f_equal; auto.
Qed.

Lemma set_bookmarks_same i f c :
  file_at c i = Some f -> set_bookmarks i (bookmarks f) c = c.
Proof.
  unfold set_bookmarks, file_at. destruct c as [l a]. cbn. intros Hf. f_equal.
  revert i Hf. induction l as [|g l IH]; intros [|i] Hf; cbn in *;
    try done; f_equal; auto.
  injection Hf as ->. by destruct f.
Qed.

Lemma with_controller_same st : with_controller (controller st) st = st.
Proof. by destruct st. Qed.

Lemma updateDecorations_run_sorted st ed i f :
  activeEditor st = Some ed ->
  active_file (controller st) = Some (i, f) ->
  Sorted line_le (bookmarks f) ->
  updateDecorations st
  = mkRun (Ok tt)
          (with_controller
             (set_bookmarks i (kept_sorted (document ed) (bookmarks f))
                            (controller st)) st)
          [SetDecorations (line <$> kept_sorted (document ed) (bookmarks f))].
Proof.
  intros Hed Hact Hsorted. unfold updateDecorations, bind, get, kept_sorted.
  cbn. rewrite Hed, Hact.
  destruct (Nat.eqb (length (bookmarks f)) 0) eqn:Hlen; cbn.
  - apply Nat.eqb_eq, nil_length_inv in Hlen.
    assert (Hk : (if (lineCount (document ed) =? 1)
                     && bool_decide (lineAt (document ed) 0 = Some "")
                  then [] else filter (fun b => line b <= lineCount (document ed))
                                      (bookmarks f)) = bookmarks f).
    { rewrite Hlen. by destruct (_ && _). }
    rewrite Hk. apply active_file_Some in Hact as [_ Hf].
    rewrite (set_bookmarks_same _ _ _ Hf), with_controller_same.
    by rewrite Hlen.
  - unfold decorate.
    destruct ((lineCount (document ed) =? 1)
              && bool_decide (lineAt (document ed) 0 = Some "")); cbn; [done|].
    pose proof (split_valid_books (lineCount (document ed)) (bookmarks f)) as Hb.
    pose proof (split_valid_invalids (lineCount (document ed)) (bookmarks f))
      as Hi.
    destruct (split_valid _ _) as [books invalids]. cbn in *. subst.
    by rewrite remove_invalids_take, take_valid_sorted.
Qed.

Lemma kept_sorted_twice d bks :
  kept_sorted d (kept_sorted d bks) = kept_sorted d bks.
Proof.
  unfold kept_sorted. destruct (_ && _); [done|].
  apply filter_Forall_all, Forall_forall.
  by intros b [Hb _]%list_elem_of_filter.
Qed.

Lemma kept_sorted_Sorted d bks :
  Sorted line_le bks -> Sorted line_le (kept_sorted d bks).
Proof.
  intros Hs. unfold kept_sorted. destruct (_ && _); [constructor|].
  rewrite <- take_valid_sorted by done.
  eapply Sorted_line_le_prefix; [apply prefix_take|done].
Qed.

(** On bookmarks in ascending order of line a second decoration pass
    changes nothing: it leaves the state of the first and sets the same
    decorations. *)
Theorem updateDecorations_again st ed i f :
  activeEditor st = Some ed ->
  active_file (controller st) = Some (i, f) ->
  Sorted line_le (bookmarks f) ->
  updateDecorations (state_after (updateDecorations st))
  = mkRun (Ok tt) (state_after (updateDecorations st))
          (events (updateDecorations st)).
Proof.
  intros Hed Hact Hsorted.
  rewrite (updateDecorations_run_sorted st ed i f Hed Hact Hsorted).
  cbn [state_after events].
  set (K := kept_sorted (document ed) (bookmarks f)).
  rewrite (updateDecorations_run_sorted _ ed i (mkFile (path f) K)); cbn;
    [|done|by apply active_file_set_bookmarks|by apply kept_sorted_Sorted].
  subst K. rewrite kept_sorted_twice, set_bookmarks_twice. done.
Qed.

End Redraw.

Section Navigation.
Context `{Collaborators} `{Platform}.

Lemma wp_run_eq {A} (m : M A) st r0 st0 ev0 :
  wp m (fun r st' ev => r = r0 /\ st' = st0 /\ ev = ev0) st ->
  m st = mkRun r0 st0 ev0.
Proof. unfold wp. destruct (m st). cbn. by intros (-> & -> & ->). Qed.

(** Without an editor every command that works on the active document
    only says so: it shows its message, changes nothing and touches
    neither the core nor the storage. *)
Theorem commands_need_an_editor st input direction selection others :
  activeEditor st = None ->
  toggle st
    = mkRun (Ok tt) st
        [ShowInformationMessage "Open a file first to toggle bookmarks"] /\
  toggleLabeled input st
    = mkRun (Ok tt) st
        [ShowInformationMessage "Open a file first to toggle bookmarks"] /\
  clear st
    = mkRun (Ok tt) st
        [ShowInformationMessage "Open a file first to clear bookmarks"] /\
  jump direction st
    = mkRun (Ok tt) st
        [ShowInformationMessage "Open a file first to jump to bookmarks"] /\
  list_bookmarks st = ListingMessage "Open a file first to list bookmarks" /\
  selectLines st = Ok (Information "Open a file first to clear bookmarks") /\
  expandSelectionToNextBookmark direction selection st
    = Ok (Information "Open a file first to clear bookmarks") /\
  shrinkSelection selection others st
    = Ok (Information "Open a file first to shrink bookmark selection").
Proof.
  intros Hed. repeat split.
  - apply wp_run_eq. unfold toggle. wp_steps. rewrite Hed. by wp_steps.
  - apply wp_run_eq. unfold toggleLabeled. wp_steps. rewrite Hed. by wp_steps.
  - apply wp_run_eq. unfold clear. wp_steps. rewrite Hed. by wp_steps.
  - apply wp_run_eq.
    destruct direction; cbn [jump]; [unfold jumpToNext|unfold jumpToPrevious];
      wp_steps; rewrite Hed; by wp_steps.
  - unfold list_bookmarks. by rewrite Hed.
  - unfold selectLines. by rewrite Hed.
  - unfold expandSelectionToNextBookmark. by rewrite Hed.
  - unfold shrinkSelection. by rewrite Hed.
Qed.

(** When the search in the active file is exhausted and the next document
    with bookmarks is the active document itself, the jump wraps around in
    it: it reveals the file's first bookmark going forward and its last
    going backward, and moves the selection there. *)
Theorem jump_wraps_around_in_the_active_document dir st ed i f n b :
  activeEditor st = Some ed ->
  active_file (controller st) = Some (i, f) ->
  nextBookmark f (selection_active ed) dir = Resolved (inl n) ->
  n <> NO_BOOKMARKS_BEFORE -> n <> NO_BOOKMARKS_AFTER ->
  nextDocumentWithBookmarks (controller st) i dir
    = Resolved (inr (normalize (fsPath (document ed)))) ->
  pick_bookmark dir (bookmarks f) = Some b ->
  jump dir st
  = mkRun (Ok tt)
          (mkState (controller st) (activeEditorCountLine st) (timeout st)
                   (Some (mkEditor (document ed)
                                   (mkPosition (line b) (column b))))
                   (host st))
          [CoreNextBookmark dir; CoreNextDocumentWithBookmarks dir;
           Reveal (line b) (column b)].
Proof.
  intros Hed Hact Hnext Hb Ha Hdoc Hpick.
  rewrite (jump_unfold dir st ed i f Hed Hact). rewrite Hnext.
  apply Z.eqb_neq in Hb, Ha.
  apply wp_run_eq. wp_steps. unfold detached. wp_steps.
  unfold checkBookmarks. cbn [of_next strict_equals_number].
  rewrite Hb, Ha. cbn [orb]. wp_steps. cbn [negb].
  unfold jump_to_document. wp_steps. rewrite Hact. wp_steps. rewrite Hdoc.
  wp_steps. cbn [strict_equals_number]. wp_steps. rewrite Hed. wp_steps.
  cbn [document_toString]. rewrite String.eqb_refl.
  unfold reveal_in_active. wp_steps. rewrite Hact, Hpick.
  unfold revealPosition. wp_steps. rewrite Hed. wp_steps. done.
Qed.

Lemma keeps_bind {A B} P I (m : M A) (k : A -> M B) :
  keeps P I m -> (forall a, keeps P I (k a)) -> keeps P I (bind m k).
Proof.
  intros Hm Hk st HI. destruct (Hm st HI) as [Hev HI'].
  unfold bind. destruct (result (m st)); cbn; [|done].
  destruct (Hk a _ HI') as [Hev' HI'']. split; [|done].
  by apply Forall_app.
Qed.

Lemma keeps_try_catch {A} P I (m : M A) handler :
  keeps P I m -> (forall e, keeps P I (handler e)) ->
  keeps P I (try_catch m handler).
Proof.
  intros Hm Hk st HI. destruct (Hm st HI) as [Hev HI'].
  unfold try_catch. destruct (result (m st)); cbn; [done|].
  destruct (Hk e _ HI') as [Hev' HI'']. split; [|done].
  by apply Forall_app.
Qed.

Lemma keeps_ret {A} P I (a : A) : keeps P I (ret a).
Proof. by intros st. Qed.

Lemma keeps_throw {A} P I e : keeps P I (@throw A e).
Proof. by intros st. Qed.

Lemma keeps_get P I : keeps P I get.
Proof. by intros st. Qed.

Lemma keeps_emit (P : Event -> Prop) I e : P e -> keeps P I (emit e).
Proof. intros He st HI. split; [by repeat constructor|done]. Qed.

Lemma same_bookmarks_revealPosition st0 l c :
  keeps is_navigation (same_bookmarks st0) (revealPosition l c).
Proof.
  intros st HI. unfold revealPosition, bind, get. cbn.
  destruct (activeEditor st); cbn; [|done].
  split; [by repeat constructor|done].
Qed.

Lemma file_at_core_add uri c j f :
  file_at c j = Some f -> file_at (core_add uri c) j = Some f.
Proof.
  unfold core_add, file_at. destruct (fromUri uri c); [done|]. cbn.
  intros Hf. by apply lookup_app_l_Some.
Qed.

Lemma same_bookmarks_onDidOpenTextDocument st0 doc :
  keeps is_navigation (same_bookmarks st0) (onDidOpenTextDocument doc).
Proof.
  intros st [Hh Hf]. split; [constructor|]. split; [done|].
  intros j f Hj. cbn. by apply file_at_core_add, Hf.
Qed.

Lemma same_bookmarks_onDidChangeActiveTextEditor st0 editor :
  keeps is_navigation (same_bookmarks st0)
        (onDidChangeActiveTextEditor editor).
Proof.
  intros st [Hh Hf]. unfold onDidChangeActiveTextEditor, bind, get. cbn.
  destruct editor; cbn; done.
Qed.

Ltac keeps_step :=
  lazymatch goal with
  | |- keeps _ _ (bind _ _) => apply keeps_bind; [|intros ?]
  | |- keeps _ _ (try_catch _ _) => apply keeps_try_catch; [|intros ?]
  | |- keeps _ _ (detached _) => apply keeps_try_catch; [|intros ?]
  | |- keeps _ _ (ret _) => apply keeps_ret
  | |- keeps _ _ (throw _) => apply keeps_throw
  | |- keeps _ _ get => apply keeps_get
  | |- keeps _ _ (emit _) => apply keeps_emit; exact I
  | |- keeps _ _ (revealPosition _ _) => apply same_bookmarks_revealPosition
  | |- keeps _ _ (onDidOpenTextDocument _) =>
      apply same_bookmarks_onDidOpenTextDocument
  | |- keeps _ _ (onDidChangeActiveTextEditor _) =>
      apply same_bookmarks_onDidChangeActiveTextEditor
  | |- keeps _ _ (match ?x with _ => _ end) => destruct x
  | |- keeps _ _ (if ?x then _ else _) => destruct x
  end.

Lemma same_bookmarks_jump_to_document st0 dir pick :
  keeps is_navigation (same_bookmarks st0) (jump_to_document dir pick).
Proof.
  unfold jump_to_document, checkBookmarks, open_and_show, reveal_in_active.
  repeat keeps_step.
Qed.

(** The jump commands only navigate: all they tell the host or ask of
    the core is a message, a search, or to open, show and reveal; they
    leave the storage as it is and every file with its bookmarks. *)
Theorem jump_only_navigates dir st :
  Forall is_navigation (events (jump dir st)) /\
  same_bookmarks st (state_after (jump dir st)).
Proof.
  assert (Hk : keeps is_navigation (same_bookmarks st) (jump dir)).
  { destruct dir; cbn [jump]; [unfold jumpToNext|unfold jumpToPrevious];
      unfold checkBookmarks; repeat keeps_step;
      apply same_bookmarks_jump_to_document. }
  apply Hk. by split.
Qed.

End Navigation.

Section Relabel.
Context `{Collaborators}.

Lemma line_lt_StronglySorted bks :
  Sorted line_lt bks -> StronglySorted line_lt bks.
Proof.
  apply Sorted_StronglySorted. intros x y z. unfold line_lt. lia.
Qed.

Lemma indexOfBookmark_from_none i l bks :
  Forall (fun b => line b <> l) bks ->
  indexOfBookmark_from i (VNumber l) bks = -1.
Proof.
  intros Hall. revert i. induction Hall as [|e bks He _ IH]; intros i; cbn;
    [done|].
  destruct (Z.eqb_spec l (line e)); [congruence|apply IH].
Qed.

Lemma indexOfBookmark_from_strict i bks k b :
  StronglySorted line_lt bks -> bks !! k = Some b ->
  indexOfBookmark_from i (VNumber (line b)) bks = i + Z.of_nat k.
Proof.
  intros Hs. revert i k. induction Hs as [|e bks Hs IH Hall]; intros i k Hk;
    [done|].
  destruct k as [|k]; cbn in *.
  - injection Hk as ->. rewrite Z.eqb_refl. lia.
  - assert (Hlt : line e < line b).
    { rewrite Forall_forall in Hall. apply Hall.
      by eapply list_elem_of_lookup_2. }
    destruct (Z.eqb_spec (line b) (line e)); [lia|].
    rewrite (IH (i + 1) k Hk). lia.
Qed.

Lemma strict_delete_absent bks k b :
  StronglySorted line_lt bks -> bks !! k = Some b ->
  Forall (fun x => line x <> line b) (delete k bks).
Proof.
  intros Hs. revert k. induction Hs as [|e bks Hs IH Hall]; intros k Hk;
    [done|].
  destruct k as [|k]; cbn in *.
  - injection Hk as ->. eapply Forall_impl; [exact Hall|].
    unfold line_lt. cbn. lia.
  - constructor; [|by apply IH].
    rewrite Forall_forall in Hall.
    assert (line_lt e b) by (apply Hall; by eapply list_elem_of_lookup_2).
    unfold line_lt in *. lia.
Qed.

(** In an array in strictly ascending order, taking an entry out and
    inserting one with its line puts the new entry in its place. *)
Lemma sort_insert_delete bks k b nb :
  StronglySorted line_lt bks -> bks !! k = Some b -> line nb = line b ->
  sort_insert compare_by_line nb (delete k bks) = <[k:=nb]> bks.
Proof.
  intros Hs. revert k. induction Hs as [|e bks Hs IH Hall]; intros k Hk Hl;
    [done|].
  rewrite Forall_forall in Hall.
  destruct k as [|k]; cbn in *.
  - injection Hk as ->.
    destruct bks as [|y bks]; cbn; [done|].
    assert (Hy : line_lt b y) by (apply Hall; left).
    unfold line_lt in Hy.
    destruct (Z.leb_spec (compare_by_line nb y) 0) as [|Hgt]; [done|].
    apply Z.lt_nge in Hgt. destruct Hgt. apply compare_by_line_le. lia.
  - assert (Hlt : line_lt e b) by (apply Hall; by eapply list_elem_of_lookup_2).
    unfold line_lt in Hlt.
    destruct (Z.leb_spec (compare_by_line nb e) 0) as [Hle|_].
    + apply compare_by_line_le in Hle. lia.
    + f_equal. by apply IH.
Qed.

Lemma array_sort_sorted bks :
  Sorted line_le bks -> array_sort compare_by_line bks = bks.
Proof.
  induction 1 as [|x l Hs IH Hhd]; [done|].
  cbn. change (foldr (sort_insert compare_by_line) [] l)
    with (array_sort compare_by_line l). rewrite IH.
  destruct Hhd as [|y l' Hxy]; cbn; [done|].
  destruct (Z.leb_spec (compare_by_line x y) 0) as [|Hgt]; [done|].
  apply Z.lt_nge in Hgt. destruct Hgt. by apply compare_by_line_le.
Qed.

Lemma Sorted_line_le_lines (l1 l2 : list Bookmark) :
  line <$> l1 = line <$> l2 -> Sorted line_le l1 -> Sorted line_le l2.
Proof.
  revert l2. induction l1 as [|x l1 IH]; intros [|y l2] Hl Hs; try done.
  injection Hl as Hxy Hl. inversion Hs as [|? ? Hs' Hhd]; subst.
  constructor; [by apply IH|].
  destruct l1 as [|x' l1], l2 as [|y' l2]; try done; constructor.
  injection Hl as Hxy' _. inversion Hhd; subst. unfold line_le in *. lia.
Qed.

Lemma Sorted_line_le_insert bks k b nb :
  Sorted line_le bks -> bks !! k = Some b -> line nb = line b ->
  Sorted line_le (<[k:=nb]> bks).
Proof.
  intros Hs Hk Hl. apply (Sorted_line_le_lines bks); [|done].
  rewrite list_fmap_insert. symmetry. apply list_insert_id.
  by rewrite list_lookup_fmap, Hk, Hl.
Qed.

Lemma line_lt_le bks : Sorted line_lt bks -> Sorted line_le bks.
Proof.
  induction 1 as [|x l Hs IH Hhd]; constructor; [done|].
  destruct Hhd; constructor. unfold line_lt, line_le in *. lia.
Qed.

(** [bookmarks.editLabel] on a file whose bookmarks are in strictly
    ascending order replaces the bookmark in place: it removes the entry
    at the line and adds one with the new label at the position the
    command was given, and what it then saves has that file's array with
    the new bookmark at the index of the old one and the others as they
    were.  An empty label is taken when the old label was not empty. *)
Theorem editLabel_replaces_in_place a0 a1 a2 newLabel st bi book k b :
  fromUri a0 (controller st) = Some bi ->
  file_at (controller st) bi = Some book ->
  Sorted line_lt (bookmarks book) ->
  bookmarks book !! k = Some b ->
  line b = a1 - 1 ->
  (newLabel = "" -> label b <> "") ->
  let r := editLabel a0 a1 a2 (Some newLabel) st in
  result r = Ok tt ->
  exists snapshot decorations,
    events r = CoreRemoveBookmark bi (Z.of_nat k)
               :: CoreAddBookmark bi (a1 - 1)
               :: SaveWorkspaceState snapshot :: decorations /\
    Forall is_SetDecorations decorations /\
    snapshot !! bi
    = Some (mkFile (path book)
              (<[k := mkBookmark (a1 - 1) (a2 - 1) newLabel]> (bookmarks book))).
Proof.
  intros Hfrom Hfile Hsorted Hk Hline Hlabel r.
  pose proof (line_lt_StronglySorted _ Hsorted) as Hstrong.
  set (nb := mkBookmark (a1 - 1) (a2 - 1) newLabel).
  enough (wp (editLabel a0 a1 a2 (Some newLabel))
            (fun res _ ev =>
               res = Ok tt ->
               exists snapshot decorations,
                 ev = CoreRemoveBookmark bi (Z.of_nat k)
                      :: CoreAddBookmark bi (a1 - 1)
                      :: SaveWorkspaceState snapshot :: decorations /\
                 Forall is_SetDecorations decorations /\
                 snapshot !! bi
                 = Some (mkFile (path book) (<[k := nb]> (bookmarks book))))
            st) by done.
  assert (Hindex : indexOfBookmark (VNumber (a1 - 1)) (bookmarks book)
                   = Z.of_nat k).
  { unfold indexOfBookmark. rewrite <- Hline.
    by rewrite (indexOfBookmark_from_strict 0 _ k b). }
  assert (Htail : forall st2 bks2,
    book_or_active (Some bi) (controller st2)
      = Some (bi, mkFile (path book) bks2) ->
    Sorted line_le bks2 ->
    wp (let* st0 := get in
        match book_or_active (Some bi) (controller st0) with
        | Some (b, _) =>
            let* _ := set_controller (sort_bookmarks b (controller st0)) in
            let* _ := saveWorkspaceState in updateDecorations
        | None => throw (TypeError "b is undefined")
        end)
       (fun res _ ev =>
          res = Ok tt ->
          exists snapshot decorations,
            ev = SaveWorkspaceState snapshot :: decorations /\
            Forall is_SetDecorations decorations /\
            snapshot !! bi = Some (mkFile (path book) bks2))
       st2).
  { intros st2 bks2 Hb2 Hs2. wp_step. wp_step. rewrite Hb2.
    apply (wp_sort_save_update (Some bi) bi (mkFile (path book) bks2));
      [done|done|].
    intros c' h' ev _ Hev _. cbn.
    eexists _, ev. split; [done|]. split; [done|].
    pose proof (book_or_active_Some _ _ _ _ Hb2) as Hf2.
    pose proof (sort_bookmarks_file_at _ _ _ Hf2) as Hsort.
    cbn [bookmarks path] in Hsort.
    by rewrite array_sort_sorted in Hsort. }
  unfold editLabel. wp_steps. rewrite Hfrom, Hfile, Hindex.
  destruct (Z.ltb_spec (Z.of_nat k) 0); [lia|]. rewrite Nat2Z.id, Hk.
  unfold askForBookmarkLabel.
  assert (String.eqb newLabel ""
          && (bool_decide (Some (label b) = Some "") || false) = false) as ->.
  { destruct (String.eqb_spec newLabel "") as [->|]; [|done]. cbn.
    rewrite orb_false_r. apply bool_decide_eq_false_2.
    intros [= Hl]. by apply Hlabel. }
  destruct (Z.leb_spec 0 (Z.of_nat k)); [|lia]. wp_step.
  assert (Hbook : book_or_active (Some bi) (controller st) = Some (bi, book)).
  { unfold book_or_active. by rewrite Hfile. }
  apply wp_removeBookmark; [by rewrite Hbook|by intros ? ? ? ?|].
  intros i' f'. rewrite Hbook. intros [= <- <-] _. cbn beta iota. wp_step.
  rewrite Nat2Z.id.
  set (c1 := set_bookmarks bi (delete k (bookmarks book)) (controller st)).
  assert (Hbook1 : book_or_active (Some bi) c1
                   = Some (bi, mkFile (path book) (delete k (bookmarks book)))).
  { by apply book_or_active_set_bookmarks. }
  apply wp_addBookmark; cbn [controller with_controller pos_line character];
    [by rewrite Hbook1|by intros ? ? ? ?|].
  intros i' f'. rewrite Hbook1. intros [= <- <-] _. cbn beta iota.
  cbn [bookmarks default]. unfold id. fold nb.
  rewrite (sort_insert_delete _ k b nb Hstrong Hk) by (by rewrite Hline).
  wp_step. wp_step. cbn beta iota.
  eapply wp_conseq.
  - apply (Htail _ (<[k:=nb]> (bookmarks book))).
    + cbn [controller with_controller].
      apply (book_or_active_set_bookmarks (Some bi) c1 bi _ _ Hbook1).
    + eapply Sorted_line_le_insert; [by apply line_lt_le|done|by rewrite Hline].
  - cbn. intros res _ ev Hres Hok.
    destruct (Hres Hok) as (snapshot & decorations & -> & Hd & Hs).
    by exists snapshot, decorations.
Qed.

End Relabel.

Section ToggleTwice.
Context `{Collaborators}.

Lemma sort_insert_index i nb bks :
  Forall (fun x => line x <> line nb) bks ->
  exists p,
    indexOfBookmark_from i (VNumber (line nb))
                         (sort_insert compare_by_line nb bks)
    = i + Z.of_nat p /\
    (p < length (sort_insert compare_by_line nb bks))%nat /\
    delete p (sort_insert compare_by_line nb bks) = bks.
Proof.
  intros Hall. revert i. induction Hall as [|y bks Hy _ IH]; intros i; cbn.
  - exists 0%nat. rewrite Z.eqb_refl. cbn. split; [lia|]. split; [lia|done].
  - destruct (compare_by_line nb y <=? 0); cbn.
    + exists 0%nat. rewrite Z.eqb_refl. cbn. split; [lia|]. split; [lia|done].
    + destruct (Z.eqb_spec (line nb) (line y)); [congruence|].
      destruct (IH (i + 1)) as (p & Hp & Hlen & Hdel).
      exists (S p). rewrite Hp. split; [lia|]. split; [cbn; lia|].
      change (y :: delete p (sort_insert compare_by_line nb bks) = y :: bks).
      by rewrite Hdel.
Qed.

Lemma kept_sorted_all d bks :
  ~ (lineCount d = 1 /\ lineAt d 0 = Some "") ->
  Forall (fun b => line b <= lineCount d) bks ->
  kept_sorted d bks = bks.
Proof.
  intros Hnot Hall. unfold kept_sorted.
  destruct (Z.eqb_spec (lineCount d) 1) as [H1|H1]; cbn.
  - rewrite bool_decide_eq_false_2 by tauto. by apply filter_Forall_all.
  - by apply filter_Forall_all.
Qed.

(** The steps [toggle] ends with change no bookmark of an array that is
    in order and within the document. *)
Lemma wp_sort_save_update_same i f st ed :
  activeEditor st = Some ed ->
  active_file (controller st) = Some (i, f) ->
  Sorted line_le (bookmarks f) ->
  Forall (fun b => line b <= lineCount (document ed)) (bookmarks f) ->
  ~ (lineCount (document ed) = 1 /\ lineAt (document ed) 0 = Some "") ->
  wp (let* _ := set_controller (sort_bookmarks i (controller st)) in
      let* _ := saveWorkspaceState in
      updateDecorations)
     (fun _ st' _ =>
        controller st' = controller st /\ activeEditor st' = Some ed) st.
Proof.
  intros Hed Hact Hsorted Hvalid Hnot.
  pose proof (active_file_Some _ _ _ Hact) as [_ Hf].
  assert (Hsort : sort_bookmarks i (controller st) = controller st).
  { unfold sort_bookmarks. rewrite Hf, array_sort_sorted by done.
    by apply set_bookmarks_same. }
  rewrite Hsort. wp_steps.
  apply wp_saveWorkspaceState; cbn beta iota.
  - intros h'. eapply wp_run.
    + apply (updateDecorations_run_sorted _ ed i f); done.
    + cbn. rewrite kept_sorted_all by done.
      by rewrite (set_bookmarks_same _ _ _ Hf).
  - intros e. cbn. split; [done|]. by destruct st.
Qed.

Lemma toggle_adds st ed i f :
  activeEditor st = Some ed ->
  active_file (controller st) = Some (i, f) ->
  let position := selection_active ed in
  let nb := mkBookmark (pos_line position) (character position) "" in
  pos_line position ∉ line <$> bookmarks f ->
  Sorted line_le (bookmarks f) ->
  Forall (fun b => line b <= lineCount (document ed)) (bookmarks f) ->
  pos_line position <= lineCount (document ed) ->
  ~ (lineCount (document ed) = 1 /\ lineAt (document ed) 0 = Some "") ->
  controller (state_after (toggle st))
  = set_bookmarks i (sort_insert compare_by_line nb (bookmarks f))
                  (controller st) /\
  activeEditor (state_after (toggle st)) = Some ed.
Proof.
  intros Hed Hact position nb Habsent Hsorted Hvalid Hcursor Hnot.
  enough (wp toggle
            (fun _ st' _ =>
               controller st'
               = set_bookmarks i (sort_insert compare_by_line nb (bookmarks f))
                               (controller st) /\
               activeEditor st' = Some ed) st) by done.
  unfold toggle. wp_steps. rewrite Hed. wp_step.
  unfold ensure_activeBookmark. wp_steps. rewrite Hact. wp_steps.
  rewrite Hact. fold position.
  assert (Hidx : indexOfBookmark (VNumber (pos_line position)) (bookmarks f) < 0).
  { unfold indexOfBookmark. rewrite indexOfBookmark_from_none; [lia|].
    apply Forall_forall. intros b Hb Hl. apply Habsent.
    apply list_elem_of_fmap. by exists b. }
  destruct (Z.ltb_spec (indexOfBookmark (VNumber (pos_line position))
                                        (bookmarks f)) 0); [|lia].
  wp_step. wp_step.
  apply wp_addBookmark; unfold book_or_active; rewrite Hact;
    [done|intros ? ? [= <- <-]; lia|].
  intros i' f' [= <- <-] _. cbn beta iota.
  apply wp_show_active_document; cbn [activeEditor with_controller];
    [by rewrite Hed|].
  intros ed' Hed'. cbn beta iota. wp_step. wp_step. cbn beta iota.
  cbn [default]. unfold id. fold nb.
  set (c1 := set_bookmarks i (sort_insert compare_by_line nb (bookmarks f))
                           (controller st)).
  eapply wp_conseq.
  - apply (wp_sort_save_update_same i
             (mkFile (path f) (sort_insert compare_by_line nb (bookmarks f)))
             _ ed); cbn [activeEditor controller with_controller bookmarks];
      [done|by apply active_file_set_bookmarks| | |done].
    + by apply sort_insert_Sorted.
    + rewrite sort_insert_Permutation. by constructor.
  - cbn. intros _ st' _ [-> ->]. done.
Qed.

Lemma toggle_removes st ed i f p :
  activeEditor st = Some ed ->
  active_file (controller st) = Some (i, f) ->
  indexOfBookmark (VNumber (pos_line (selection_active ed))) (bookmarks f)
    = Z.of_nat p ->
  (p < length (bookmarks f))%nat ->
  Sorted line_le (delete p (bookmarks f)) ->
  Forall (fun b => line b <= lineCount (document ed))
         (delete p (bookmarks f)) ->
  ~ (lineCount (document ed) = 1 /\ lineAt (document ed) 0 = Some "") ->
  controller (state_after (toggle st))
  = set_bookmarks i (delete p (bookmarks f)) (controller st).
Proof.
  intros Hed Hact Hidx Hp Hsorted Hvalid Hnot.
  enough (wp toggle
            (fun _ st' _ =>
               controller st'
               = set_bookmarks i (delete p (bookmarks f)) (controller st))
            st) by done.
  unfold toggle. wp_steps. rewrite Hed. wp_step.
  unfold ensure_activeBookmark. wp_steps. rewrite Hact. wp_steps.
  rewrite Hact, Hidx.
  destruct (Z.ltb_spec (Z.of_nat p) 0); [lia|].
  wp_step.
  apply wp_removeBookmark; unfold book_or_active; rewrite Hact;
    [done|intros ? ? [= <- <-]; lia|].
  intros i' f' [= <- <-] _. cbn beta iota. rewrite Nat2Z.id.
  wp_step. wp_step. cbn beta iota.
  eapply wp_conseq.
  - apply (wp_sort_save_update_same i
             (mkFile (path f) (delete p (bookmarks f))) _ ed);
      cbn [activeEditor controller with_controller bookmarks];
      [done|by apply active_file_set_bookmarks|done..].
  - cbn. by intros _ st' _ [-> _].
Qed.

(** Toggling twice at the same cursor, on a line that has no bookmark,
    restores the store: the first toggle adds a bookmark at the cursor
    and the second removes it again.  The bookmarks of the file are in
    ascending order and within the document, which is not a single empty
    line. *)
Theorem toggle_twice_restores st ed i f :
  activeEditor st = Some ed ->
  active_file (controller st) = Some (i, f) ->
  pos_line (selection_active ed) ∉ line <$> bookmarks f ->
  Sorted line_le (bookmarks f) ->
  Forall (fun b => line b <= lineCount (document ed)) (bookmarks f) ->
  pos_line (selection_active ed) <= lineCount (document ed) ->
  ~ (lineCount (document ed) = 1 /\ lineAt (document ed) 0 = Some "") ->
  let st1 := state_after (toggle st) in
  (exists f1 b,
     active_file (controller st1) = Some (i, f1) /\
     b ∈ bookmarks f1 /\
     line b = pos_line (selection_active ed) /\
     column b = character (selection_active ed) /\ label b = "") /\
  controller (state_after (toggle st1)) = controller st.
Proof.
  intros Hed Hact Habsent Hsorted Hvalid Hcursor Hnot st1.
  set (nb := mkBookmark (pos_line (selection_active ed))
                        (character (selection_active ed)) "").
  destruct (toggle_adds st ed i f Hed Hact Habsent Hsorted Hvalid Hcursor Hnot)
    as [Hc1 Hed1].
  fold st1 nb in Hc1, Hed1.
  assert (Hact1 : active_file (controller st1)
                  = Some (i, mkFile (path f)
                               (sort_insert compare_by_line nb (bookmarks f)))).
  { rewrite Hc1. by apply active_file_set_bookmarks. }
  split.
  { exists (mkFile (path f) (sort_insert compare_by_line nb (bookmarks f))), nb.
    split; [done|]. split; [|done]. cbn.
    rewrite sort_insert_Permutation. by left. }
  assert (Hne : Forall (fun x => line x <> line nb) (bookmarks f)).
  { apply Forall_forall. intros b Hb Hl. apply Habsent.
    apply list_elem_of_fmap. by exists b. }
  destruct (sort_insert_index 0 nb (bookmarks f) Hne) as (p & Hp & Hlen & Hdel).
  rewrite (toggle_removes st1 ed i _ p Hed1 Hact1); cbn [bookmarks].
  - rewrite Hdel, Hc1, set_bookmarks_twice.
    apply active_file_Some in Hact as [_ Hf]. by apply set_bookmarks_same.
  - unfold indexOfBookmark. rewrite Z.add_0_l in Hp. exact Hp.
  - done.
  - by rewrite Hdel.
  - by rewrite Hdel.
  - done.
Qed.

End ToggleTwice.

(** ** Toggle *)

Section Toggle.
Context `{Collaborators}.

Lemma NoDup_lines_delete_absent (bks : list Bookmark) k b :
  NoDup (line <$> bks) -> bks !! k = Some b ->
  line b ∉ line <$> delete k bks.
Proof.
  intros Hn Hk.
  rewrite <- (take_drop_middle bks k b Hk) in Hn.
  rewrite fmap_app, fmap_cons in Hn.
  apply NoDup_app in Hn as (_ & Hdisj & Hn2).
  apply NoDup_cons in Hn2 as [Hnotin _].
  rewrite delete_take_drop, fmap_app. intros [Hin|Hin]%elem_of_app.
  - apply (Hdisj _ Hin). by left.
  - done.
Qed.

Lemma kept_sorted_subseteq d bks b : b ∈ kept_sorted d bks -> b ∈ bks.
Proof.
  unfold kept_sorted. destruct (_ && _); [by intros ?%elem_of_nil|].
  by intros [_ ?]%list_elem_of_filter.
Qed.

Lemma kept_sorted_NoDup d bks :
  NoDup (line <$> bks) -> NoDup (line <$> kept_sorted d bks).
Proof.
  intros Hn. unfold kept_sorted. destruct (_ && _); [constructor|].
  apply (sublist_NoDup _ (line <$> bks)); [done|].
  apply fmap_sublist, sublist_filter.
Qed.

Lemma kept_sorted_keeps d bks b :
  ~ (lineCount d = 1 /\ lineAt d 0 = Some "") ->
  line b <= lineCount d -> b ∈ bks -> b ∈ kept_sorted d bks.
Proof.
  intros Hnot Hl Hb. unfold kept_sorted.
  destruct (Z.eqb_spec (lineCount d) 1) as [H1|H1]; cbn.
  - rewrite bool_decide_eq_false_2 by tauto. by apply list_elem_of_filter.
  - by apply list_elem_of_filter.
Qed.

(** The steps [toggle] ends with, on the file [i] of the editor [ed]. *)
Lemma wp_toggle_tail ed i f bks st pre :
  activeEditor st = Some ed ->
  active_file (controller st) = Some (i, mkFile (path f) bks) ->
  wp (let* st0 := get in
      let* _ := set_controller (sort_bookmarks i (controller st0)) in
      let* _ := saveWorkspaceState in
      updateDecorations)
     (fun r st' ev =>
        List.filter is_mutation (pre ++ ev)%list
        = List.filter is_mutation pre /\
        toggled_to ed i f bks (mkRun r st' (pre ++ ev)%list)) st.
Proof.
  intros Hed Hact.
  pose proof (active_file_Some _ _ _ Hact) as [Hi Hf].
  set (sorted := array_sort compare_by_line bks).
  assert (Hsort : sort_bookmarks i (controller st)
                  = set_bookmarks i sorted (controller st)).
  { unfold sort_bookmarks. by rewrite Hf. }
  wp_step. wp_step. rewrite Hsort. wp_steps.
  apply wp_saveWorkspaceState; cbn beta iota.
  - intros h'. eapply wp_run.
    + apply (updateDecorations_run_sorted _ ed i (mkFile (path f) sorted)).
      * done.
      * cbn. by apply (active_file_set_bookmarks _ _ _ _ Hact).
      * apply array_sort_Sorted.
    + cbn [result state_after events bookmarks path controller
           with_controller]. split.
      * rewrite List.filter_app. cbn. by rewrite List.app_nil_r.
      * unfold toggled_to. cbn [result state_after events]. fold sorted. split.
        -- exists pre, (fileList (set_bookmarks i sorted (controller st))).
           split; [done|].
           by apply (file_at_set_bookmarks _ _ _ _ Hf).
        -- cbn [controller]. rewrite set_bookmarks_twice.
           by apply (file_at_set_bookmarks _ _ _ _ Hf).
  - intros e. cbn. split; [by rewrite List.app_nil_r|].
    unfold toggled_to. cbn.
    by apply (file_at_set_bookmarks _ _ _ _ Hf).
Qed.

(** C5: [toggle] removes the bookmark at the cursor's line when
    [indexOfBookmark] finds one (its index is not negative, and the entry
    at it is at that line) and adds one at the cursor otherwise, so it
    calls [addBookmark] only for a line that has no bookmark.  In both
    cases the file it saves and the file it ends with hold the result:
    without the entry at the index, and, when no two bookmarks shared a
    line, with no bookmark at the cursor's line; or with the new bookmark,
    which has the cursor's line and column and an empty label, and which
    the redraw keeps when the cursor's line is within the document and the
    document is not a single empty line.  When no two bookmarks of the
    set share a line before, none do after.  The set is the one that is
    active once [toggle] has made sure there is one. *)
Theorem toggle_removes_or_adds st ed i f :
  activeEditor st = Some ed ->
  active_file (controller (state_after (ensure_activeBookmark ed st)))
    = Some (i, f) ->
  let l := pos_line (selection_active ed) in
  let index := indexOfBookmark (VNumber l) (bookmarks f) in
  let nb := mkBookmark l (character (selection_active ed)) "" in
  let r := toggle st in
  (0 <= index ->
     (exists b, bookmarks f !! Z.to_nat index = Some b /\ line b = l) /\
     List.filter is_mutation (events r) = [CoreRemoveBookmark i index] /\
     toggled_to ed i f (delete (Z.to_nat index) (bookmarks f)) r /\
     (NoDup (line <$> bookmarks f) ->
      forall f', file_at (controller (state_after r)) i = Some f' ->
                 l ∉ line <$> bookmarks f'))
  /\ (index < 0 ->
     (l ∉ (line <$> bookmarks f)) /\
     List.filter is_mutation (events r) = [CoreAddBookmark i l] /\
     toggled_to ed i f (sort_insert compare_by_line nb (bookmarks f)) r /\
     (l <= lineCount (document ed) ->
      ~ (lineCount (document ed) = 1 /\ lineAt (document ed) 0 = Some "") ->
      exists f', file_at (controller (state_after r)) i = Some f' /\
                 nb ∈ bookmarks f'))
  /\ (NoDup (line <$> bookmarks f) ->
      forall f', file_at (controller (state_after r)) i = Some f' ->
                 NoDup (line <$> bookmarks f')).
Proof.
  intros Hed Hact l index nb r.
  (* what the final file is, from [toggled_to] *)
  assert (Hfinal : forall bks,
    toggled_to ed i f bks r ->
    forall f', file_at (controller (state_after r)) i = Some f' ->
    (forall b, b ∈ bookmarks f' -> b ∈ bks) /\
    (NoDup (line <$> bks) -> NoDup (line <$> bookmarks f')) /\
    (forall b, b ∈ bks -> line b <= lineCount (document ed) ->
       ~ (lineCount (document ed) = 1 /\ lineAt (document ed) 0 = Some "") ->
       b ∈ bookmarks f')).
  { intros bks Ht f' Hf'. unfold toggled_to in Ht.
    destruct (result r); [destruct Ht as [_ Ht]|];
      rewrite Ht in Hf'; injection Hf' as <-; cbn [bookmarks].
    - split; [|split].
      + intros b Hb%kept_sorted_subseteq.
        by rewrite array_sort_Permutation in Hb.
      + intros Hn. apply kept_sorted_NoDup.
        by rewrite array_sort_Permutation.
      + intros b Hb Hl Hnot. apply kept_sorted_keeps; [done|done|].
        by rewrite array_sort_Permutation.
    - split; [|split].
      + intros b Hb. by rewrite array_sort_Permutation in Hb.
      + intros Hn. by rewrite array_sort_Permutation.
      + intros b Hb _ _. by rewrite array_sort_Permutation. }
  enough (Hrun :
    (0 <= index ->
       List.filter is_mutation (events r) = [CoreRemoveBookmark i index] /\
       toggled_to ed i f (delete (Z.to_nat index) (bookmarks f)) r) /\
    (index < 0 ->
       List.filter is_mutation (events r) = [CoreAddBookmark i l] /\
       toggled_to ed i f (sort_insert compare_by_line nb (bookmarks f)) r)).
  { destruct Hrun as [Hremove Hadd]. split; [|split].
    - intros Hpos. destruct (Hremove Hpos) as [Hev Ht].
      destruct (indexOfBookmark_found _ _ Hpos) as (b & Hb & Hl).
      fold index in Hb. split; [by exists b|]. split; [done|]. split; [done|].
      intros Hn f' Hf'. destruct (Hfinal _ Ht f' Hf') as (Hsub & _ & _).
      intros (x & Hx & Hin)%list_elem_of_fmap.
      apply Hsub in Hin.
      apply (NoDup_lines_delete_absent _ _ _ Hn Hb).
      apply list_elem_of_fmap. exists x. split; [|done]. congruence.
    - intros Hneg. destruct (Hadd Hneg) as [Hev Ht].
      split; [by apply indexOfBookmark_absent|]. split; [done|].
      split; [done|]. intros Hl Hnot.
      unfold toggled_to in Ht.
      assert (Hin : nb ∈ sort_insert compare_by_line nb (bookmarks f)).
      { rewrite sort_insert_Permutation. by left. }
      destruct (result r) eqn:Hr; [destruct Ht as [_ Ht]|]; eexists;
        (split; [exact Ht|]); cbn [bookmarks].
      + apply kept_sorted_keeps; [done|done|].
        by rewrite array_sort_Permutation.
      + by rewrite array_sort_Permutation.
    - intros Hn f' Hf'.
      destruct (Z.lt_ge_cases index 0) as [Hneg|Hpos].
      + destruct (Hadd Hneg) as [_ Ht].
        destruct (Hfinal _ Ht f' Hf') as (_ & Hnd & _). apply Hnd.
        apply NoDup_lines_sort_insert; [|done].
        by apply indexOfBookmark_absent.
      + destruct (Hremove Hpos) as [_ Ht].
        destruct (Hfinal _ Ht f' Hf') as (_ & Hnd & _). apply Hnd.
        by apply NoDup_lines_delete. }
  clear Hfinal. subst r.
  change (wp toggle (fun r st' ev =>
    (0 <= index ->
       List.filter is_mutation ev = [CoreRemoveBookmark i index] /\
       toggled_to ed i f (delete (Z.to_nat index) (bookmarks f))
                  (mkRun r st' ev)) /\
    (index < 0 ->
       List.filter is_mutation ev = [CoreAddBookmark i l] /\
       toggled_to ed i f (sort_insert compare_by_line nb (bookmarks f))
                  (mkRun r st' ev))) st).
  unfold toggle. wp_steps. rewrite Hed. wp_steps.
  unfold wp at 1.
  destruct (ensure_activeBookmark_run ed st) as (-> & -> & Hed1).
  rewrite Hed in Hed1.
  set (st1 := state_after (ensure_activeBookmark ed st)) in *.
  clearbody st1.
  wp_steps. rewrite Hact. wp_steps. fold l. fold index.
  destruct (Z.ltb_spec index 0) as [Hneg|Hpos].
  - wp_step. apply wp_addBookmark.
    { intros Hnone. unfold book_or_active in Hnone.
      by rewrite Hact in Hnone. }
    { intros i' f' Hb Hdup. unfold book_or_active in Hb. rewrite Hact in Hb.
      injection Hb as <- <-. fold l index in Hdup. lia. }
    intros i' f' Hb _. unfold book_or_active in Hb. rewrite Hact in Hb.
    injection Hb as <- <-.
    apply wp_show_active_document.
    { cbn. by rewrite Hed1. }
    intros ed' Hed'. cbn [default]. unfold id. fold l nb.
    eapply wp_conseq.
    + eapply (wp_toggle_tail ed i f _ _
                [CoreAddBookmark i l;
                 ShowTextDocument (fsPath (document ed'))]).
      * done.
      * cbn. by apply active_file_set_bookmarks.
    + cbn. intros r st' ev [Hev Ht]. split; [lia|]. intros _.
      split; [exact Hev|exact Ht].
  - apply wp_removeBookmark.
    { intros Hnone. unfold book_or_active in Hnone.
      by rewrite Hact in Hnone. }
    { intros i' f' Hf Hout. unfold book_or_active in Hf. rewrite Hact in Hf.
      injection Hf as <- <-.
      destruct (indexOfBookmark_found _ _ Hpos) as (b & Hb & _).
      fold index in Hb. apply lookup_lt_Some in Hb. lia. }
    intros i' f' Hf _. unfold book_or_active in Hf. rewrite Hact in Hf.
    injection Hf as <- <-.
    eapply wp_conseq.
    + eapply (wp_toggle_tail ed i f _ _ [CoreRemoveBookmark i index]).
      * done.
      * cbn. by apply active_file_set_bookmarks.
    + cbn. intros r st' ev [Hev Ht]. split; [|lia]. intros _.
      split; [exact Hev|exact Ht].
Qed.

End Toggle.

Section Launch.
Context `{Collaborators}.

(** Activation with nothing persisted in the workspace state: the store
    is fresh, and with an active editor it gets the editor's document as
    its only file, without bookmarks, which is the active file; the line
    count is the document's and a redraw is pending.  Without an editor
    the store stays empty.  The one message activation shows is the error
    for a gutter icon that is configured and is not a file; with no icon
    configured, or one that exists, it shows nothing. *)
Theorem activate_registers_the_active_document h :
  canSaveBookmarksInProject h = false ->
  workspaceState h = None ->
  let shown :=
    if String.eqb (gutterIconPath h) "" then []
    else match fs_files h !! gutterIconPath h with
         | Some _ => []
         | None =>
             [ShowErrorMessage (icon_missing_message (gutterIconPath h))]
         end in
  (forall e,
     activate (Some e) (initial_state h)
     = mkRun (Ok tt)
         (mkState
            (mkController [mkFile (normalize (fsPath (document e))) []]
                          (Some 0%nat))
            (Some (lineCount (document e))) true (Some e) h)
         shown) /\
  activate None (initial_state h) = mkRun (Ok tt) (initial_state h) shown.
Proof.
  intros Hcan Hws shown.
  assert (Hload : loadWorkspaceState (initial_state h)
                  = mkRun (Ok false) (initial_state h) []).
  { unfold loadWorkspaceState, bind, get. cbn. rewrite Hcan. cbn.
    by rewrite Hws. }
  assert (Hicon : createTextEditorDecoration (initial_state h)
                  = mkRun (Ok tt) (initial_state h) shown).
  { subst shown. unfold createTextEditorDecoration, bind, get. cbn.
    destruct (String.eqb (gutterIconPath h) ""); cbn; [done|].
    by destruct (fs_files h !! gutterIconPath h). }
  split.
  - intros e. apply wp_run_eq. unfold activate. wp_step.
    eapply wp_run; [exact Hload|]. cbn [result state_after events].
    wp_step. eapply wp_run; [exact Hicon|]. cbn [result state_after events].
    wp_steps. cbn [negb]. wp_steps.
    unfold triggerUpdateDecorations. wp_steps. cbn.
    unfold core_add, fromUri. cbn. rewrite String.eqb_refl.
    by rewrite app_nil_r.
  - apply wp_run_eq. unfold activate. wp_step.
    eapply wp_run; [exact Hload|]. cbn [result state_after events].
    wp_step. eapply wp_run; [exact Hicon|]. cbn [result state_after events].
    wp_steps. by rewrite app_nil_r.
Qed.

(** [bookmarks.toggleLabeled] needs a label: when the input box is
    dismissed nothing happens, and an empty label for a line without a
    bookmark, or with a bookmark whose label is empty, only shows the
    warning; no bookmark changes and nothing is saved. *)
Theorem toggleLabeled_needs_a_label st ed i f :
  activeEditor st = Some ed ->
  active_file (controller st) = Some (i, f) ->
  let index :=
    indexOfBookmark (VNumber (pos_line (selection_active ed))) (bookmarks f) in
  toggleLabeled None st = mkRun (Ok tt) st [] /\
  (index < 0 \/
   (exists b, bookmarks f !! Z.to_nat index = Some b /\ label b = "") ->
   toggleLabeled (Some "") st
   = mkRun (Ok tt) st
       [ShowWarningMessage "You must define a label for the bookmark."]).
Proof.
  intros Hed Hact.
  pose proof (indexOfBookmark_found (pos_line (selection_active ed))
                                    (bookmarks f)) as Hfound.
  cbv zeta.
  set (index := indexOfBookmark (VNumber (pos_line (selection_active ed)))
                                (bookmarks f)) in *.
  split.
  - apply wp_run_eq. unfold toggleLabeled. wp_steps. rewrite Hed. wp_step.
    unfold ensure_activeBookmark. wp_steps. rewrite Hact. wp_steps.
    rewrite Hact. fold index.
    destruct (Z.ltb_spec index 0) as [|Hpos].
    + unfold askForBookmarkLabel. by wp_steps.
    + destruct (Hfound Hpos) as (b & -> & _).
      unfold askForBookmarkLabel. by wp_steps.
  - intros Hcase.
    apply wp_run_eq. unfold toggleLabeled. wp_steps. rewrite Hed. wp_step.
    unfold ensure_activeBookmark. wp_steps. rewrite Hact. wp_steps.
    rewrite Hact. fold index.
    destruct (Z.ltb_spec index 0) as [|Hpos].
    + unfold askForBookmarkLabel. cbn. by wp_steps.
    + destruct Hcase as [|(b & Hb & Hl)]; [lia|].
      rewrite Hb, Hl.
      unfold askForBookmarkLabel. cbn. by wp_steps.
Qed.

End Launch.

Section Removing.
Context `{Collaborators}.

Ltac save_then_redraw :=
  wp_steps; apply wp_saveWorkspaceState; cbn beta iota;
  [ intros ?h; apply wp_updateDecorations; cbn beta iota;
    intros ?c ?ev ?Hp ?Hev
  | intros ?e ].

(** [bookmarks.deleteBookmark] takes the line as the views show it,
    counted from one: on a file whose bookmarks are in strictly ascending
    order it removes the bookmark of that line and saves a snapshot in
    which the file's array is the old one without that entry. *)
Theorem deleteBookmark_counts_lines_from_one a0 a1 st bi book k b :
  fromUri a0 (controller st) = Some bi ->
  file_at (controller st) bi = Some book ->
  Sorted line_lt (bookmarks book) ->
  bookmarks book !! k = Some b ->
  a1 = line b + 1 ->
  let r := deleteBookmark a0 a1 st in
  result r = Ok tt ->
  exists snapshot decorations,
    events r = CoreRemoveBookmark bi (Z.of_nat k)
               :: SaveWorkspaceState snapshot :: decorations /\
    Forall is_SetDecorations decorations /\
    snapshot !! bi = Some (mkFile (path book) (delete k (bookmarks book))) /\
    forall j, j <> bi -> snapshot !! j = fileList (controller st) !! j.
Proof.
  intros Hfrom Hfile Hsorted Hk -> r.
  pose proof (line_lt_StronglySorted _ Hsorted) as Hstrong.
  enough (wp (deleteBookmark a0 (line b + 1))
            (fun res _ ev =>
               res = Ok tt ->
               exists snapshot decorations,
                 ev = CoreRemoveBookmark bi (Z.of_nat k)
                      :: SaveWorkspaceState snapshot :: decorations /\
                 Forall is_SetDecorations decorations /\
                 snapshot !! bi
                 = Some (mkFile (path book) (delete k (bookmarks book))) /\
                 forall j, j <> bi ->
                           snapshot !! j = fileList (controller st) !! j)
            st) by done.
  unfold deleteBookmark. wp_steps. rewrite Hfrom, Hfile.
  replace (line b + 1 - 1) with (line b) by lia.
  assert (indexOfBookmark (VNumber (line b)) (bookmarks book) = Z.of_nat k)
    as ->.
  { unfold indexOfBookmark. by rewrite (indexOfBookmark_from_strict 0 _ k b). }
  wp_step.
  assert (Hbook : book_or_active (Some bi) (controller st) = Some (bi, book)).
  { unfold book_or_active. by rewrite Hfile. }
  apply wp_removeBookmark; [by rewrite Hbook|by intros ? ? ? ?|].
  intros i' f'. rewrite Hbook. intros [= <- <-] _. cbn beta iota.
  rewrite Nat2Z.id.
  save_then_redraw; [|done]. intros _. cbn.
  exists (fileList (set_bookmarks bi (delete k (bookmarks book))
                                  (controller st))), ev.
  split; [done|]. split; [done|]. split.
  - by apply file_at_set_bookmarks.
  - intros j Hj. by apply file_at_set_bookmarks_ne.
Qed.

(** [bookmarks.clearFromFile] empties the file of the node and no other:
    the snapshot it saves has that file without bookmarks and every other
    file as it was.  [bookmarks.clear] does the same for the active
    file. *)
Theorem clear_empties_one_file st :
  (forall j f,
     file_at (controller st) j = Some f ->
     result (clearFromFile (Some j) st) = Ok tt ->
     emptied_one_file st j f (events (clearFromFile (Some j) st))) /\
  (forall ed i f,
     activeEditor st = Some ed ->
     active_file (controller st) = Some (i, f) ->
     result (clear st) = Ok tt ->
     emptied_one_file st i f (events (clear st))).
Proof.
  assert (Hlookup : forall i f,
    file_at (controller st) i = Some f ->
    fileList (set_bookmarks i [] (controller st)) !! i
      = Some (mkFile (path f) []) /\
    forall k, k <> i ->
      fileList (set_bookmarks i [] (controller st)) !! k
      = fileList (controller st) !! k).
  { intros i f Hf. split.
    - by apply file_at_set_bookmarks.
    - intros k Hk. by apply file_at_set_bookmarks_ne. }
  split.
  - intros j f Hf.
    enough (wp (clearFromFile (Some j))
              (fun res _ ev => res = Ok tt -> emptied_one_file st j f ev) st)
      by done.
    unfold clearFromFile, core_clear. wp_steps.
    assert (book_or_active (Some j) (controller st) = Some (j, f)) as ->.
    { unfold book_or_active. by rewrite Hf. }
    wp_steps.
    save_then_redraw; [|done]. intros _. cbn.
    destruct (Hlookup j f Hf) as [Hj Hk].
    by exists (fileList (set_bookmarks j [] (controller st))), ev.
  - intros ed i f Hed Hact.
    enough (wp clear
              (fun res _ ev => res = Ok tt -> emptied_one_file st i f ev) st)
      by done.
    unfold clear, core_clear. wp_steps. rewrite Hed. wp_steps.
    assert (book_or_active None (controller st) = Some (i, f)) as ->.
    { exact Hact. }
    wp_steps.
    save_then_redraw; [|done]. intros _. cbn.
    apply active_file_Some in Hact as [_ Hf].
    destruct (Hlookup i f Hf) as [Hj Hk].
    by exists (fileList (set_bookmarks i [] (controller st))), ev.
Qed.

End Removing.

(** ** The handlers on sample inputs *)

Section Examples.
Import Sample.
#[local] Existing Instance Sample.collaborators.

(** C1, at a failing input: [a.ts] has five lines and its bookmarks are at
    lines 10 and 2, in that order.  The pass finds the one at line 10
    invalid, looks it up with [indexOfBookmark(element)], gets -1, and
    [splice(-1, 1)] removes the last entry: the bookmark at line 2 goes
    and the one at line 10 stays. *)
Theorem updateDecorations_removes_the_last_entry :
  active_file
    (controller
       (state_after
          (updateDecorations
             (editing_a host0 0 [bookmark_at 10; bookmark_at 2]))))
  = Some (0%nat, mkFile "/w/a.ts" [bookmark_at 10]).
Proof. reflexivity. Qed.

Lemma updateDecorations_clears_empty_document_witness :
  let st := mkState (mkController [mkFile "/w/a.ts" [bookmark_at 1; bookmark_at 3]]
                                  (Some 0%nat))
                    (Some 1) false
                    (Some (mkEditor (mkDocument "/w/a.ts" [""]) (mkPosition 0 0)))
                    host0 in
  result (updateDecorations st) = Ok tt /\
  exists f',
    active_file (controller (state_after (updateDecorations st)))
      = Some (0%nat, f') /\
    bookmarks f' = [].
Proof.
  apply (updateDecorations_clears_empty_document _
           (mkEditor (mkDocument "/w/a.ts" [""]) (mkPosition 0 0)) 0%nat
           (mkFile "/w/a.ts" [bookmark_at 1; bookmark_at 3]));
    reflexivity.
Defined.

(** C3, at a failing input: bookmarks are kept in the workspace state and
    the text stored there is ["{"].  [JSON.parse] throws, nothing
    catches it, and no message is shown. *)
Theorem loadWorkspaceState_throws_on_malformed_workspace_state :
  let st := initial_state (mkHost false false "" None ∅ (Some "{") []) in
  result (loadWorkspaceState st)
    = Throw (SyntaxError "Unexpected token in JSON") /\
  events (loadWorkspaceState st) = [].
Proof. split; reflexivity. Qed.

Lemma toggle_and_label_leave_sorted_witness :
  (exists i f,
     active_file
       (controller
          (state_after (toggle (editing_a host0 2 [bookmark_at 1; bookmark_at 3]))))
       = Some (i, f) /\
     sorted_set (bookmarks f))
  /\
  (exists b f,
     book_or_active None
       (controller
          (state_after
             (askForBookmarkLabel (-1) (mkPosition 2 0) None true None
                (Some "todo")
                (editing_a host0 2 [bookmark_at 1; bookmark_at 3]))))
       = Some (b, f) /\
     sorted_set (bookmarks f)).
Proof.
  split.
  - apply (proj1 toggle_and_label_leave_sorted _ (mkEditor doc_a (mkPosition 2 0)));
      reflexivity.
  - apply (proj2 toggle_and_label_leave_sorted (-1) (mkPosition 2 0) None true
             None "todo"); reflexivity.
Defined.

Lemma toggle_removes_or_adds_witness :
  (let r := toggle (editing_a host0 3 [bookmark_at 1; bookmark_at 3]) in
   List.filter is_mutation (events r) = [CoreRemoveBookmark 0 1] /\
   toggled_to (mkEditor doc_a (mkPosition 3 0)) 0
              (mkFile "/w/a.ts" [bookmark_at 1; bookmark_at 3])
              [bookmark_at 1] r /\
   forall f', file_at (controller (state_after r)) 0 = Some f' ->
              3 ∉ line <$> bookmarks f')
  /\
  (let r := toggle (editing_a host0 2 [bookmark_at 1; bookmark_at 3]) in
   List.filter is_mutation (events r) = [CoreAddBookmark 0 2] /\
   toggled_to (mkEditor doc_a (mkPosition 2 0)) 0
              (mkFile "/w/a.ts" [bookmark_at 1; bookmark_at 3])
              [bookmark_at 1; bookmark_at 2; bookmark_at 3] r /\
   exists f', file_at (controller (state_after r)) 0 = Some f' /\
              bookmark_at 2 ∈ bookmarks f').
Proof.
  split.
  - destruct (toggle_removes_or_adds
                (editing_a host0 3 [bookmark_at 1; bookmark_at 3])
                (mkEditor doc_a (mkPosition 3 0)) 0%nat
                (mkFile "/w/a.ts" [bookmark_at 1; bookmark_at 3])
                eq_refl eq_refl) as (Hremove & _ & _).
    destruct Hremove as (_ & Hev & Hto & Hgone);
      [by vm_compute|].
    split; [exact Hev|]. split; [exact Hto|]. apply Hgone.
    apply (bool_decide_unpack _). by vm_compute.
  - destruct (toggle_removes_or_adds
                (editing_a host0 2 [bookmark_at 1; bookmark_at 3])
                (mkEditor doc_a (mkPosition 2 0)) 0%nat
                (mkFile "/w/a.ts" [bookmark_at 1; bookmark_at 3])
                eq_refl eq_refl) as (_ & Hadd & _).
    destruct Hadd as (_ & Hev & Hto & Hkept); [reflexivity|].
    split; [exact Hev|]. split; [exact Hto|]. apply Hkept.
    + by vm_compute.
    + intros [Hcount _]. by vm_compute in Hcount.
Defined.

Lemma jump_searches_the_file_first_witness :
  events (jump Forward two_files)
    = [CoreNextBookmark Forward; CoreNextDocumentWithBookmarks Forward;
       OpenTextDocument "/w/b.ts"; ShowTextDocument "/w/b.ts"; Reveal 0 0]
  /\
  events (jump Backward two_files)
    = [CoreNextBookmark Backward; CoreNextDocumentWithBookmarks Backward;
       OpenTextDocument "/w/b.ts"; ShowTextDocument "/w/b.ts"; Reveal 2 0].
Proof.
  split.
  - destruct (jump_searches_the_file_first Forward two_files
                (mkEditor doc_a (mkPosition 1 0)) 0%nat (mkFile "/w/a.ts" [])
                eq_refl eq_refl) as (_ & _ & _ & Hother).
    apply (Hother (-4) "/w/b.ts" (mkEditor doc_b (mkPosition 0 0)) 1%nat
             (mkFile "/w/b.ts" [bookmark_at 0; bookmark_at 2])
             (bookmark_at 0)); try reflexivity; discriminate.
  - destruct (jump_searches_the_file_first Backward two_files
                (mkEditor doc_a (mkPosition 1 0)) 0%nat (mkFile "/w/a.ts" [])
                eq_refl eq_refl) as (_ & _ & _ & Hother).
    apply (Hother (-4) "/w/b.ts" (mkEditor doc_b (mkPosition 0 0)) 1%nat
             (mkFile "/w/b.ts" [bookmark_at 0; bookmark_at 2])
             (bookmark_at 2)); try reflexivity; discriminate.
Defined.

Lemma exhaustion_is_a_value_witness :
  let st := editing_a host0 4 [bookmark_at 1] in
  result (jump Forward st) = Ok tt /\
  jump Forward st
  = mkRun (Ok tt) st [CoreNextBookmark Forward;
                      ShowInformationMessage "No more bookmarks"].
Proof.
  destruct (exhaustion_is_a_value Forward (editing_a host0 4 [bookmark_at 1]))
    as (Hresult & _ & _ & Hjump); [discriminate|discriminate|].
  split; [exact Hresult|].
  destruct (Hjump (mkEditor doc_a (mkPosition 4 0)) 0%nat
                  (mkFile "/w/a.ts" [bookmark_at 1]) eq_refl eq_refl)
    as [Hsentinel _].
  apply (Hsentinel (-3)); [by right|reflexivity].
Defined.

Lemma mutation_is_saved_witness :
  let r := dispatch CommandToggle
             (editing_a host0 2 [bookmark_at 1; bookmark_at 3]) in
  saved_after_mutation (events r) = true /\
  saved_store (state_after r) (events r) /\
  workspaceState (host (state_after r))
  = Some (serialize false (controller (state_after r))).
Proof.
  destruct (mutation_is_saved CommandToggle
              (editing_a host0 2 [bookmark_at 1; bookmark_at 3]) eq_refl)
    as [Hsaved Hstored].
  split; [exact Hsaved|]. split; [|reflexivity].
  apply Hstored. apply Exists_cons_hd. reflexivity.
Defined.

Lemma formatter_workaround_only_redraws_witness :
  let st := editing_a host_workaround 1 [bookmark_at 1] in
  let r := onDidChangeTextDocument (insert_at_top doc_a6) st in
  result r = Ok tt /\
  Forall is_SetDecorations (events r) /\
  activeEditorCountLine (state_after r) = Some 5 /\
  host (state_after r) = host_workaround /\
  (forall j f' k b,
     file_at (controller (state_after r)) j = Some f' ->
     bookmarks f' !! k = Some b ->
     exists f, file_at (controller st) j = Some f /\
               bookmarks f !! k = Some b).
Proof.
  apply (formatter_workaround_only_redraws
           (editing_a host_workaround 1 [bookmark_at 1])
           (mkEditor doc_a (mkPosition 1 0))); reflexivity.
Defined.

(** C10, as stated, fails: the workaround is switched on, a line is
    inserted at the top of [a.ts] (five lines become six), the workaround
    is switched off, and another line is inserted.  Before that second
    change the document has six lines and the variable holds five; the
    handler passes the five to the sticky adjuster. *)
Lemma count_line_is_stale_after_the_workaround :
  let st := run_events [DidChangeConfiguration true false;
                        DidChangeTextDocument (insert_at_top doc_a6);
                        DidChangeConfiguration false false]
                       (editing_a host0 1 [bookmark_at 1]) in
  (exists ed, activeEditor st = Some ed /\ lineCount (document ed) = 6) /\
  activeEditorCountLine st = Some 5 /\
  events (onDidChangeTextDocument (insert_at_top doc_a7) st)
    = [CoreSticky (Some 5) true; SetDecorations [3];
       SaveWorkspaceState [mkFile "/w/a.ts" [bookmark_at 3]]].
Proof.
  split; [|split]; [|reflexivity|reflexivity].
  eexists. split; reflexivity.
Qed.

Lemma count_line_is_the_pre_edit_count_witness :
  let st := state_after (activate (Some (mkEditor doc_a (mkPosition 1 0)))
                                  (initial_state host0)) in
  count_tracks st /\
  count_tracks
    (state_after (dispatch (DidChangeTextDocument (insert_at_top doc_a6)) st)).
Proof.
  pose proof count_line_is_the_pre_edit_count as (Hactivate & _ & Hrun & _).
  split; [apply Hactivate|].
  eapply Hrun; [apply Hactivate|].
  apply reaches_step; [apply reaches_refl|]. intros _. reflexivity.
Defined.

Lemma loadWorkspaceState_project_file_catches_witness :
  (let st := initial_state
               (host_project {[ "/w/.vscode/bookmarks.json" := "{" ]}) in
   exists e,
     loadWorkspaceState st
     = mkRun (Ok false) st
         [ShowErrorMessage ("Error loading Bookmarks: " +:+ Exn_toString e)])
  /\
  (let st := initial_state
               (host_project
                  {[ "/w/.vscode/bookmarks.json" := half_readable ]}) in
   exists e,
     @loadWorkspaceState strict st
     = mkRun (Ok false)
         (with_controller (mkController [mkFile "/w/a.ts" []] None) st)
         [ShowErrorMessage ("Error loading Bookmarks: " +:+ Exn_toString e)]).
Proof.
  split.
  - exists (SyntaxError "Unexpected token in JSON").
    destruct (loadWorkspaceState_project_file_catches
                (initial_state
                   (host_project {[ "/w/.vscode/bookmarks.json" := "{" ]}))
                "/w" [] "{" (SyntaxError "Unexpected token in JSON"))
      as [Hparse _]; [reflexivity..|].
    apply Hparse. reflexivity.
  - exists (TypeError "bookmarks is not iterable").
    destruct (@loadWorkspaceState_project_file_catches strict
                (initial_state
                   (host_project
                      {[ "/w/.vscode/bookmarks.json" := half_readable ]}))
                "/w" [] half_readable
                (TypeError "bookmarks is not iterable"))
      as [_ Hload]; [reflexivity..|].
    destruct (Sample.JSON_parse half_readable) as [json|] eqn:Hparse;
      [|by vm_compute in Hparse].
    apply (Hload json); [exact Hparse|].
    vm_compute in Hparse. injection Hparse as <-. reflexivity.
Defined.

Lemma loadWorkspaceState_nothing_persisted_witness :
  loadWorkspaceState (initial_state host0)
    = mkRun (Ok false) (initial_state host0) []
  /\
  loadWorkspaceState (initial_state (host_project ∅))
    = mkRun (Ok false) (initial_state (host_project ∅)) [].
Proof.
  split.
  - apply (proj1 (loadWorkspaceState_nothing_persisted (initial_state host0)));
      reflexivity.
  - apply (proj2 (loadWorkspaceState_nothing_persisted
                    (initial_state (host_project ∅))) "/w" []); reflexivity.
Defined.

Lemma updateDecorations_prunes_sorted_witness :
  active_file
    (controller
       (state_after
          (updateDecorations
             (editing_a host0 0 [bookmark_at 2; bookmark_at 5; bookmark_at 6;
                                 bookmark_at 10]))))
  = Some (0%nat, mkFile "/w/a.ts" [bookmark_at 2; bookmark_at 5]).
Proof.
  apply (updateDecorations_prunes_sorted
           (editing_a host0 0 [bookmark_at 2; bookmark_at 5; bookmark_at 6;
                               bookmark_at 10])
           (mkEditor doc_a (mkPosition 0 0)) 0%nat
           (mkFile "/w/a.ts" [bookmark_at 2; bookmark_at 5; bookmark_at 6;
                              bookmark_at 10]));
    [reflexivity|reflexivity| |].
  - intros [Hcount _]. discriminate Hcount.
  - repeat constructor; unfold line_le; cbn; lia.
Defined.

End Examples.

(** ** The views and the other commands on sample inputs *)

Section MoreExamples.
Import Sample.
#[local] Existing Instance Sample.collaborators.
#[local] Existing Instance Sample.platform.

Lemma load_reads_what_save_wrote_witness :
  loadWorkspaceState
    (state_after (saveWorkspaceState (editing_a host0 0 [bookmark_at 1])))
  = mkRun (Ok true)
      (with_controller
         (mkController [mkFile "/w/a.ts" [bookmark_at 1]] None)
         (state_after (saveWorkspaceState (editing_a host0 0 [bookmark_at 1]))))
      [].
Proof.
  eapply (proj1 (load_reads_what_save_wrote
                   (editing_a host0 0 [bookmark_at 1]) eq_refl));
    [reflexivity|vm_compute; discriminate|vm_compute; reflexivity
    |vm_compute; reflexivity].
Defined.

Lemma clearFromAllFiles_removes_the_project_file_witness :
  let st := editing_a
              (host_project {[ "/w/.vscode/bookmarks.json" := "{}" ]})
              0 [bookmark_at 1] in
  let r := clearFromAllFiles st in
  result r = Ok tt /\
  Forall (fun f => bookmarks f = []) (fileList (controller (state_after r))) /\
  path <$> fileList (controller (state_after r))
    = path <$> fileList (controller st) /\
  fs_files (host (state_after r)) !! bookmarksFileInProject "/w" = None.
Proof.
  apply (clearFromAllFiles_removes_the_project_file
           (editing_a (host_project {[ "/w/.vscode/bookmarks.json" := "{}" ]})
                      0 [bookmark_at 1]) "/w" []); reflexivity.
Defined.

Lemma updateDecorations_draws_the_lines_within_witness :
  events (updateDecorations (editing_a host0 0 [bookmark_at 10; bookmark_at 2]))
  = [SetDecorations [2]].
Proof.
  apply (updateDecorations_draws_the_lines_within
           (editing_a host0 0 [bookmark_at 10; bookmark_at 2])
           (mkEditor doc_a (mkPosition 0 0)) 0%nat
           (mkFile "/w/a.ts" [bookmark_at 10; bookmark_at 2]));
    reflexivity.
Defined.

Lemma updateDecorations_again_witness :
  let st := editing_a host0 0 [bookmark_at 2; bookmark_at 10] in
  updateDecorations (state_after (updateDecorations st))
  = mkRun (Ok tt) (state_after (updateDecorations st))
          (events (updateDecorations st)).
Proof.
  apply (updateDecorations_again
           (editing_a host0 0 [bookmark_at 2; bookmark_at 10])
           (mkEditor doc_a (mkPosition 0 0)) 0%nat
           (mkFile "/w/a.ts" [bookmark_at 2; bookmark_at 10]));
    [reflexivity|reflexivity|].
  repeat constructor; unfold line_le; cbn; lia.
Defined.

Lemma commands_need_an_editor_witness :
  toggle (initial_state host0)
  = mkRun (Ok tt) (initial_state host0)
      [ShowInformationMessage "Open a file first to toggle bookmarks"].
Proof.
  apply (commands_need_an_editor (initial_state host0) None Forward
           (selected 0 1) []).
  reflexivity.
Defined.

Lemma jump_wraps_around_in_the_active_document_witness :
  let st := editing_a host0 4 [bookmark_at 1; bookmark_at 3] in
  @jump wrapping Forward st
  = mkRun (Ok tt)
          (mkState (controller st) (activeEditorCountLine st) (timeout st)
                   (Some (mkEditor doc_a (mkPosition 1 0))) (host st))
          [CoreNextBookmark Forward; CoreNextDocumentWithBookmarks Forward;
           Reveal 1 0].
Proof.
  apply (@jump_wraps_around_in_the_active_document wrapping Forward
           (editing_a host0 4 [bookmark_at 1; bookmark_at 3])
           (mkEditor doc_a (mkPosition 4 0)) 0%nat
           (mkFile "/w/a.ts" [bookmark_at 1; bookmark_at 3]) (-4)
           (bookmark_at 1)); try reflexivity; discriminate.
Defined.

Lemma editLabel_replaces_in_place_witness :
  let st := editing_a host0 0 [mkBookmark 1 0 "old"; bookmark_at 3] in
  exists snapshot decorations,
    events (editLabel "/w/a.ts" 2 5 (Some "new") st)
    = CoreRemoveBookmark 0 0 :: CoreAddBookmark 0 1
      :: SaveWorkspaceState snapshot :: decorations /\
    Forall is_SetDecorations decorations /\
    snapshot !! 0%nat
    = Some (mkFile "/w/a.ts" [mkBookmark 1 4 "new"; bookmark_at 3]).
Proof.
  apply (editLabel_replaces_in_place "/w/a.ts" 2 5 "new"
           (editing_a host0 0 [mkBookmark 1 0 "old"; bookmark_at 3]) 0%nat
           (mkFile "/w/a.ts" [mkBookmark 1 0 "old"; bookmark_at 3]) 0%nat
           (mkBookmark 1 0 "old"));
    try reflexivity; try discriminate.
  repeat constructor; unfold line_lt; cbn; lia.
Defined.

Lemma toggle_twice_restores_witness :
  let st := editing_a host0 2 [bookmark_at 1; bookmark_at 3] in
  let st1 := state_after (toggle st) in
  (exists f1 b,
     active_file (controller st1) = Some (0%nat, f1) /\
     b ∈ bookmarks f1 /\
     line b = 2 /\ column b = 0 /\ label b = "") /\
  controller (state_after (toggle st1)) = controller st.
Proof.
  apply (toggle_twice_restores
           (editing_a host0 2 [bookmark_at 1; bookmark_at 3])
           (mkEditor doc_a (mkPosition 2 0)) 0%nat
           (mkFile "/w/a.ts" [bookmark_at 1; bookmark_at 3]));
    try reflexivity.
  - cbn. intros Hin.
    repeat (apply elem_of_cons in Hin as [Hin|Hin]; [discriminate|]).
    by apply elem_of_nil in Hin.
  - repeat constructor; unfold line_le; cbn; lia.
  - repeat (constructor; [by vm_compute|]). constructor.
  - by vm_compute.
  - intros [Hcount _]. discriminate Hcount.
Defined.

Lemma outside_path_round_trip_witness :
  let e := mkListed "x" "(Ln 1, Col 1)" "/tmp/x.ts" in
  let item := all_files_item "/w/a.ts" (Some [folder_w]) (Some folder_w) e in
  item_detail item = Some "$(file-directory) /tmp/x.ts" /\
  selected_item_path "/w/a.ts" (Some [folder_w]) (Some folder_w) item
  = Ok "/tmp/x.ts".
Proof.
  apply (outside_path_round_trip [folder_w]
           (mkListed "x" "(Ln 1, Col 1)" "/tmp/x.ts") (Some folder_w)
           "/w/a.ts"); [vm_compute; discriminate| |reflexivity].
  repeat constructor.
Defined.

Lemma folder_path_round_trip_witness :
  let e := mkListed "y" "(Ln 3, Col 1)" "/w/src/b.ts" in
  let item := all_files_item "/w/a.ts" (Some [folder_w]) (Some folder_w) e in
  item_detail item = Some "/src/b.ts" /\
  selected_item_path "/w/a.ts" (Some [folder_w]) (Some folder_w) item
  = Ok "/w/src/b.ts".
Proof.
  apply (folder_path_round_trip [folder_w] folder_w "/src/b.ts"
           (mkListed "y" "(Ln 3, Col 1)" "/w/src/b.ts") (Some folder_w)
           "/w/a.ts");
    try reflexivity; try (vm_compute; discriminate); try discriminate.
  by left.
Defined.

Lemma removeBasePathFrom_after_last_occurrence_witness :
  exists pre shown,
    removeBasePathFrom (Some [folder_w]) "/w/x/w/y.ts" (Some folder_w)
    = Some shown /\
    "/w/x/w/y.ts" = pre +:+ "/w" +:+ shown /\
    index_is_not_found shown "/w" = true.
Proof.
  apply (removeBasePathFrom_after_last_occurrence [folder_w] "/w/x/w/y.ts"
           folder_w (Some folder_w));
    [reflexivity|discriminate|by left].
Defined.

Lemma listFromAllFiles_sorts_by_group_witness :
  exists items,
    listFromAllFiles (Some [folder_w]) (fun _ => Some folder_w) listed_values
                     (editing_a host0 0 [bookmark_at 1])
    = ListingItems items /\
    Sorted group_le items /\
    items ≡ₚ all_files_items "/w/a.ts" (Some [folder_w]) (Some folder_w)
                             listed_values.
Proof.
  apply (proj2 (listFromAllFiles_sorts_by_group (Some [folder_w])
                  (fun _ => Some folder_w) listed_values
                  (editing_a host0 0 [bookmark_at 1])));
    [reflexivity|].
  let items := eval vm_compute in
    (all_files_items "/w/a.ts" (Some [folder_w]) (Some folder_w)
                     listed_values) in
  change (Forall marks_lead items).
  repeat (constructor;
          [intros Hgroup;
           first [by vm_compute in Hgroup|split; reflexivity]|]).
  constructor.
Defined.

Lemma list_bookmarks_needs_lines_of_the_document_witness :
  list_bookmarks (editing_a host0 0 [bookmark_at 1; mkBookmark 3 2 "todo"])
  = ListingItems [mkItem "b" "(Ln 2, Col 1)" None;
                  mkItem "$(tag) todo" "(Ln 4, Col 3)" None].
Proof.
  apply (proj1 (list_bookmarks_needs_lines_of_the_document
                  (editing_a host0 0 [bookmark_at 1; mkBookmark 3 2 "todo"])
                  (mkEditor doc_a (mkPosition 0 0)) 0%nat
                  (mkFile "/w/a.ts" [bookmark_at 1; mkBookmark 3 2 "todo"])
                  eq_refl eq_refl ltac:(discriminate))).
  repeat (constructor; [by vm_compute|]). constructor.
Defined.

Lemma list_fails_on_a_bookmark_the_redraw_keeps_witness :
  let st := editing_a host0 0 [bookmark_at 1; bookmark_at 5] in
  let st' := state_after (updateDecorations st) in
  (exists f', active_file (controller st') = Some (0%nat, f') /\
              bookmark_at 5 ∈ bookmarks f') /\
  exists l, list_bookmarks st' = IllegalLine l /\ ~ (0 <= l < 5).
Proof.
  apply (list_fails_on_a_bookmark_the_redraw_keeps
           (editing_a host0 0 [bookmark_at 1; bookmark_at 5])
           (mkEditor doc_a (mkPosition 0 0)) 0%nat
           (mkFile "/w/a.ts" [bookmark_at 1; bookmark_at 5]) (bookmark_at 5));
    try reflexivity.
  - intros [Hcount _]. discriminate Hcount.
  - repeat constructor; unfold line_le; cbn; lia.
  - cbn. right. left.
Defined.

Lemma shrinkSelection_stays_within_the_selection_witness :
  let st := editing_a host0 4 [bookmark_at 1; bookmark_at 3] in
  ([] : list Selection) = [] /\ isEmpty (selected 0 4) = false /\
  (exists i f,
     active_file (controller st) = Some (i, f) /\
     nextBookmark f (sel_end (selected 0 4)) Backward
     = Resolved (inr (mkPosition 3 0))) /\
  Backward = Backward /\ 0 <= 3.
Proof.
  exact (shrinkSelection_stays_within_the_selection (selected 0 4) []
           (editing_a host0 4 [bookmark_at 1; bookmark_at 3])
           (mkPosition 3 0) Backward eq_refl).
Defined.

Lemma selection_commands_need_an_active_file_witness :
  selectLines unknown_a = Throw (TypeError "activeBookmark is undefined").
Proof.
  apply (selection_commands_need_an_active_file unknown_a
           (mkEditor doc_a (mkPosition 0 0)) Forward (selected 0 1));
    reflexivity.
Defined.

Lemma activate_registers_the_active_document_witness :
  activate (Some (mkEditor doc_a (mkPosition 0 0))) (initial_state host0)
  = mkRun (Ok tt)
      (mkState (mkController [mkFile "/w/a.ts" []] (Some 0%nat)) (Some 5) true
               (Some (mkEditor doc_a (mkPosition 0 0))) host0)
      []
  /\
  activate (Some (mkEditor doc_a (mkPosition 0 0))) (initial_state host_icon)
  = mkRun (Ok tt)
      (mkState (mkController [mkFile "/w/a.ts" []] (Some 0%nat)) (Some 5) true
               (Some (mkEditor doc_a (mkPosition 0 0))) host_icon)
      [ShowErrorMessage (icon_missing_message "/w/icon.svg")].
Proof.
  split.
  - exact (proj1 (activate_registers_the_active_document host0
                    eq_refl eq_refl)
                 (mkEditor doc_a (mkPosition 0 0))).
  - exact (proj1 (activate_registers_the_active_document host_icon
                    eq_refl eq_refl)
                 (mkEditor doc_a (mkPosition 0 0))).
Defined.

Lemma toggleLabeled_needs_a_label_witness :
  toggleLabeled (Some "") (editing_a host0 2 [bookmark_at 1])
  = mkRun (Ok tt) (editing_a host0 2 [bookmark_at 1])
      [ShowWarningMessage "You must define a label for the bookmark."].
Proof.
  apply (proj2 (toggleLabeled_needs_a_label
                  (editing_a host0 2 [bookmark_at 1])
                  (mkEditor doc_a (mkPosition 2 0)) 0%nat
                  (mkFile "/w/a.ts" [bookmark_at 1]) eq_refl eq_refl)).
  left. by vm_compute.
Defined.

Lemma deleteBookmark_counts_lines_from_one_witness :
  let st := editing_a host0 0 [bookmark_at 1; bookmark_at 3] in
  exists snapshot decorations,
    events (deleteBookmark "/w/a.ts" 4 st)
    = CoreRemoveBookmark 0 1 :: SaveWorkspaceState snapshot :: decorations /\
    Forall is_SetDecorations decorations /\
    snapshot !! 0%nat = Some (mkFile "/w/a.ts" [bookmark_at 1]) /\
    forall j, j <> 0%nat -> snapshot !! j = fileList (controller st) !! j.
Proof.
  apply (deleteBookmark_counts_lines_from_one "/w/a.ts" 4
           (editing_a host0 0 [bookmark_at 1; bookmark_at 3]) 0%nat
           (mkFile "/w/a.ts" [bookmark_at 1; bookmark_at 3]) 1%nat
           (bookmark_at 3));
    try reflexivity.
  repeat constructor; unfold line_lt; cbn; lia.
Defined.

Lemma clear_empties_one_file_witness :
  let st := editing_a host0 0 [bookmark_at 1; bookmark_at 3] in
  emptied_one_file st 0 (mkFile "/w/a.ts" [bookmark_at 1; bookmark_at 3])
                   (events (clearFromFile (Some 0%nat) st)).
Proof.
  apply (proj1 (clear_empties_one_file
                  (editing_a host0 0 [bookmark_at 1; bookmark_at 3]))
               0%nat (mkFile "/w/a.ts" [bookmark_at 1; bookmark_at 3]));
    reflexivity.
Defined.

End MoreExamples.
